(** * WEBUI: the chat page script and the knowledge-base (RAG) client

    A shallow embedding of the browser scripts of the repository
    (the chat page script with the integrated knowledge base, its later
    revision that only shows a knowledge-base summary, and [rag.js]) and
    the properties of their toggle, top-K, retrieval-display and model
    selection logic, of the conversation and its speech, of the actions on
    the knowledge base and of the connection panel.

    Conventions of the embedding:
    - a JavaScript string is a Rocq [string] holding its UTF-8 bytes;
    - a JavaScript number is a binary64 [float] (Rocq's primitive floats);
      the result of [parseInt] is kept as the mathematical integer it
      denotes, together with the test that tells whether that integer
      still is a finite double;
    - JSON payloads and untyped arguments are values of [JsVal];
    - the page is a record [Page] of the elements the scripts look up by
      id (an element a script guards with [if (el)] is an [option]), of the
      [window] properties they read, and of a log of the requests sent;
    - the connection panel, which no other script touches, is a record
      [Connect] of its own, and [fetchAppInfo] a function on it;
    - a function that can throw runs in the monad [M]: state changes made
      before a throw stay, as in JavaScript;
    - an [async] function takes the answers of the server to its [fetch]
      calls as arguments and is run to completion. *)

From Stdlib Require Import ZArith List String Ascii Bool Lia QArith Qround.
From Stdlib Require Import PrimFloat FloatOps SpecFloat FloatClass Uint63 FloatAxioms.
From stdpp Require Import gmap strings pretty.

Set Warnings "-inexact-float,-register-all".
Local Open Scope string_scope.
Local Open Scope Z_scope.

(** ** Strings *)

Module Str.

Definition of_bytes (l : list nat) : string :=
  string_of_list_ascii (List.map ascii_of_nat l).

Definition head_is_continuation (c : string) : bool :=
  match c with
  | String a _ => let n := nat_of_ascii a in (128 <=? n)%nat && (n <? 192)%nat
  | EmptyString => false
  end.

(** The characters (code points) of a string: every UTF-8 continuation
    byte belongs to the character that the byte before it belongs to. *)
Fixpoint chars (s : string) : list string :=
  match s with
  | EmptyString => []
  | String a rest =>
      match chars rest with
      | c :: cs =>
          if head_is_continuation c then String a c :: cs
          else String a EmptyString :: c :: cs
      | [] => [String a EmptyString]
      end
  end.

(** WhiteSpace and LineTerminator of ECMA-262: TAB, LF, VT, FF, CR, SP,
    U+00A0, U+1680, U+2000..U+200A, U+2028, U+2029, U+202F, U+205F,
    U+3000, U+FEFF. *)
Definition white_space : list string :=
  List.map of_bytes
    [ [9]; [10]; [11]; [12]; [13]; [32]; [194; 160]; [225; 154; 128];
      [226; 128; 128]; [226; 128; 129]; [226; 128; 130]; [226; 128; 131];
      [226; 128; 132]; [226; 128; 133]; [226; 128; 134]; [226; 128; 135];
      [226; 128; 136]; [226; 128; 137]; [226; 128; 138];
      [226; 128; 168]; [226; 128; 169]; [226; 128; 175]; [226; 129; 159];
      [227; 128; 128]; [239; 187; 191] ]%nat.

Definition is_white_space (c : string) : bool :=
  existsb (String.eqb c) white_space.

Fixpoint drop_white (cs : list string) : list string :=
  match cs with
  | c :: cs' => if is_white_space c then drop_white cs' else cs
  | [] => []
  end.

Definition trimStart_chars (s : string) : list string := drop_white (chars s).

(** [String.prototype.trim]. *)
Definition trim (s : string) : string :=
  String.concat "" (rev (drop_white (rev (trimStart_chars s)))).

Definition is_digit (c : string) : bool :=
  match c with
  | String a EmptyString =>
      let n := nat_of_ascii a in (48 <=? n)%nat && (n <=? 57)%nat
  | _ => false
  end.

Definition digit_value (c : string) : Z :=
  match c with
  | String a _ => Z.of_nat (nat_of_ascii a) - 48
  | EmptyString => 0
  end.

(** The longest prefix of decimal digits, read as an integer; [None]
    when there is no digit. [acc] is the value read so far. *)
Fixpoint digits_prefix (acc : option Z) (cs : list string) : option Z :=
  match cs with
  | c :: cs' =>
      if is_digit c
      then digits_prefix (Some (10 * default 0 acc + digit_value c)) cs'
      else acc
  | [] => acc
  end.

(** [encodeURIComponent]: every byte outside [A-Za-z0-9-_.!~*'()] is
    written as a percent sign and two hexadecimal digits. *)
Definition hex_digit (n : nat) : ascii :=
  ascii_of_nat (if (n <? 10)%nat then 48 + n else 55 + n).

Definition uri_unreserved (a : ascii) : bool :=
  let n := nat_of_ascii a in
  ((48 <=? n) && (n <=? 57) || (65 <=? n) && (n <=? 90)
   || (97 <=? n) && (n <=? 122)
   || existsb (Nat.eqb n) [45; 95; 46; 33; 126; 42; 39; 40; 41])%nat.

Fixpoint encodeURIComponent (s : string) : string :=
  match s with
  | EmptyString => EmptyString
  | String a rest =>
      if uri_unreserved a then String a (encodeURIComponent rest)
      else
        let n := nat_of_ascii a in
        String "%" (String (hex_digit (n / 16)) (String (hex_digit (n mod 16))
          (encodeURIComponent rest)))
  end.

Definition newline : string := String (ascii_of_nat 10) EmptyString.

End Str.

(** ** Integers read by [parseInt] *)

(** [parseInt(s, 10)]: leading white space is skipped, one sign is read,
    then the longest run of decimal digits. [None] stands for [NaN]; the
    integer is the mathematical value the resulting double is rounded from. *)
Definition parseInt (s : string) : option Z :=
  match Str.trimStart_chars s with
  | c :: cs =>
      if String.eqb c "-" then option_map Z.opp (Str.digits_prefix None cs)
      else if String.eqb c "+" then Str.digits_prefix None cs
      else Str.digits_prefix None (c :: cs)
  | [] => None
  end.

(** An integer is rounded to an infinite double exactly when its absolute
    value reaches [2^1024 - 2^970], half an ulp above the largest double. *)
Definition rounds_to_infinity (z : Z) : bool :=
  2 ^ 1024 - 2 ^ 970 <=? Z.abs z.

(** [Number.isFinite] of the result of [parseInt]. *)
Definition Number_isFinite_int (v : option Z) : bool :=
  match v with
  | Some z => negb (rounds_to_infinity z)
  | None => false
  end.

(** ** Numbers *)

Module Num.

(** [Number.isNaN] and [Number.isFinite] of a number. *)
Definition isNaN (x : float) : bool := negb (PrimFloat.eqb x x).

Definition isFinite (x : float) : bool :=
  match Prim2SF x with
  | S754_zero _ | S754_finite _ _ _ => true
  | S754_infinity _ | S754_nan => false
  end.

Definition is_neg_zero (x : float) : bool :=
  match classify x with NZero => true | _ => false end.

Definition is_pos_zero (x : float) : bool :=
  match classify x with PZero => true | _ => false end.

(** [Math.max] and [Math.min] of two arguments: [NaN] if one of them is,
    and [+0] counts as larger than [-0]. *)
Definition Math_max (a b : float) : float :=
  if isNaN a || isNaN b then nan
  else if PrimFloat.ltb a b then b
  else if PrimFloat.ltb b a then a
  else if is_neg_zero a then b else a.

Definition Math_min (a b : float) : float :=
  if isNaN a || isNaN b then nan
  else if PrimFloat.ltb a b then a
  else if PrimFloat.ltb b a then b
  else if is_pos_zero a then b else a.

(** The double of an integer below [2^53] in absolute value. *)
Definition of_Z (z : Z) : float :=
  let a := PrimFloat.of_uint63 (Uint63.of_Z (Z.abs z)) in
  if z <? 0 then PrimFloat.opp a else a.

(** [Math.round]: the integer nearest to [x], a tie going towards
    [+Infinity]; [NaN], the zeros, the infinities and the integers are
    returned as they are, and a result of zero keeps the sign of [x].
    A finite double is [m * 2^e]; when [e < 0] the result is
    [floor (x + 1/2)], computed exactly. *)
Definition Math_round (x : float) : float :=
  match Prim2SF x with
  | S754_finite s m e =>
      if 0 <=? e then x
      else
        let sm := if s then Z.neg m else Z.pos m in
        let n := (2 * sm + 2 ^ (- e)) / 2 ^ (1 - e) in
        if n =? 0 then (if s then (-0)%float else 0%float) else of_Z n
  | _ => x
  end.

(** *** [Number::toString] (radix 10) *)

Definition Qpow10 (n : Z) : Q := Qpower (inject_Z 10) n.

Definition Qlt_bool (a b : Q) : bool := negb (Qle_bool b a).

(** The decimal exponent [n] with [10^(n-1) <= x < 10^n], searched from
    the estimate [est]. *)
Fixpoint decimal_exponent (fuel : nat) (x : Q) (est : Z) : Z :=
  match fuel with
  | O => est
  | S fuel' =>
      if Qlt_bool x (Qpow10 (est - 1)) then decimal_exponent fuel' x (est - 1)
      else if Qle_bool (Qpow10 est) x then decimal_exponent fuel' x (est + 1)
      else est
  end.

(** The integer nearest to [q], the even one at a tie. *)
Definition Qnearest (q : Q) : Z :=
  let f := Qfloor q in
  let r := Qminus q (inject_Z f) in
  if Qlt_bool r (1 # 2) then f
  else if Qlt_bool (1 # 2) r then f + 1
  else if Z.even f then f else f + 1.

(** The [k]-digit integer [s] with [s * 10^(n-k)] inside the interval
    of the reals that round to the double, nearest to the double. *)
Definition digits_at (lo hi x : Q) (closed : bool) (k n : Z) : option Z :=
  let scale := Qpow10 (n - k) in
  let l := Qdiv lo scale in
  let h := Qdiv hi scale in
  let s_lo := if closed then Qceiling l else Qfloor l + 1 in
  let s_hi := if closed then Qfloor h else Qceiling h - 1 in
  let s_min := Z.max s_lo (10 ^ (k - 1)) in
  let s_max := Z.min s_hi (10 ^ k - 1) in
  if s_min <=? s_max
  then Some (Z.max s_min (Z.min s_max (Qnearest (Qdiv x scale))))
  else None.

(** The shortest digits: the least [k] for which [digits_at] succeeds,
    with its exponent [n]. *)
Fixpoint shortest (ks : list Z) (lo hi x : Q) (closed : bool) (n0 : Z)
  : option (Z * Z * Z) :=
  match ks with
  | k :: ks' =>
      match digits_at lo hi x closed k n0 with
      | Some s => Some (n0, k, s)
      | None =>
          match digits_at lo hi x closed k (n0 + 1) with
          | Some s => Some (n0 + 1, k, s)
          | None => shortest ks' lo hi x closed n0
          end
      end
  | [] => None
  end.

Definition zeros (n : Z) : string :=
  String.concat "" (repeat "0" (Z.to_nat n)).

Definition exponent_string (e : Z) : string :=
  (if e <? 0 then "e-" else "e+") +:+ pretty (Z.abs e).

(** The text of the positive finite double [m * 2^e]. *)
Definition positive_toString (m : positive) (e : Z) : string :=
  let x := Qmult (inject_Z (Z.pos m)) (Qpower (inject_Z 2) e) in
  let half := Qpower (inject_Z 2) (e - 1) in
  let hi := Qplus x half in
  let lo :=
    if (Z.pos m =? 2 ^ 52) && (-1074 <? e)
    then Qminus x (Qpower (inject_Z 2) (e - 2))
    else Qminus x half in
  let est := ((Z.log2 (Z.pos m) + e) * 30103) / 100000 + 1 in
  let n0 := decimal_exponent 4 x est in
  match shortest (List.map Z.of_nat (seq 1 17)) lo hi x (Z.even (Z.pos m)) n0 with
  | Some (n, k, s) =>
      let ds := pretty s in
      if (k <=? n) && (n <=? 21) then ds +:+ zeros (n - k)
      else if (0 <? n) && (n <=? 21)
      then String.substring 0 (Z.to_nat n) ds +:+ "."
           +:+ String.substring (Z.to_nat n) (Z.to_nat (k - n)) ds
      else if (-6 <? n) && (n <=? 0) then "0." +:+ zeros (- n) +:+ ds
      else if k =? 1 then ds +:+ exponent_string (n - 1)
      else String.substring 0 1 ds +:+ "."
           +:+ String.substring 1 (Z.to_nat (k - 1)) ds
           +:+ exponent_string (n - 1)
  | None => ""
  end.

Definition Number_toString (x : float) : string :=
  match Prim2SF x with
  | S754_nan => "NaN"
  | S754_zero _ => "0"
  | S754_infinity s => if s then "-Infinity" else "Infinity"
  | S754_finite s m e =>
      (if s then "-" else "") +:+ positive_toString m e
  end.

End Num.

(** ** JavaScript values *)

(** JSON values and [undefined]. An object lists its own properties; a
    property is looked up from the front of the list. *)
Inductive JsVal : Type :=
| JUndefined
| JNull
| JBool (b : bool)
| JNum (x : float)
| JStr (s : string)
| JArr (items : list JsVal)
| JObj (props : list (string * JsVal)).

Record Exn := { exn_name : string; message : string }.

Definition TypeError (msg : string) : Exn := {| exn_name := "TypeError"; message := msg |}.
Definition Error (msg : string) : Exn := {| exn_name := "Error"; message := msg |}.
Definition SyntaxError (msg : string) : Exn := {| exn_name := "SyntaxError"; message := msg |}.

Module Js.

(** [ToBoolean]. *)
Definition truthy (v : JsVal) : bool :=
  match v with
  | JUndefined | JNull => false
  | JBool b => b
  | JNum x => negb (Num.isNaN x || PrimFloat.eqb x 0)
  | JStr s => negb (String.eqb s "")
  | JArr _ | JObj _ => true
  end.

(** [a || b]. *)
Definition or (a b : JsVal) : JsVal := if truthy a then a else b.

Definition is_nullish (v : JsVal) : bool :=
  match v with JUndefined | JNull => true | _ => false end.

(** [ToString]; an array joins its elements with commas, [null] and
    [undefined] elements giving the empty string. *)
Fixpoint ToString (v : JsVal) : string :=
  match v with
  | JUndefined => "undefined"
  | JNull => "null"
  | JBool b => if b then "true" else "false"
  | JNum x => Num.Number_toString x
  | JStr s => s
  | JArr items =>
      String.concat ","
        (List.map (fun e => if is_nullish e then "" else ToString e) items)
  | JObj _ => "[object Object]"
  end.

(** The string an element shows after [el.textContent = v]: [null] and
    [undefined] clear the text. *)
Definition text_of (v : JsVal) : string :=
  if is_nullish v then "" else ToString v.

Fixpoint lookup_prop (k : string) (props : list (string * JsVal)) : JsVal :=
  match props with
  | (k', v) :: rest => if String.eqb k k' then v else lookup_prop k rest
  | [] => JUndefined
  end.

(** The error of reading a property of [null] or [undefined], with the
    text V8 gives it. *)
Definition cannot_read (v : JsVal) (k : string) : Exn :=
  TypeError ("Cannot read properties of " +:+ ToString v
             +:+ " (reading '" +:+ k +:+ "')").

(** [v.k], for a key [k] that no prototype defines ([score], [text],
    [documents], ...): an own property of an object, [undefined] on any
    other value, and a [TypeError] on [null] and [undefined]. *)
Definition get (v : JsVal) (k : string) : Exn + JsVal :=
  match v with
  | JUndefined | JNull => inl (cannot_read v k)
  | JObj props => inr (lookup_prop k props)
  | _ => inr JUndefined
  end.

(** [v?.k]. *)
Definition get_opt (v : JsVal) (k : string) : JsVal :=
  match v with
  | JObj props => lookup_prop k props
  | _ => JUndefined
  end.

Definition isArray (v : JsVal) : bool :=
  match v with JArr _ => true | _ => false end.

(** [v === n] for a number [n]. *)
Definition strict_eq_num (v : JsVal) (n : float) : bool :=
  match v with JNum x => PrimFloat.eqb x n | _ => false end.

(** [v.length === 0] for a value that is not [null] or [undefined]: an
    empty array, an empty string, or an object whose own [length] is zero. *)
Definition length_is_zero (v : JsVal) : bool :=
  match v with
  | JArr items => match items with [] => true | _ :: _ => false end
  | JStr s => String.eqb s ""
  | JObj props => strict_eq_num (lookup_prop "length" props) 0
  | _ => false
  end.

(** The values [for (const m of v)] runs through; [None] when [v] is
    not iterable. A string is iterated by code points. *)
Definition iterate (v : JsVal) : option (list JsVal) :=
  match v with
  | JArr items => Some items
  | JStr s => Some (List.map JStr (Str.chars s))
  | _ => None
  end.

Definition not_iterable (v : JsVal) : Exn :=
  TypeError (ToString v +:+ " is not iterable").

End Js.

(** ** The page *)

Record Toggle := { checked : bool; disabled : bool }.

(** An element that shows a status: its text and whether its class list
    holds [error] and [success]. *)
Record Status := { status_text : string; is_error : bool; is_success : bool }.

Record SelectOption := { opt_value : string; opt_text : string }.

(** A drop-down [select]: at most one option is selected. *)
Record Select := { options : list SelectOption; selectedIndex : option nat }.

Record Button := { btn_disabled : bool; btn_text : string }.

Record Msg := { className : string; msg_text : string }.

(** A list item of the knowledge base: the preview, the chunk count, the
    creation date when it is shown, the description of the source (written
    by [rag.js] only) and the id its remove button deletes. *)
Record DocItem := {
  preview : string;
  chunkInfo : string;
  created : option string;
  source : option string;
  remove_id : JsVal
}.

Record ResultItem := { header : string; content : string }.

(** [#ragResults]: its [hidden] attribute and the items of the [ol] inside
    it, [None] when it holds no [ol]. *)
Record Results := { hidden : bool; ol : option (list ResultItem) }.

Record Voice := { voice_name : string; voice_lang : string }.

Record Utterance := {
  utter_text : string;
  utter_voice : option Voice;
  utter_lang : string
}.

(** [window.localStorage]: unavailable (the property is missing or
    reading it throws), or a store whose [setItem] throws when it is full. *)
Inductive LocalStorage :=
| NoStorage
| Storage (items : gmap string string) (full : bool).

Record Window := {
  DEFAULT_MODEL : option string;
  RAG_MAX_CHARS : JsVal;
  localStorage : LocalStorage;
  speechSynthesis : option (list Voice)
}.

Inductive Body :=
| NoBody
| ChatBody (model : string) (messages : list (string * string))
           (temperature : float) (rag_top_k : option Z)
| TextBody (text : string)
| TtsBody (text : JsVal).

Record Request := { method : string; url : string; body : Body }.

(** The answer to a [fetch]: the promise is rejected, or a response
    arrives with a status and a body that [res.json()] parses or rejects. *)
Inductive Json := Malformed (msg : string) | Parsed (v : JsVal).

Inductive FetchResult :=
| NetworkError (msg : string)
| Response (status : nat) (json : Json).

(** [if (el)] for an element looked up by id. *)
Definition present {A} (el : option A) : bool :=
  match el with Some _ => true | None => false end.

Definition ok (status : nat) : bool := (200 <=? status)%nat && (status <=? 299)%nat.

(** The page: the elements the scripts look up by id, the properties of
    [window] they read, and what they send and say. The elements that a
    script uses without a guard (the prompt, the temperature, the model
    selector, the send button, the history) are always there; the others
    may be missing, as on the knowledge-base page. *)
Record Page := {
  prompt : string;                      (* value of [textarea#prompt] *)
  temperature : string;                 (* value of [input#temperature] *)
  model : Select;                       (* [select#model] *)
  send : Button;                        (* [button#send] *)
  history : list Msg;                   (* children of [#history] *)
  ragToggle : option Toggle;            (* [input#ragToggle], a checkbox *)
  ragTopK : option string;              (* value of [input#ragTopK] *)
  ragResults : option Results;          (* [#ragResults] and its [ol] *)
  ragList : option (list DocItem);      (* items of [#ragList] *)
  ragStatus : option Status;            (* [#ragStatus] *)
  ragModelName : option string;         (* text of [#ragModelName] *)
  ragSummaryText : option string;       (* text of [#ragSummaryText] *)
  ragInput : option string;             (* value of [textarea#ragInput] *)
  clearRag : option bool;               (* [disabled] of [button#clearRag] *)
  ttsToggle : option bool;              (* [checked] of [input#ttsToggle] *)
  window : Window;                      (* properties of [window] *)
  requests : list Request;              (* the calls of [fetch], oldest first *)
  spoken : list Utterance;              (* the calls of [speechSynthesis.speak] *)
  lastAssistantText : JsVal             (* the script variable of that name *)
}.

(** The page with one field replaced. *)
Definition set_prompt (v : string) (p : Page) : Page :=
  {| prompt := v; temperature := p.(temperature); model := p.(model);
     send := p.(send); history := p.(history); ragToggle := p.(ragToggle);
     ragTopK := p.(ragTopK); ragResults := p.(ragResults);
     ragList := p.(ragList); ragStatus := p.(ragStatus);
     ragModelName := p.(ragModelName); ragSummaryText := p.(ragSummaryText);
     ragInput := p.(ragInput); clearRag := p.(clearRag);
     ttsToggle := p.(ttsToggle); window := p.(window);
     requests := p.(requests); spoken := p.(spoken);
     lastAssistantText := p.(lastAssistantText) |}.

Definition set_model (v : Select) (p : Page) : Page :=
  {| prompt := p.(prompt); temperature := p.(temperature); model := v;
     send := p.(send); history := p.(history); ragToggle := p.(ragToggle);
     ragTopK := p.(ragTopK); ragResults := p.(ragResults);
     ragList := p.(ragList); ragStatus := p.(ragStatus);
     ragModelName := p.(ragModelName); ragSummaryText := p.(ragSummaryText);
     ragInput := p.(ragInput); clearRag := p.(clearRag);
     ttsToggle := p.(ttsToggle); window := p.(window);
     requests := p.(requests); spoken := p.(spoken);
     lastAssistantText := p.(lastAssistantText) |}.

Definition set_send (v : Button) (p : Page) : Page :=
  {| prompt := p.(prompt); temperature := p.(temperature);
     model := p.(model); send := v; history := p.(history);
     ragToggle := p.(ragToggle); ragTopK := p.(ragTopK);
     ragResults := p.(ragResults); ragList := p.(ragList);
     ragStatus := p.(ragStatus); ragModelName := p.(ragModelName);
     ragSummaryText := p.(ragSummaryText); ragInput := p.(ragInput);
     clearRag := p.(clearRag); ttsToggle := p.(ttsToggle);
     window := p.(window); requests := p.(requests); spoken := p.(spoken);
     lastAssistantText := p.(lastAssistantText) |}.

Definition set_history (v : list Msg) (p : Page) : Page :=
  {| prompt := p.(prompt); temperature := p.(temperature);
     model := p.(model); send := p.(send); history := v;
     ragToggle := p.(ragToggle); ragTopK := p.(ragTopK);
     ragResults := p.(ragResults); ragList := p.(ragList);
     ragStatus := p.(ragStatus); ragModelName := p.(ragModelName);
     ragSummaryText := p.(ragSummaryText); ragInput := p.(ragInput);
     clearRag := p.(clearRag); ttsToggle := p.(ttsToggle);
     window := p.(window); requests := p.(requests); spoken := p.(spoken);
     lastAssistantText := p.(lastAssistantText) |}.

Definition set_ragToggle (v : option Toggle) (p : Page) : Page :=
  {| prompt := p.(prompt); temperature := p.(temperature);
     model := p.(model); send := p.(send); history := p.(history);
     ragToggle := v; ragTopK := p.(ragTopK); ragResults := p.(ragResults);
     ragList := p.(ragList); ragStatus := p.(ragStatus);
     ragModelName := p.(ragModelName); ragSummaryText := p.(ragSummaryText);
     ragInput := p.(ragInput); clearRag := p.(clearRag);
     ttsToggle := p.(ttsToggle); window := p.(window);
     requests := p.(requests); spoken := p.(spoken);
     lastAssistantText := p.(lastAssistantText) |}.

Definition set_ragTopK (v : option string) (p : Page) : Page :=
  {| prompt := p.(prompt); temperature := p.(temperature);
     model := p.(model); send := p.(send); history := p.(history);
     ragToggle := p.(ragToggle); ragTopK := v; ragResults := p.(ragResults);
     ragList := p.(ragList); ragStatus := p.(ragStatus);
     ragModelName := p.(ragModelName); ragSummaryText := p.(ragSummaryText);
     ragInput := p.(ragInput); clearRag := p.(clearRag);
     ttsToggle := p.(ttsToggle); window := p.(window);
     requests := p.(requests); spoken := p.(spoken);
     lastAssistantText := p.(lastAssistantText) |}.

Definition set_ragResults (v : option Results) (p : Page) : Page :=
  {| prompt := p.(prompt); temperature := p.(temperature);
     model := p.(model); send := p.(send); history := p.(history);
     ragToggle := p.(ragToggle); ragTopK := p.(ragTopK); ragResults := v;
     ragList := p.(ragList); ragStatus := p.(ragStatus);
     ragModelName := p.(ragModelName); ragSummaryText := p.(ragSummaryText);
     ragInput := p.(ragInput); clearRag := p.(clearRag);
     ttsToggle := p.(ttsToggle); window := p.(window);
     requests := p.(requests); spoken := p.(spoken);
     lastAssistantText := p.(lastAssistantText) |}.

Definition set_ragList (v : option (list DocItem)) (p : Page) : Page :=
  {| prompt := p.(prompt); temperature := p.(temperature);
     model := p.(model); send := p.(send); history := p.(history);
     ragToggle := p.(ragToggle); ragTopK := p.(ragTopK);
     ragResults := p.(ragResults); ragList := v; ragStatus := p.(ragStatus);
     ragModelName := p.(ragModelName); ragSummaryText := p.(ragSummaryText);
     ragInput := p.(ragInput); clearRag := p.(clearRag);
     ttsToggle := p.(ttsToggle); window := p.(window);
     requests := p.(requests); spoken := p.(spoken);
     lastAssistantText := p.(lastAssistantText) |}.

Definition set_ragStatus (v : option Status) (p : Page) : Page :=
  {| prompt := p.(prompt); temperature := p.(temperature);
     model := p.(model); send := p.(send); history := p.(history);
     ragToggle := p.(ragToggle); ragTopK := p.(ragTopK);
     ragResults := p.(ragResults); ragList := p.(ragList); ragStatus := v;
     ragModelName := p.(ragModelName); ragSummaryText := p.(ragSummaryText);
     ragInput := p.(ragInput); clearRag := p.(clearRag);
     ttsToggle := p.(ttsToggle); window := p.(window);
     requests := p.(requests); spoken := p.(spoken);
     lastAssistantText := p.(lastAssistantText) |}.

Definition set_ragModelName (v : option string) (p : Page) : Page :=
  {| prompt := p.(prompt); temperature := p.(temperature);
     model := p.(model); send := p.(send); history := p.(history);
     ragToggle := p.(ragToggle); ragTopK := p.(ragTopK);
     ragResults := p.(ragResults); ragList := p.(ragList);
     ragStatus := p.(ragStatus); ragModelName := v;
     ragSummaryText := p.(ragSummaryText); ragInput := p.(ragInput);
     clearRag := p.(clearRag); ttsToggle := p.(ttsToggle);
     window := p.(window); requests := p.(requests); spoken := p.(spoken);
     lastAssistantText := p.(lastAssistantText) |}.

Definition set_ragSummaryText (v : option string) (p : Page) : Page :=
  {| prompt := p.(prompt); temperature := p.(temperature);
     model := p.(model); send := p.(send); history := p.(history);
     ragToggle := p.(ragToggle); ragTopK := p.(ragTopK);
     ragResults := p.(ragResults); ragList := p.(ragList);
     ragStatus := p.(ragStatus); ragModelName := p.(ragModelName);
     ragSummaryText := v; ragInput := p.(ragInput); clearRag := p.(clearRag);
     ttsToggle := p.(ttsToggle); window := p.(window);
     requests := p.(requests); spoken := p.(spoken);
     lastAssistantText := p.(lastAssistantText) |}.

Definition set_ragInput (v : option string) (p : Page) : Page :=
  {| prompt := p.(prompt); temperature := p.(temperature);
     model := p.(model); send := p.(send); history := p.(history);
     ragToggle := p.(ragToggle); ragTopK := p.(ragTopK);
     ragResults := p.(ragResults); ragList := p.(ragList);
     ragStatus := p.(ragStatus); ragModelName := p.(ragModelName);
     ragSummaryText := p.(ragSummaryText); ragInput := v;
     clearRag := p.(clearRag); ttsToggle := p.(ttsToggle);
     window := p.(window); requests := p.(requests); spoken := p.(spoken);
     lastAssistantText := p.(lastAssistantText) |}.

Definition set_clearRag (v : option bool) (p : Page) : Page :=
  {| prompt := p.(prompt); temperature := p.(temperature);
     model := p.(model); send := p.(send); history := p.(history);
     ragToggle := p.(ragToggle); ragTopK := p.(ragTopK);
     ragResults := p.(ragResults); ragList := p.(ragList);
     ragStatus := p.(ragStatus); ragModelName := p.(ragModelName);
     ragSummaryText := p.(ragSummaryText); ragInput := p.(ragInput);
     clearRag := v; ttsToggle := p.(ttsToggle); window := p.(window);
     requests := p.(requests); spoken := p.(spoken);
     lastAssistantText := p.(lastAssistantText) |}.

Definition set_window (v : Window) (p : Page) : Page :=
  {| prompt := p.(prompt); temperature := p.(temperature);
     model := p.(model); send := p.(send); history := p.(history);
     ragToggle := p.(ragToggle); ragTopK := p.(ragTopK);
     ragResults := p.(ragResults); ragList := p.(ragList);
     ragStatus := p.(ragStatus); ragModelName := p.(ragModelName);
     ragSummaryText := p.(ragSummaryText); ragInput := p.(ragInput);
     clearRag := p.(clearRag); ttsToggle := p.(ttsToggle); window := v;
     requests := p.(requests); spoken := p.(spoken);
     lastAssistantText := p.(lastAssistantText) |}.

Definition set_requests (v : list Request) (p : Page) : Page :=
  {| prompt := p.(prompt); temperature := p.(temperature);
     model := p.(model); send := p.(send); history := p.(history);
     ragToggle := p.(ragToggle); ragTopK := p.(ragTopK);
     ragResults := p.(ragResults); ragList := p.(ragList);
     ragStatus := p.(ragStatus); ragModelName := p.(ragModelName);
     ragSummaryText := p.(ragSummaryText); ragInput := p.(ragInput);
     clearRag := p.(clearRag); ttsToggle := p.(ttsToggle);
     window := p.(window); requests := v; spoken := p.(spoken);
     lastAssistantText := p.(lastAssistantText) |}.

Definition set_spoken (v : list Utterance) (p : Page) : Page :=
  {| prompt := p.(prompt); temperature := p.(temperature);
     model := p.(model); send := p.(send); history := p.(history);
     ragToggle := p.(ragToggle); ragTopK := p.(ragTopK);
     ragResults := p.(ragResults); ragList := p.(ragList);
     ragStatus := p.(ragStatus); ragModelName := p.(ragModelName);
     ragSummaryText := p.(ragSummaryText); ragInput := p.(ragInput);
     clearRag := p.(clearRag); ttsToggle := p.(ttsToggle);
     window := p.(window); requests := p.(requests); spoken := v;
     lastAssistantText := p.(lastAssistantText) |}.

Definition set_lastAssistantText (v : JsVal) (p : Page) : Page :=
  {| prompt := p.(prompt); temperature := p.(temperature);
     model := p.(model); send := p.(send); history := p.(history);
     ragToggle := p.(ragToggle); ragTopK := p.(ragTopK);
     ragResults := p.(ragResults); ragList := p.(ragList);
     ragStatus := p.(ragStatus); ragModelName := p.(ragModelName);
     ragSummaryText := p.(ragSummaryText); ragInput := p.(ragInput);
     clearRag := p.(clearRag); ttsToggle := p.(ttsToggle);
     window := p.(window); requests := p.(requests); spoken := p.(spoken);
     lastAssistantText := v |}.

(** ** The monad of page scripts *)

Inductive Outcome (A : Type) : Type :=
| Normal (a : A)
| Thrown (e : Exn).
Arguments Normal {A} a.
Arguments Thrown {A} e.

(** A script step reads and changes the page, and returns or throws. *)
Definition M (A : Type) : Type := Page -> Outcome A * Page.

Definition ret {A} (a : A) : M A := fun p => (Normal a, p).

Definition throw {A} (e : Exn) : M A := fun p => (Thrown e, p).

Definition bind {A B} (m : M A) (k : A -> M B) : M B :=
  fun p =>
    match m p with
    | (Normal a, p') => k a p'
    | (Thrown e, p') => (Thrown e, p')
    end.

(** [try { m } catch (e) { h e }]. *)
Definition try_catch {A} (m : M A) (h : Exn -> M A) : M A :=
  fun p =>
    match m p with
    | (Normal a, p') => (Normal a, p')
    | (Thrown e, p') => h e p'
    end.

(** [try { m } finally { f }], for an [f] that does not throw. *)
Definition finally {A} (m : M A) (f : Page -> Page) : M A :=
  fun p => let (r, p') := m p in (r, f p').

(** A step that only changes the page. *)
Definition modify (f : Page -> Page) : M unit := fun p => (Normal tt, f p).

(** A step that only reads the page. *)
Definition read {A} (f : Page -> A) : M A := fun p => (Normal (f p), p).

(** A value that was computed, or the exception its computation threw. *)
Definition lift {A} (r : Exn + A) : M A :=
  match r with
  | inl e => throw e
  | inr a => ret a
  end.

Declare Scope script_scope.
Delimit Scope script_scope with script.
Notation "x <- m ;; k" := (bind m (fun x => k))
  (at level 100, m at next level, right associativity) : script_scope.
Notation "m ;; k" := (bind m (fun _ => k))
  (at level 100, right associativity) : script_scope.
Local Open Scope script_scope.

(** The page after a script ran, and how the script ended. *)
Definition exec {A} (m : M A) (p : Page) : Page := snd (m p).
Definition outcome {A} (m : M A) (p : Page) : Outcome A := fst (m p).

Definition returns {A} (m : M A) (p : Page) : bool :=
  match outcome m p with Normal _ => true | Thrown _ => false end.

(** ** Requests *)

(** [fetch(url, {method, body})], answered by [ans]: the request is
    logged; a network error rejects the promise. *)
Definition fetch (req : Request) (ans : FetchResult) : M (nat * Json) :=
  modify (fun p => set_requests (p.(requests) ++ [req])%list p) ;;
  match ans with
  | NetworkError msg => throw (TypeError msg)
  | Response status json => ret (status, json)
  end.

(** [await res.json()]. *)
Definition json_of (j : Json) : M JsVal :=
  match j with
  | Malformed msg => throw (SyntaxError msg)
  | Parsed v => ret v
  end.

(** [await res.json().catch(() => ({}))]. *)
Definition json_or_empty (j : Json) : JsVal :=
  match j with
  | Malformed _ => JObj []
  | Parsed v => v
  end.

Definition GET (u : string) : Request := {| method := "GET"; url := u; body := NoBody |}.
Definition DELETE (u : string) : Request := {| method := "DELETE"; url := u; body := NoBody |}.
Definition POST (u : string) (b : Body) : Request := {| method := "POST"; url := u; body := b |}.

(** ** The preference store *)

Module STORAGE_KEYS.
Definition model : string := "ollama-webui:selected-model".
Definition ragEnabled : string := "ollama-webui:rag-enabled".
Definition ragTopK : string := "ollama-webui:rag-top-k".
End STORAGE_KEYS.

(** [getStoredItem]: [None] is [null]. *)
Definition getStoredItem (key : string) (p : Page) : option string :=
  match p.(window).(localStorage) with
  | Storage items _ => items !! key
  | NoStorage => None
  end.

Definition set_localStorage (st : LocalStorage) (w : Window) : Window :=
  {| DEFAULT_MODEL := w.(DEFAULT_MODEL); RAG_MAX_CHARS := w.(RAG_MAX_CHARS);
     localStorage := st; speechSynthesis := w.(speechSynthesis) |}.

(** [setStoredItem]: a failure of the store is ignored. *)
Definition setStoredItem (key value : string) (p : Page) : Page :=
  match p.(window).(localStorage) with
  | Storage items false =>
      set_window (set_localStorage (Storage (<[key := value]> items) false) p.(window)) p
  | Storage _ true | NoStorage => p
  end.

(** ** The model selector *)

Module Sel.

(** [sel.innerHTML = '']. *)
Definition empty : Select := {| options := []; selectedIndex := None |}.

(** [sel.appendChild(opt)]: when no option is selected the first one
    becomes the selected one. *)
Definition appendChild (opt : SelectOption) (sel : Select) : Select :=
  {| options := (sel.(options) ++ [opt])%list;
     selectedIndex :=
       match sel.(selectedIndex) with
       | Some i => Some i
       | None => Some 0%nat
       end |}.

Fixpoint index_of (v : string) (opts : list SelectOption) : option nat :=
  match opts with
  | o :: rest =>
      if String.eqb o.(opt_value) v then Some 0%nat
      else option_map S (index_of v rest)
  | [] => None
  end.

(** [sel.value = v]: the first option with that value is selected, and
    none when there is no such option. *)
Definition set_value (v : string) (sel : Select) : Select :=
  {| options := sel.(options); selectedIndex := index_of v sel.(options) |}.

(** [sel.value]. *)
Definition value (sel : Select) : string :=
  match sel.(selectedIndex) with
  | Some i =>
      match nth_error sel.(options) i with
      | Some o => o.(opt_value)
      | None => ""
      end
  | None => ""
  end.

End Sel.

Definition or_string (a b : string) : string := if String.eqb a "" then b else a.

(** [window.DEFAULT_MODEL || 'llama3.2:1b']. *)
Definition default_model (p : Page) : string :=
  or_string (default "" p.(window).(DEFAULT_MODEL)) "llama3.2:1b".

(** [getStoredItem(STORAGE_KEYS.model) || window.DEFAULT_MODEL || 'llama3.2:1b']. *)
Definition preferred_model (p : Page) : string :=
  or_string (default "" (getStoredItem STORAGE_KEYS.model p)) (default_model p).

Definition append_option (o : SelectOption) : M unit :=
  modify (fun p => set_model (Sel.appendChild o p.(model)) p).

(** [for (const m of models) { ...appendChild(opt); available.add(m) }]. *)
Fixpoint append_models (ms : list JsVal) : M unit :=
  match ms with
  | m :: rest =>
      append_option {| opt_value := Js.ToString m; opt_text := Js.text_of m |} ;;
      append_models rest
  | [] => ret tt
  end.

(** [available.has(preferred)] for the set of the listed models. *)
Definition has_model (preferred : string) (ms : list JsVal) : bool :=
  existsb (fun m => match m with JStr s => String.eqb s preferred | _ => false end) ms.

(** [fetchModels], with the answer to [GET /api/models]. *)
Definition fetchModels (ans : FetchResult) : M unit :=
  modify (set_model Sel.empty) ;;
  try_catch
    ( res <- fetch (GET "/api/models") ans ;;
      data <- json_of (snd res) ;;
      listed <- lift (Js.get data "models") ;;
      let models := Js.or listed (JArr []) in
      preferred <- read preferred_model ;;
      available <-
        (if Js.length_is_zero models
         then
           append_option {| opt_value := preferred;
                            opt_text := preferred +:+ " (ej installerad än)" |} ;;
           ret [JStr preferred]
         else
           match Js.iterate models with
           | Some ms => append_models ms ;; ret ms
           | None => throw (Js.not_iterable models)
           end) ;;
      (if has_model preferred available then ret tt
       else append_option {| opt_value := preferred;
                             opt_text := preferred +:+ " (standard)" |}) ;;
      modify (fun p => set_model (Sel.set_value preferred p.(model)) p) )
    (fun e =>
       fallback <- read default_model ;;
       append_option {| opt_value := fallback;
                        opt_text := fallback +:+ " (endpoint otillgänglig)" |} ;;
       modify (fun p => set_model (Sel.set_value fallback p.(model)) p)).

(** The handler of [change] on the model selector. *)
Definition on_model_change (p : Page) : Page :=
  setStoredItem STORAGE_KEYS.model (Sel.value p.(model)) p.

(** ** The knowledge base on the chat page *)

Record StatusOverride := { so_text : string; so_type : string }.

Record Summary := { count : nat; chunkCount : float }.

(** [setRagStatus(message, type)]. *)
Definition setRagStatus (message type : string) (p : Page) : Page :=
  match p.(ragStatus) with
  | Some _ =>
      set_ragStatus
        (Some {| status_text := message;
                 is_error := String.eqb type "error";
                 is_success := String.eqb type "success" |}) p
  | None => p
  end.

(** The rule of the retrieval toggle, as [renderRagDocs] and
    [renderRagSummary] both have it:
    [if (toggleEl) { if (docs.length === 0) {...} else {...} }]. *)
Definition reconcile_toggle (n_docs : nat) (p : Page) : Page :=
  match p.(ragToggle) with
  | Some t =>
      if (n_docs =? 0)%nat
      then
        setStoredItem STORAGE_KEYS.ragEnabled "0"
          (set_ragToggle (Some {| checked := false; disabled := true |}) p)
      else
        let p' := set_ragToggle (Some {| checked := t.(checked); disabled := false |}) p in
        match getStoredItem STORAGE_KEYS.ragEnabled p' with
        | Some stored =>
            set_ragToggle
              (Some {| checked := String.eqb stored "1"; disabled := false |}) p'
        | None => p'
        end
  | None => p
  end.

(** The [catch] branch of the fetches of the knowledge base:
    [if (toggleEl) { toggleEl.checked = false; toggleEl.disabled = true; }]. *)
Definition switch_toggle_off (p : Page) : Page :=
  match p.(ragToggle) with
  | Some _ => set_ragToggle (Some {| checked := false; disabled := true |}) p
  | None => p
  end.

(** [Array.isArray(payload?.documents) ? payload.documents : []]. *)
Definition documents_of (payload : JsVal) : list JsVal :=
  match Js.get_opt payload "documents" with
  | JArr docs => docs
  | _ => []
  end.

Section Scripts.

(** Functions of the browser that are left open: [parseFloat], the
    conversion of a string to a number, and the text that
    [new Date(v).toLocaleString('sv-SE')] gives ([None] when the date is
    invalid). *)
Variable parseFloat : string -> float.
Variable StringToNumber : string -> float.
Variable Date_toLocaleString : JsVal -> option string.

(** [Number(v)]. *)
Definition Number (v : JsVal) : float :=
  match v with
  | JUndefined => nan
  | JNull => 0%float
  | JBool b => if b then 1%float else 0%float
  | JNum x => x
  | JStr s => StringToNumber s
  | JArr _ | JObj _ => StringToNumber (Js.ToString v)
  end.

(** [Number((payload?.stats || {}).chunk_count) || 0]. *)
Definition chunk_count_of (payload : JsVal) : float :=
  let stats := Js.or (Js.get_opt payload "stats") (JObj []) in
  let n := Number (Js.get_opt stats "chunk_count") in
  if Js.truthy (JNum n) then n else 0%float.

(** The list item of one document. *)
Definition doc_item (doc : JsVal) : Exn + DocItem :=
  match Js.get doc "preview" with
  | inl e => inl e
  | inr pv =>
      let created_at := Js.get_opt doc "created_at" in
      inr {| preview := Js.text_of (Js.or pv (JStr "[Tom text]"));
             chunkInfo :=
               Js.ToString (Js.or (Js.get_opt doc "chunks") (JNum 0)) +:+ " utdrag";
             created :=
               if Js.truthy created_at then Date_toLocaleString created_at else None;
             source := None;
             remove_id := Js.get_opt doc "id" |}
  end.

(** [for (const doc of docs) { ... listEl.appendChild(li); }]. *)
Fixpoint append_docs (docs : list JsVal) : M unit :=
  match docs with
  | doc :: rest =>
      li <- lift (doc_item doc) ;;
      modify (fun p => set_ragList (Some (default [] p.(ragList) ++ [li])%list) p) ;;
      append_docs rest
  | [] => ret tt
  end.

(** [renderRagDocs(payload)] of the chat page. *)
Definition renderRagDocs (payload : JsVal) : M Summary :=
  let docs := documents_of payload in
  let chunkCount := chunk_count_of payload in
  modify (fun p =>
    match p.(ragModelName) with
    | Some _ =>
        let name := Js.get_opt payload "embedding_model" in
        if Js.truthy payload && Js.truthy name
        then set_ragModelName (Some (Js.text_of name)) p else p
    | None => p
    end) ;;
  has_list <- read (fun p => present p.(ragList)) ;;
  (if has_list
   then modify (set_ragList (Some [])) ;; append_docs docs
   else ret tt) ;;
  modify (reconcile_toggle (List.length docs)) ;;
  ret {| count := List.length docs; chunkCount := chunkCount |}.

(** The text [Texter: n • c utdrag.]. *)
Definition summary_text (n : nat) (c : float) : string :=
  "Texter: " +:+ pretty n +:+ " • " +:+ Num.Number_toString c +:+ " utdrag.".

Definition http_error (status : nat) : string := "HTTP " +:+ pretty status.

(** The status after a listing: the override when it has a text, or
    the summary of the listing. *)
Definition status_after (statusOverride : option StatusOverride) (summary : Summary)
  (p : Page) : Page :=
  match statusOverride with
  | Some {| so_text := String a t; so_type := ty |} =>
      setRagStatus (String a t) (or_string ty "info") p
  | _ =>
      if (summary.(count) =? 0)%nat
      then setRagStatus "Ingen text har lagts till ännu." "info" p
      else setRagStatus (summary_text summary.(count) summary.(chunkCount)) "info" p
  end.

(** [fetchRagDocs(statusOverride)] of the chat page, with the answer to
    [GET /api/rag/docs]. *)
Definition fetchRagDocs (ans : FetchResult) (statusOverride : option StatusOverride)
  : M unit :=
  has_list <- read (fun p => present p.(ragList)) ;;
  if negb has_list then ret tt
  else
    (if statusOverride is None
     then modify (setRagStatus "Hämtar kunskapsbas…" "info") else ret tt) ;;
    try_catch
      ( res <- fetch (GET "/api/rag/docs") ans ;;
        (if ok (fst res) then ret tt else throw (Error (http_error (fst res)))) ;;
        data <- json_of (snd res) ;;
        summary <- renderRagDocs data ;;
        modify (status_after statusOverride summary) )
      (fun e =>
         modify (setRagStatus ("Kunde inte hämta kunskapsbasen: " +:+ e.(message)) "error") ;;
         modify (set_ragList (Some [])) ;;
         modify switch_toggle_off).

(** [throw new Error(data.detail || ('HTTP ' + res.status))]. *)
Definition throw_detail {A} (data : JsVal) (status : nat) : M A :=
  detail <- lift (Js.get data "detail") ;;
  throw (Error (Js.ToString (Js.or detail (JStr (http_error status))))).

(** [addRagDoc], with the answers to [POST /api/rag/docs] and to the
    [GET] that follows a success. *)
Definition addRagDoc (posted listed : FetchResult) : M unit :=
  input <- read ragInput ;;
  match input with
  | None => ret tt
  | Some value =>
      let text := Str.trim value in
      if String.eqb text ""
      then modify (setRagStatus "Skriv eller klistra in text först." "error")
      else
        modify (setRagStatus "Lägger till text…" "info") ;;
        try_catch
          ( res <- fetch (POST "/api/rag/docs" (TextBody text)) posted ;;
            let data := json_or_empty (snd res) in
            (if ok (fst res) then ret tt else throw_detail data (fst res)) ;;
            modify (set_ragInput (Some "")) ;;
            fetchRagDocs listed
              (Some {| so_text := "Texten lades till i kunskapsbasen.";
                       so_type := "success" |}) )
          (fun e =>
             modify (setRagStatus ("Kunde inte lägga till text: " +:+ e.(message)) "error"))
  end.

(** [deleteRagDoc(id)]. *)
Definition deleteRagDoc (id : JsVal) (deleted listed : FetchResult) : M unit :=
  if negb (Js.truthy id) then ret tt
  else
    try_catch
      ( res <- fetch (DELETE ("/api/rag/docs/" +:+ Str.encodeURIComponent (Js.ToString id)))
                     deleted ;;
        let data := json_or_empty (snd res) in
        (if ok (fst res) then ret tt else throw_detail data (fst res)) ;;
        fetchRagDocs listed
          (Some {| so_text := "Texten togs bort."; so_type := "success" |}) )
      (fun e =>
         modify (setRagStatus ("Kunde inte ta bort text: " +:+ e.(message)) "error")).

(** [clearRagDocs]; [confirmed] is the answer of the user to
    [window.confirm]. *)
Definition clearRagDocs (confirmed : bool) (deleted listed : FetchResult) : M unit :=
  has_list <- read (fun p => present p.(ragList)) ;;
  if negb has_list then ret tt
  else if negb confirmed then ret tt
  else
    try_catch
      ( res <- fetch (DELETE "/api/rag/docs") deleted ;;
        let data := json_or_empty (snd res) in
        (if ok (fst res) then ret tt else throw_detail data (fst res)) ;;
        fetchRagDocs listed
          (Some {| so_text := "Kunskapsbasen tömdes."; so_type := "success" |}) )
      (fun e =>
         modify (setRagStatus ("Kunde inte rensa kunskapsbasen: " +:+ e.(message)) "error")).

(** *** The summary of the knowledge base (later revision of the chat page) *)

(** [renderRagSummary(payload)]. *)
Definition renderRagSummary (payload : JsVal) : M Summary :=
  let docs := documents_of payload in
  let chunkCount := chunk_count_of payload in
  modify (fun p =>
    match p.(ragSummaryText) with
    | Some _ =>
        set_ragSummaryText
          (Some (if (List.length docs =? 0)%nat
                 then "Ingen text har lagts till ännu."
                 else summary_text (List.length docs) chunkCount)) p
    | None => p
    end) ;;
  modify (reconcile_toggle (List.length docs)) ;;
  ret {| count := List.length docs; chunkCount := chunkCount |}.

Definition set_summary_text (t : string) (p : Page) : Page :=
  match p.(ragSummaryText) with
  | Some _ => set_ragSummaryText (Some t) p
  | None => p
  end.

(** [fetchRagSummary], with the answer to [GET /api/rag/docs]. *)
Definition fetchRagSummary (ans : FetchResult) : M unit :=
  modify (set_summary_text "Hämtar statistik…") ;;
  try_catch
    ( res <- fetch (GET "/api/rag/docs") ans ;;
      (if ok (fst res) then ret tt else throw (Error (http_error (fst res)))) ;;
      data <- json_of (snd res) ;;
      summary <- renderRagSummary data ;;
      if (summary.(count) =? 0)%nat
      then modify (set_summary_text "Ingen text har lagts till ännu.")
      else ret tt )
    (fun e =>
       modify (set_summary_text ("Kunde inte hämta kunskapsbasen: " +:+ e.(message))) ;;
       modify switch_toggle_off).

(** *** The retrieval display *)

(** [Math.round(Math.max(-1, Math.min(1, score)) * 1000) / 10]. *)
Definition percent (score : float) : float :=
  let clamped := Num.Math_max (-1) (Num.Math_min 1 score) in
  (Num.Math_round (clamped * 1000) / 10)%float.

(** The text after the number of the excerpt: [ • likhet p%] when
    [typeof score === 'number' && !Number.isNaN(score)]. *)
Definition similarity (score : JsVal) : string :=
  match score with
  | JNum x =>
      if Num.isNaN x then ""
      else " • likhet " +:+ Num.Number_toString (percent x) +:+ "%"
  | _ => ""
  end.

(** The list item of the excerpt at index [idx]. *)
Definition result_item (idx : nat) (item : JsVal) : Exn + ResultItem :=
  match Js.get item "score" with
  | inl e => inl e
  | inr score =>
      inr {| header := "Utdrag " +:+ pretty (idx + 1)%nat +:+ similarity score;
             content := Js.text_of (Js.or (Js.get_opt item "text") (JStr "")) |}
  end.

Definition set_ol (items : list ResultItem) (p : Page) : Page :=
  match p.(ragResults) with
  | Some wrap => set_ragResults (Some {| hidden := wrap.(hidden); ol := Some items |}) p
  | None => p
  end.

Definition set_hidden (h : bool) (p : Page) : Page :=
  match p.(ragResults) with
  | Some wrap => set_ragResults (Some {| hidden := h; ol := wrap.(ol) |}) p
  | None => p
  end.

Definition ol_items (p : Page) : list ResultItem :=
  match p.(ragResults) with
  | Some wrap => default [] wrap.(ol)
  | None => []
  end.

(** [items.forEach((item, idx) => { ... list.appendChild(li); })], from
    index [idx] on. *)
Fixpoint append_results (idx : nat) (items : list JsVal) : M unit :=
  match items with
  | item :: rest =>
      li <- lift (result_item idx item) ;;
      modify (fun p => set_ol (ol_items p ++ [li])%list p) ;;
      append_results (S idx) rest
  | [] => ret tt
  end.

(** [renderRagResults(items)]. *)
Definition renderRagResults (items : JsVal) : M unit :=
  wrap <- read ragResults ;;
  match wrap with
  | None => ret tt
  | Some w =>
      match w.(ol) with
      | None => ret tt
      | Some _ =>
          modify (set_ol []) ;;
          match items with
          | JArr (item :: rest) =>
              append_results 0 (item :: rest) ;;
              modify (set_hidden false)
          | _ => modify (set_hidden true)
          end
      end
  end.

(** *** The chat *)

Definition lower (a : ascii) : ascii :=
  let n := nat_of_ascii a in
  if (65 <=? n)%nat && (n <=? 90)%nat then ascii_of_nat (n + 32) else a.

Fixpoint toLowerCase_ascii (s : string) : string :=
  match s with
  | EmptyString => EmptyString
  | String a rest => String (lower a) (toLowerCase_ascii rest)
  end.

Fixpoint contains (needle s : string) : bool :=
  String.prefix needle s ||
  match s with
  | EmptyString => false
  | String _ rest => contains needle rest
  end.

(** [(v.lang && v.lang.toLowerCase().startsWith('sv')) ||
     /swedish|svenska/i.test(v.name)]. *)
Definition is_swedish (v : Voice) : bool :=
  String.prefix "sv" (toLowerCase_ascii v.(voice_lang))
  || contains "swedish" (toLowerCase_ascii v.(voice_name))
  || contains "svenska" (toLowerCase_ascii v.(voice_name)).

(** [speakBrowser(text)]: [false] when the browser has no speech synthesis. *)
Definition speakBrowser (text : JsVal) : M bool :=
  synth <- read (fun p => p.(window).(speechSynthesis)) ;;
  match synth with
  | None => ret false
  | Some voices =>
      let sv := List.find is_swedish voices in
      let utter :=
        {| utter_text := Js.ToString text;
           utter_voice := sv;
           utter_lang :=
             or_string (default "" (option_map voice_lang sv)) "sv-SE" |} in
      modify (fun p => set_spoken (p.(spoken) ++ [utter])%list p) ;;
      ret true
  end.

(** [downloadServerTTS(text)] up to its [await]: the request is sent
    and the caller goes on; what the answer triggers is a later turn of
    the event loop. *)
Definition downloadServerTTS (text : JsVal) : M unit :=
  modify (fun p => set_requests (p.(requests) ++ [POST "/api/tts" (TtsBody text)])%list p).

(** [addMsg(role, text)], as the page calls it once the script is
    loaded: the message is appended, and an assistant message is kept in
    [lastAssistantText] and spoken when the speech toggle is on. *)
Definition addMsg (role : string) (text : JsVal) : M unit :=
  modify (fun p =>
    set_history
      (p.(history) ++
         [{| className := "msg " +:+ (if String.eqb role "user" then "user" else "assistant");
             msg_text := Js.text_of text |}])%list p) ;;
  if String.eqb role "assistant"
  then
    modify (set_lastAssistantText text) ;;
    doTts <- read (fun p => default false p.(ttsToggle)) ;;
    if doTts : bool
    then
      spoke <- speakBrowser text ;;
      if spoke : bool then ret tt else downloadServerTTS text
    else ret tt
  else ret tt.

(** The top-K of a send: [parseInt(input?.value || '3', 10)], replaced by
    [3] when it is not finite or below [1], and by [10] when above [10]. *)
Definition clamp_topK (parsed : option Z) : Z :=
  let k :=
    match parsed with
    | Some z => if negb (Number_isFinite_int parsed) || (z <? 1) then 3 else z
    | None => 3
    end in
  if 10 <? k then 10 else k.

Definition send_topK (input : option string) : Z :=
  clamp_topK (parseInt (or_string (default "" input) "3")).

(** [!!(ragToggleEl && !ragToggleEl.disabled && ragToggleEl.checked)]. *)
Definition use_rag (p : Page) : bool :=
  match p.(ragToggle) with
  | Some t => negb t.(disabled) && t.(checked)
  | None => false
  end.

Definition system_prompt : string :=
  "Du är en hjälpsam AI som svarar på flytande svenska. Var tydlig och kortfattad.".

(** The [try], [catch] and [finally] of [sendPrompt]: the request is sent
    and its answer, [ans], is put on the page. *)
Definition chat_exchange (body : Body) (useRag : bool) (ans : FetchResult) : M unit :=
  finally
    (try_catch
       ( res <- fetch (POST "/api/chat" body) ans ;;
         (if ok (fst res) then ret tt
          else throw_detail (json_or_empty (snd res)) (fst res)) ;;
         data <- json_of (snd res) ;;
         let text :=
           Js.or (Js.get_opt (Js.get_opt data "message") "content")
                 (JStr "[Inget svar]") in
         addMsg "assistant" text ;;
         let rag_context := Js.get_opt data "rag_context" in
         if useRag || Js.isArray rag_context
         then renderRagResults (Js.or rag_context (JArr []))
         else renderRagResults (JArr []) )
       (fun e =>
          addMsg "assistant"
            (JStr ("Fel: " +:+ e.(message) +:+ Str.newline
                   +:+ "Tips: säkerställ att Ollama kör och att modellen är hämtad.")) ;;
          renderRagResults (JArr [])))
    (set_send {| btn_disabled := false; btn_text := "Skicka" |}).

(** The top-K input after a send: it shows the clamped value. *)
Definition write_back_topK (p : Page) : Page :=
  match p.(ragTopK) with
  | Some _ => set_ragTopK (Some (pretty (send_topK p.(ragTopK)))) p
  | None => p
  end.

(** [sendPrompt], with the answer to [POST /api/chat]. *)
Definition sendPrompt (ans : FetchResult) : M unit :=
  temperature <- read (fun p => parseFloat p.(temperature)) ;;
  model <- read (fun p => or_string (Sel.value p.(model)) (default_model p)) ;;
  topK <- read (fun p => send_topK p.(ragTopK)) ;;
  modify write_back_topK ;;
  useRag <- read use_rag ;;
  userText <- read (fun p => Str.trim p.(prompt)) ;;
  if String.eqb userText "" then ret tt
  else
    addMsg "user" (JStr userText) ;;
    modify (set_prompt "") ;;
    let body :=
      ChatBody model [("system", system_prompt); ("user", userText)] temperature
               (if useRag : bool then Some topK else None) in
    modify (set_send {| btn_disabled := true; btn_text := "Tänker…" |}) ;;
    renderRagResults (JArr []) ;;
    chat_exchange body useRag ans.

(** *** The retrieval controls *)

(** The page load: the toggle takes the stored preference, when there
    is one. *)
Definition init_ragToggle (p : Page) : Page :=
  match p.(ragToggle), getStoredItem STORAGE_KEYS.ragEnabled p with
  | Some t, Some stored =>
      set_ragToggle
        (Some {| checked := String.eqb stored "1"; disabled := t.(disabled) |}) p
  | _, _ => p
  end.

(** The handler of [change] on the toggle. *)
Definition on_ragToggle_change (p : Page) : Page :=
  match p.(ragToggle) with
  | Some t =>
      setStoredItem STORAGE_KEYS.ragEnabled (if t.(checked) then "1" else "0") p
  | None => p
  end.

(** The page load: the top-K input takes the stored value, cut at 10,
    when that is a finite number from 1 on. *)
Definition init_ragTopK (p : Page) : Page :=
  match p.(ragTopK) with
  | Some _ =>
      let stored := parseInt (default "" (getStoredItem STORAGE_KEYS.ragTopK p)) in
      match stored with
      | Some z =>
          if Number_isFinite_int stored && (1 <=? z)
          then set_ragTopK (Some (pretty (Z.min 10 z))) p
          else p
      | None => p
      end
  | None => p
  end.

(** The handler of [change] on the top-K input. *)
Definition on_ragTopK_change (p : Page) : Page :=
  match p.(ragTopK) with
  | Some v =>
      let value := clamp_topK (parseInt v) in
      setStoredItem STORAGE_KEYS.ragTopK (pretty value)
        (set_ragTopK (Some (pretty value)) p)
  | None => p
  end.

End Scripts.

(** ** The knowledge-base page ([rag.js]) *)

Module RagJs.
Section Scripts.

Variable StringToNumber : string -> float.
Variable Date_toLocaleString : JsVal -> option string.

(** [describeMetadata(meta)]. *)
Definition describeMetadata (RAG_MAX_CHARS : JsVal) (meta : JsVal) : string :=
  match meta with
  | JObj _ | JArr _ =>
      let field := Js.get_opt meta in
      let limit := Js.or RAG_MAX_CHARS (JNum 40000) in
      let kind :=
        match field "type" with
        | JStr "url" =>
            [ if Js.truthy (field "title")
              then "Webbsida: " +:+ Js.ToString (field "title") else "Webbsida" ]
            ++ (if Js.truthy (field "url") then [Js.ToString (field "url")] else [])
        | JStr "pdf" =>
            [ "PDF: " +:+ Js.ToString (Js.or (field "filename") (JStr "PDF")) ]
            ++ (if Js.truthy (field "pages_used") && Js.truthy (field "total_pages")
                then [ "Sidor " +:+ Js.ToString (field "pages_used") +:+ "/"
                       +:+ Js.ToString (field "total_pages") ]
                else if Js.truthy (field "total_pages")
                then [ Js.ToString (field "total_pages") +:+ " sidor" ]
                else [])
        | _ => [ "Manuell text" ]
        end%list in
      let parts :=
        (kind
         ++ (if Js.truthy (field "original_characters")
             then [ "≈ " +:+ Js.ToString (field "original_characters")
                    +:+ " tecken före delning" ]
             else [])
         ++ (if Js.truthy (field "truncated")
             then [ "Trunkerad till " +:+ Js.ToString limit +:+ " tecken" ]
             else []))%list in
      String.concat " • " parts
  | _ => ""
  end.

(** [updateSummary(count, chunkCount)]. *)
Definition updateSummary (count : nat) (chunkCount : float) (p : Page) : Page :=
  match p.(ragSummaryText) with
  | Some _ =>
      set_ragSummaryText
        (Some (if (count =? 0)%nat then "Ingen text har lagts till ännu."
               else summary_text count chunkCount)) p
  | None => p
  end.

(** The list item of one document. *)
Definition doc_item (RAG_MAX_CHARS : JsVal) (doc : JsVal) : Exn + DocItem :=
  match Js.get doc "preview" with
  | inl e => inl e
  | inr pv =>
      let created_at := Js.get_opt doc "created_at" in
      let metaInfo := describeMetadata RAG_MAX_CHARS (Js.get_opt doc "metadata") in
      inr {| preview := Js.text_of (Js.or pv (JStr "[Tom text]"));
             chunkInfo :=
               Js.ToString (Js.or (Js.get_opt doc "chunks") (JNum 0)) +:+ " utdrag";
             created :=
               if Js.truthy created_at then Date_toLocaleString created_at else None;
             source := if String.eqb metaInfo "" then None else Some metaInfo;
             remove_id := Js.get_opt doc "id" |}
  end.

(** [safeDocs.forEach((doc) => { ... listEl.appendChild(li); })]. *)
Fixpoint append_docs (docs : list JsVal) : M unit :=
  match docs with
  | doc :: rest =>
      limit <- read (fun p => p.(window).(RAG_MAX_CHARS)) ;;
      li <- lift (doc_item limit doc) ;;
      modify (fun p => set_ragList (Some (default [] p.(ragList) ++ [li])%list) p) ;;
      append_docs rest
  | [] => ret tt
  end.

(** [renderRagDocs(docs, stats)]. *)
Definition renderRagDocs (docs stats : JsVal) : M Summary :=
  let safeDocs := match docs with JArr ds => ds | _ => [] end in
  let chunkCountRaw :=
    if Js.truthy stats
       && negb (match Js.get_opt stats "chunk_count" with JUndefined => true | _ => false end)
    then Js.get_opt stats "chunk_count" else JNum 0 in
  let n := Number StringToNumber chunkCountRaw in
  let chunkCount := if Js.truthy (JNum n) then n else 0%float in
  has_list <- read (fun p => present p.(ragList)) ;;
  (if has_list
   then modify (set_ragList (Some [])) ;; append_docs safeDocs
   else ret tt) ;;
  modify (fun p =>
    match p.(clearRag) with
    | Some _ => set_clearRag (Some (List.length safeDocs =? 0)%nat) p
    | None => p
    end) ;;
  modify (updateSummary (List.length safeDocs) chunkCount) ;;
  ret {| count := List.length safeDocs; chunkCount := chunkCount |}.

(** [fetchRagDocs(statusOverride)], with the answer to
    [GET /api/rag/docs]. *)
Definition fetchRagDocs (ans : FetchResult) (statusOverride : option StatusOverride)
  : M unit :=
  (if statusOverride is None
   then modify (setRagStatus "Hämtar kunskapsbas…" "info") else ret tt) ;;
  try_catch
    ( res <- fetch (GET "/api/rag/docs") ans ;;
      (if ok (fst res) then ret tt else throw (Error (http_error (fst res)))) ;;
      data <- json_of (snd res) ;;
      documents <- lift (Js.get data "documents") ;;
      summary <- renderRagDocs documents (Js.get_opt data "stats") ;;
      modify (fun p =>
        let name := Js.get_opt data "embedding_model" in
        match p.(ragModelName) with
        | Some _ =>
            if Js.truthy data && Js.truthy name
            then set_ragModelName (Some (Js.text_of name)) p else p
        | None => p
        end) ;;
      modify (status_after statusOverride summary) )
    (fun e =>
       modify (setRagStatus ("Kunde inte hämta kunskapsbasen: " +:+ e.(message)) "error") ;;
       modify (fun p =>
         match p.(ragList) with
         | Some _ => set_ragList (Some []) p
         | None => p
         end) ;;
       modify (updateSummary 0 0) ;;
       modify (fun p =>
         match p.(clearRag) with
         | Some _ => set_clearRag (Some true) p
         | None => p
         end)).

End Scripts.
End RagJs.

(** ** The connection panel and the endpoint *)

(** [s.replace(/:$/, '')]: a colon at the end of [s] is dropped. *)
Fixpoint drop_final_colon (s : string) : string :=
  match s with
  | EmptyString => EmptyString
  | String a EmptyString => if Ascii.eqb a ":" then EmptyString else s
  | String a rest => String a (drop_final_colon rest)
  end.

(** [s.replace(needle, repl)] for a string [needle] and a replacement
    without [$]: the first occurrence of [needle] is replaced. *)
Fixpoint replace_first (needle repl s : string) : string :=
  if String.prefix needle s
  then repl +:+ String.substring (String.length needle)
                  (String.length s - String.length needle) s
  else
    match s with
    | EmptyString => EmptyString
    | String a rest => String a (replace_first needle repl rest)
    end.

(** The text of [#endpoint]:
    [(window.location.origin + '/api').replace('/api', '/')]. *)
Definition endpoint_text (origin : string) : string :=
  replace_first "/api" "/" (origin +:+ "/api").

(** A link of the connection list. *)
Record Link := { href : string; link_text : string; target : string; rel : string }.

(** The properties of [window.location] that the script reads. *)
Record Location := { location_port : string; location_protocol : string }.

(** The connection panel: the text of [#connectText] and the links of
    [#connectList]. *)
Record Connect := {
  connectText : option string;
  connectList : option (list Link)
}.

Section Connection.

Variable StringToNumber : string -> float.

(** [address.includes(':') && !address.startsWith('[') ? `[${address}]`
    : address], as a string. Only a string has both methods; an array has
    [includes] alone, and the other values have neither. *)
Definition address_host (address : JsVal) : Exn + string :=
  match address with
  | JStr s =>
      inr (if contains ":" s && negb (String.prefix "[" s)
           then "[" +:+ s +:+ "]" else s)
  | JArr items =>
      if existsb (fun v => match v with JStr s => String.eqb s ":" | _ => false end) items
      then inl (TypeError "address.startsWith is not a function")
      else inr (Js.ToString address)
  | JUndefined | JNull => inl (Js.cannot_read address "includes")
  | _ => inl (TypeError "address.includes is not a function")
  end.

(** [buildAddressUrl(address, port, protocol)]. *)
Definition buildAddressUrl (address port : JsVal) (protocol : string) : Exn + string :=
  let proto := drop_final_colon (or_string protocol "http") in
  let numericPort := Number StringToNumber port in
  let hasValidPort := Num.isFinite numericPort && PrimFloat.ltb 0 numericPort in
  let isHttps := String.eqb proto "https" in
  let needsPort :=
    hasValidPort
    && negb (isHttps && PrimFloat.eqb numericPort 443
             || negb isHttps && PrimFloat.eqb numericPort 80) in
  match address_host address with
  | inl e => inl e
  | inr host =>
      let portPart :=
        if needsPort then ":" +:+ Num.Number_toString numericPort else "" in
      inr (proto +:+ "://" +:+ host +:+ portPart)
  end.

(** The port of the links: the one the server reports, else the one of
    the page's own address, and 8000 when that gives no number above zero. *)
Definition info_port (loc : Location) (data : JsVal) : JsVal :=
  let reported := Js.get_opt data "port" in
  let port :=
    if Js.is_nullish reported
    then (if String.eqb loc.(location_port) "" then JUndefined
          else JNum (StringToNumber loc.(location_port)))
    else reported in
  let n := Number StringToNumber port in
  if negb (Num.isFinite n) || PrimFloat.leb n 0 then JNum 8000 else port.

Definition link_to (url : string) : Link :=
  {| href := url; link_text := url; target := "_blank"; rel := "noopener noreferrer" |}.

(** [for (const addr of addresses) { ... listEl.appendChild(li); }]: the
    links of the list when the loop ends, and the exception that ended it
    early, if any. *)
Fixpoint append_links (addresses : list JsVal) (port : JsVal) (proto : string)
    (links : list Link) : option Exn * list Link :=
  match addresses with
  | addr :: rest =>
      match buildAddressUrl addr port proto with
      | inr url => append_links rest port proto (links ++ [link_to url])%list
      | inl e => (Some e, links)
      end
  | [] => (None, links)
  end.

Definition info_failed (links : list Link) : Connect :=
  {| connectText :=
       Some "Kunde inte hämta anslutningsinfo. Kontrollera att servern kör och försök igen.";
     connectList := Some links |}.

(** [fetchAppInfo], with the answer to [GET /api/info]. *)
Definition fetchAppInfo (loc : Location) (ans : FetchResult) (c : Connect) : Connect :=
  match c.(connectText), c.(connectList) with
  | Some _, Some _ =>
      match ans with
      | NetworkError _ => info_failed []
      | Response status json =>
          if negb (ok status) then info_failed []
          else
            match json with
            | Malformed _ => info_failed []
            | Parsed data =>
                match Js.get data "addresses" with
                | inl _ => info_failed []
                | inr listed =>
                    let addresses := match listed with JArr l => l | _ => [] end in
                    let port := info_port loc data in
                    let proto :=
                      if String.eqb loc.(location_protocol) "https:"
                      then "https" else "http" in
                    match addresses with
                    | [] =>
                        {| connectText :=
                             Some "Hittade inga IP-adresser automatiskt. Kör `hostname -I` på servern för att se adressen.";
                           connectList := Some [] |}
                    | _ :: _ =>
                        match append_links addresses port proto [] with
                        | (None, links) =>
                            {| connectText :=
                                 Some "Öppna någon av följande adresser i webbläsaren på en annan dator i samma nätverk:";
                               connectList := Some links |}
                        | (Some _, links) => info_failed links
                        end
                    end
                end
            end
      end
  | _, _ => c
  end.

End Connection.

(** ** The recording and the speech download *)

(** [sendAudioForTranscription], with the answer to
    [POST /api/transcribe]; [form] is the form data with the recording. *)
Definition sendAudioForTranscription (form : Body) (ans : FetchResult) : M unit :=
  try_catch
    ( res <- fetch (POST "/api/transcribe" form) ans ;;
      (if ok (fst res) then ret tt else throw (Error (http_error (fst res)))) ;;
      data <- json_of (snd res) ;;
      heard <- lift (Js.get data "text") ;;
      let text := Js.or heard (JStr "") in
      if Js.truthy text
      then
        modify (fun p =>
          set_prompt
            ((if String.eqb p.(prompt) "" then "" else p.(prompt) +:+ " ")
             +:+ Js.ToString text) p)
      else addMsg "assistant" (JStr "Ingen text hittades i inspelningen.") )
    (fun e => addMsg "assistant" (JStr ("Transkriberingsfel: " +:+ e.(message)))).

(** The handler of [click] on [#dlTts]. *)
Definition on_dlTts_click : M unit :=
  last <- read lastAssistantText ;;
  if negb (Js.truthy last)
  then addMsg "assistant" (JStr "Inget svar att läsa upp ännu.")
  else downloadServerTTS last.

(** * The vocabulary of the properties *)

Definition non_nullish (v : JsVal) : Prop := Js.is_nullish v = false.

(** The list item that the display shows for the excerpt at index [idx]. *)
Definition shown_item (idx : nat) (item : JsVal) : ResultItem :=
  {| header := "Utdrag " +:+ pretty (idx + 1)%nat
               +:+ similarity (Js.get_opt item "score");
     content := Js.text_of (Js.or (Js.get_opt item "text") (JStr "")) |}.

Fixpoint shown_from (idx : nat) (items : list JsVal) : list ResultItem :=
  match items with
  | item :: rest => shown_item idx item :: shown_from (S idx) rest
  | [] => []
  end.

(** [preserves R m]: the page after [m] is related by [R] to the page
    before it, however [m] ends. *)
Definition preserves {A} (R : Page -> Page -> Prop) (m : M A) : Prop :=
  forall p, R p (exec m p).

(** The part of the page that a chat exchange leaves as it is: the
    [window] (the preference store with it), the top-K input and the
    toggle; the log of requests only grows. *)
Definition exchange_frame (q q' : Page) : Prop :=
  q'.(window) = q.(window)
  /\ q'.(ragTopK) = q.(ragTopK)
  /\ q'.(ragToggle) = q.(ragToggle)
  /\ exists rest, q'.(requests) = (q.(requests) ++ rest)%list.

Definition user_message (text : string) : Msg :=
  {| className := "msg user"; msg_text := text |}.

(** The request of a send: the selected model (or the default one), the
    fixed system message and the trimmed prompt, the temperature, and the
    clamped top-K when retrieval is in use. *)
Definition chat_body (parseFloat : string -> float) (p : Page) : Body :=
  ChatBody (or_string (Sel.value p.(model)) (default_model p))
           [("system", system_prompt); ("user", Str.trim p.(prompt))]
           (parseFloat p.(temperature))
           (if use_rag p then Some (send_topK p.(ragTopK)) else None).

(** The page when the request leaves: the prompt is in the history, the
    input is cleared, the button is busy and the results are hidden. *)
Definition page_at_request (p : Page) : Page :=
  exec (renderRagResults (JArr []))
    (set_send {| btn_disabled := true; btn_text := "Tänker…" |}
       (set_prompt ""
          (set_history (p.(history) ++ [user_message (Str.trim p.(prompt))])%list
             (write_back_topK p)))).

(** The option that lists the model [m]. *)
Definition listed_option (m : JsVal) : SelectOption :=
  {| opt_value := Js.ToString m; opt_text := Js.text_of m |}.

(** Why a listing failed, for an answer that is a transport error or a
    response outside 200..299. *)
Definition failure_reason (ans : FetchResult) : option string :=
  match ans with
  | NetworkError msg => Some msg
  | Response status _ => if ok status then None else Some (http_error status)
  end.

Definition error_status (text : string) : Status :=
  {| status_text := text; is_error := true; is_success := false |}.

Definition switched_off : Toggle := {| checked := false; disabled := true |}.

(** What the steps around the rendering of the documents leave alone:
    the toggle, the [window] (the preference store with it), and whether
    the page has a list of documents. *)
Definition toggle_frame (q q' : Page) : Prop :=
  q'.(ragToggle) = q.(ragToggle)
  /\ q'.(window) = q.(window)
  /\ present q'.(ragList) = present q.(ragList).

(** The store takes a write. *)
Definition storage_accepts (p : Page) : Prop :=
  exists items, p.(window).(localStorage) = Storage items false.

(** The rule of the toggle, between the page [before] a rendering of the
    documents [docs] and the page [after] it. Without documents the
    toggle is unchecked and disabled, and the stored preference is ["0"]
    when the store takes the write. With documents the toggle is enabled,
    and checked as the stored preference says (["1"] is on, anything else
    off) or, without a stored preference, as it was. *)
Definition toggle_reconciled (docs : list JsVal) (before after : Page) : Prop :=
  match docs with
  | [] =>
      after.(ragToggle) = Some {| checked := false; disabled := true |}
      /\ (storage_accepts before ->
          getStoredItem STORAGE_KEYS.ragEnabled after = Some "0")
  | _ :: _ =>
      exists t, before.(ragToggle) = Some t
      /\ after.(ragToggle)
         = Some {| checked :=
                     match getStoredItem STORAGE_KEYS.ragEnabled before with
                     | Some stored => String.eqb stored "1"
                     | None => t.(checked)
                     end;
                   disabled := false |}
  end.

(** [m] runs to its end on [p], reconciling the toggle for [docs] on the
    way and touching neither the toggle nor the store otherwise. *)
Definition reconciles (docs : list JsVal) (m : M unit) (p : Page) : Prop :=
  exists q1 q2,
    toggle_frame p q1
    /\ toggle_frame (reconcile_toggle (List.length docs) q1) q2
    /\ m p = (Normal tt, q2).

(** The decimal text of [k / 10]: one digit after the point, unless that
    digit is zero. *)
Definition tenths (k : Z) : string :=
  (if k <? 0 then "-" else "") +:+ pretty (Z.abs k / 10)
  +:+ (if Z.abs k mod 10 =? 0 then "" else "." +:+ pretty (Z.abs k mod 10)).

(** The integers from -1000 to 1000: what [Math.round] can give for a
    number between -1000 and 1000. *)
Definition thousandths : list Z :=
  List.map (fun n => Z.of_nat n - 1000) (seq 0 2001).

(** ** Example pages *)

(** Stand-ins for the functions of the browser that the scripts leave
    open, for the examples below. *)
Definition example_parseFloat : string -> float := fun _ => 0.7%float.
Definition example_StringToNumber : string -> float := fun _ => nan.
Definition example_Date : JsVal -> option string := fun _ => None.

(** A chat page with every element, a prompt typed in, retrieval switched
    on with top-K 7, an empty list of documents and an empty store. *)
Definition chat_page : Page :=
  {| prompt := " hej ";
     temperature := "0.7";
     model := Sel.empty;
     send := {| btn_disabled := false; btn_text := "Skicka" |};
     history := [];
     ragToggle := Some {| checked := true; disabled := false |};
     ragTopK := Some "7";
     ragResults := Some {| hidden := false;
                           ol := Some [ {| header := "Utdrag 1"; content := "x" |} ] |};
     ragList := Some [];
     ragStatus := Some {| status_text := ""; is_error := false; is_success := false |};
     ragModelName := Some "";
     ragSummaryText := Some "";
     ragInput := Some "Stockholm är Sveriges huvudstad.";
     clearRag := Some false;
     ttsToggle := Some false;
     window := {| DEFAULT_MODEL := Some "llama3.2:1b";
                  RAG_MAX_CHARS := JUndefined;
                  localStorage := Storage ∅ false;
                  speechSynthesis := None |};
     requests := [];
     spoken := [];
     lastAssistantText := JStr "" |}.

(** The same page with a prompt of spaces only and 99 in the top-K input. *)
Definition blank_page : Page := set_prompt "   " (set_ragTopK (Some "99") chat_page).

(** The same page in a browser without [localStorage]. *)
Definition page_without_store : Page :=
  set_window (set_localStorage NoStorage chat_page.(window)) chat_page.

(** The same page configured with the default model [qwen2:0.5b], and
    that page again with [mistral] stored as the selected model. *)
Definition configured_page : Page :=
  set_window
    {| DEFAULT_MODEL := Some "qwen2:0.5b";
       RAG_MAX_CHARS := JUndefined;
       localStorage := Storage ∅ false;
       speechSynthesis := None |}
    chat_page.

Definition page_with_preference : Page :=
  set_window
    {| DEFAULT_MODEL := Some "qwen2:0.5b";
       RAG_MAX_CHARS := JUndefined;
       localStorage := Storage (<["ollama-webui:selected-model" := "mistral"]> ∅) false;
       speechSynthesis := None |}
    chat_page.

Definition one_document : JsVal :=
  JObj [("documents", JArr [JObj [("id", JStr "d1"); ("preview", JStr "Stockholm");
                                  ("chunks", JNum 1)]]);
        ("stats", JObj [("chunk_count", JNum 1)])].

Definition no_documents : JsVal :=
  JObj [("documents", JArr []); ("stats", JObj [("chunk_count", JNum 0)])].

Definition answer : FetchResult :=
  Response 200 (Parsed (JObj [("message", JObj [("content", JStr "Hej!")])])).

(** ** The vocabulary of the further properties *)

(** The models that an answer to [GET /api/models] lists: the body has
    to parse to a value with properties, of which [models || []] is empty
    or can be iterated; the status of the response is not looked at. *)
Definition listed_models (ans : FetchResult) : option (list JsVal) :=
  match ans with
  | Response _ (Parsed data) =>
      match Js.get data "models" with
      | inr listed =>
          let models := Js.or listed (JArr []) in
          if Js.length_is_zero models then Some [] else Js.iterate models
      | inl _ => None
      end
  | _ => None
  end.

(** The options of the selector after a listing of [ms] with the
    preferred model [preferred]. *)
Definition offered_options (preferred : string) (ms : list JsVal) : list SelectOption :=
  match ms with
  | [] => [ {| opt_value := preferred; opt_text := preferred +:+ " (ej installerad än)" |} ]
  | _ :: _ =>
      (List.map listed_option ms
       ++ (if has_model preferred ms then []
           else [ {| opt_value := preferred; opt_text := preferred +:+ " (standard)" |} ]))%list
  end.

(** The option that stands for the default model when the listing
    failed. *)
Definition fallback_option (p : Page) : SelectOption :=
  {| opt_value := default_model p;
     opt_text := default_model p +:+ " (endpoint otillgänglig)" |}.

(** A page on which the user has selected the model [mistral]. *)
Definition page_with_choice : Page :=
  set_model {| options := [ {| opt_value := "mistral"; opt_text := "mistral" |} ];
               selectedIndex := Some 0%nat |} chat_page.

(** A message of the assistant, by its class. *)
Definition assistant_reply (m : Msg) : Prop := m.(className) = "msg assistant".

(** What the steps of a chat exchange do to the conversation: the prompt
    stays, and the history grows by messages of the assistant. *)
Definition reply_frame (q q' : Page) : Prop :=
  q'.(prompt) = q.(prompt)
  /\ exists replies,
       q'.(history) = (q.(history) ++ replies)%list /\ Forall assistant_reply replies.

(** What the display and the requests leave alone: the conversation, the
    send button and what was said. *)
Definition chat_frame (q q' : Page) : Prop :=
  q'.(history) = q.(history) /\ q'.(prompt) = q.(prompt) /\ q'.(send) = q.(send)
  /\ q'.(spoken) = q.(spoken) /\ q'.(lastAssistantText) = q.(lastAssistantText).

(** The text of [throw new Error(data.detail || ('HTTP ' + res.status))],
    or of the [TypeError] that reading [data.detail] throws. *)
Definition rejection_text (data : JsVal) (status : nat) : string :=
  match Js.get data "detail" with
  | inl e => e.(message)
  | inr detail => Js.ToString (Js.or detail (JStr (http_error status)))
  end.

(** Why a chat request failed: the transport error, the rejection of a
    response outside 200..299, or the error of parsing the body. *)
Definition chat_failure (ans : FetchResult) : option string :=
  match ans with
  | NetworkError msg => Some msg
  | Response status json =>
      if ok status
      then match json with Malformed msg => Some msg | Parsed _ => None end
      else Some (rejection_text (json_or_empty json) status)
  end.

(** The message that a failed chat exchange leaves in the history. *)
Definition failure_notice (reason : string) : string :=
  "Fel: " +:+ reason +:+ Str.newline
  +:+ "Tips: säkerställ att Ollama kör och att modellen är hämtad.".

(** [data?.message?.content || '[Inget svar]']. *)
Definition reply_of (data : JsVal) : JsVal :=
  Js.or (Js.get_opt (Js.get_opt data "message") "content") (JStr "[Inget svar]").

(** The message of the assistant with the text [text]. *)
Definition assistant_message (text : string) : Msg :=
  {| className := "msg assistant"; msg_text := text |}.

(** The send button when no request is under way. *)
Definition ready_button : Button := {| btn_disabled := false; btn_text := "Skicka" |}.

(** The handler of a failed chat exchange. *)
Definition chat_catch (e : Exn) : M unit :=
  addMsg "assistant" (JStr (failure_notice e.(message))) ;;
  renderRagResults (JArr []).

(** The excerpts that the display is given after an answer:
    [data?.rag_context || []] when retrieval is in use or the answer
    carries an array, and [[]] otherwise. *)
Definition shown_context (useRag : bool) (data : JsVal) : JsVal :=
  let rag_context := Js.get_opt data "rag_context" in
  if useRag || Js.isArray rag_context then Js.or rag_context (JArr []) else JArr [].

(** A script that returns, whatever the page. *)
Definition always_returns (m : M unit) : Prop := forall q, exists q', m q = (Normal tt, q').

(** What the results region shows for the [rag_context] of an answer. *)
Definition context_results (rag_context : JsVal) : Results :=
  match rag_context with
  | JArr (item :: rest) => {| hidden := false; ol := Some (shown_from 0 (item :: rest)) |}
  | _ => {| hidden := true; ol := Some [] |}
  end.

(** The utterance that [speakBrowser] hands to the browser. *)
Definition utterance_of (text : JsVal) (voices : list Voice) : Utterance :=
  {| utter_text := Js.ToString text;
     utter_voice := List.find is_swedish voices;
     utter_lang := or_string (default "" (option_map voice_lang (List.find is_swedish voices)))
                     "sv-SE" |}.

(** A page in a browser that speaks, with an English and a Swedish voice. *)
Definition speaking_page : Page :=
  set_window
    {| DEFAULT_MODEL := None; RAG_MAX_CHARS := JUndefined; localStorage := NoStorage;
       speechSynthesis := Some [ {| voice_name := "Samantha"; voice_lang := "en-US" |};
                                 {| voice_name := "Alva"; voice_lang := "SV-se" |} ] |}
    chat_page.

(** Why the server did not carry out an addition, a deletion or a
    clearing: the transport error, or the rejection of a response outside
    200..299. *)
Definition action_failure (ans : FetchResult) : option string :=
  match ans with
  | NetworkError msg => Some msg
  | Response status json =>
      if ok status then None else Some (rejection_text (json_or_empty json) status)
  end.

(** What the rendering and the status leave alone: the text that waits
    in the input of the knowledge base, and the log of requests. *)
Definition input_frame (q q' : Page) : Prop :=
  q'.(ragInput) = q.(ragInput) /\ q'.(requests) = q.(requests).

(** What a status leaves alone. *)
Definition base_frame (q q' : Page) : Prop :=
  q'.(ragList) = q.(ragList) /\ q'.(ragToggle) = q.(ragToggle)
  /\ q'.(window) = q.(window) /\ q'.(ragInput) = q.(ragInput)
  /\ q'.(requests) = q.(requests).

(** The list item of the document [doc], an object. *)
Definition listed_item (Date_toLocaleString : JsVal -> option string) (doc : JsVal)
  : DocItem :=
  {| preview := Js.text_of (Js.or (Js.get_opt doc "preview") (JStr "[Tom text]"));
     chunkInfo := Js.ToString (Js.or (Js.get_opt doc "chunks") (JNum 0)) +:+ " utdrag";
     created :=
       if Js.truthy (Js.get_opt doc "created_at")
       then Date_toLocaleString (Js.get_opt doc "created_at") else None;
     source := None;
     remove_id := Js.get_opt doc "id" |}.

(** A status that is neither an error nor a success. *)
Definition plain_status (text : string) : Status :=
  {| status_text := text; is_error := false; is_success := false |}.

(** The text of the summary for [n] documents in [c] chunks. *)
Definition summary_of (n : nat) (c : float) : string :=
  if (n =? 0)%nat then "Ingen text har lagts till ännu." else summary_text n c.

(** The characters that [encodeURIComponent] writes. *)
Definition uri_safe (a : ascii) : bool := Str.uri_unreserved a || Ascii.eqb a "%".

(** Every character of [s] passes the test [f]. *)
Fixpoint all_chars (f : ascii -> bool) (s : string) : bool :=
  match s with
  | EmptyString => true
  | String a rest => f a && all_chars f rest
  end.

(** A page with a text waiting in the input of the knowledge base. *)
Definition text_page : Page := set_ragInput (Some "  Stockholm  ") chat_page.

(** An action that the server did not carry out: [req] was sent, the
    status shows the error [text], and the list, the toggle, the store and
    the input are as they were. *)
Definition rejected_with (text : string) (req : Request) (p p' : Page) : Prop :=
  p'.(ragList) = p.(ragList) /\ p'.(ragToggle) = p.(ragToggle)
  /\ p'.(window) = p.(window) /\ p'.(ragInput) = p.(ragInput)
  /\ p'.(requests) = (p.(requests) ++ [req])%list
  /\ p'.(ragStatus) = option_map (fun _ => error_status text) p.(ragStatus).

(** What the toggle rule and the status leave alone: the list of
    documents and the log of requests. *)
Definition list_frame (q q' : Page) : Prop :=
  q'.(ragList) = q.(ragList) /\ q'.(requests) = q.(requests).

(** The status that a listing of [n] documents shows. *)
Definition listing_status (statusOverride : option StatusOverride) (n : nat) (c : float)
  : Status :=
  match statusOverride with
  | Some {| so_text := String a t; so_type := ty |} =>
      {| status_text := String a t;
         is_error := String.eqb (or_string ty "info") "error";
         is_success := String.eqb (or_string ty "info") "success" |}
  | _ => plain_status (summary_of n c)
  end.

(** [typeof meta === 'object'] for a value that is not [null]. *)
Definition is_object (v : JsVal) : bool :=
  match v with JObj _ | JArr _ => true | _ => false end.

(** What the knowledge-base page leaves alone: the retrieval toggle, the
    [window] (the preference store with it), the chat and the log of
    requests. *)
Definition outside_base (q q' : Page) : Prop :=
  q'.(ragToggle) = q.(ragToggle) /\ q'.(window) = q.(window)
  /\ q'.(history) = q.(history) /\ q'.(requests) = q.(requests).

(** What the rendering of the list leaves alone on the knowledge-base
    page: the button that clears it, the summary and the status. *)
Definition beside_list (q q' : Page) : Prop :=
  q'.(clearRag) = q.(clearRag) /\ q'.(ragSummaryText) = q.(ragSummaryText)
  /\ present q'.(ragList) = present q.(ragList).

(** The prompt with the transcribed text put after it. *)
Definition dictated (prompt : string) (heard : JsVal) : string :=
  (if String.eqb prompt "" then "" else prompt +:+ " ") +:+ Js.ToString heard.

(** The scheme of the links: that of the page. *)
Definition scheme_of (loc : Location) : string :=
  if String.eqb loc.(location_protocol) "https:" then "https" else "http".

(** The host of a link: an address with a colon in it (IPv6) goes in
    brackets, unless it has them. *)
Definition host_of (address : string) : string :=
  if contains ":" address && negb (String.prefix "[" address)
  then "[" +:+ address +:+ "]" else address.

(** The port of a link: none for the port that the scheme implies. *)
Definition port_text (scheme : string) (n : float) : string :=
  if String.eqb scheme "https" && PrimFloat.eqb n 443
     || negb (String.eqb scheme "https") && PrimFloat.eqb n 80
  then "" else ":" +:+ Num.Number_toString n.

(** An address as the server should list it: a string. *)
Definition is_string (v : JsVal) : Prop := exists s, v = JStr s.

(** A value that is no address: it has no [includes] method. *)
Definition no_address (v : JsVal) : bool :=
  match v with JStr _ | JArr _ => false | _ => true end.

(** The text of an address that is a string. *)
Definition text_of_address (v : JsVal) : string :=
  match v with JStr s => s | _ => "" end.

(** The link to the address [v], a string, on port [n]. *)
Definition address_link (scheme : string) (n : float) (v : JsVal) : Link :=
  link_to (scheme +:+ "://" +:+ host_of (text_of_address v) +:+ port_text scheme n).

(** The panel with the text [text] and the links [links]. *)
Definition panel (text : string) (links : list Link) : Connect :=
  {| connectText := Some text; connectList := Some links |}.

(** A page served over http on the default port, and its empty panel. *)
Definition example_location : Location :=
  {| location_port := ""; location_protocol := "http:" |}.

Definition empty_panel : Connect := panel "" [].

(** The answer holds no addresses: its [addresses] is no array, or an
    empty one. *)
Definition no_addresses (listed : JsVal) : bool :=
  match listed with JArr (_ :: _) => false | _ => true end.

(** Why the connection info could not be read: the transport failed, the
    status is outside 200..299, the body is no JSON, or it is [null]. *)
Definition info_unreadable (ans : FetchResult) : bool :=
  match ans with
  | NetworkError _ => true
  | Response status json =>
      negb (ok status)
      || match json with
         | Malformed _ => true
         | Parsed data => Js.is_nullish data
         end
  end.

(** The text of the panel when the info could not be shown. *)
Definition info_failure_text : string :=
  "Kunde inte hämta anslutningsinfo. Kontrollera att servern kör och försök igen.".

(** * Properties *)

(** ** Running scripts *)

Lemma exec_bind {A B} (m : M A) (k : A -> M B) (p : Page) :
  exec (bind m k) p =
  match m p with
  | (Normal a, p') => exec (k a) p'
  | (Thrown _, p') => p'
  end.
Proof. unfold exec, bind. destruct (m p) as [[a | e] p']; reflexivity. Qed.

Lemma outcome_bind {A B} (m : M A) (k : A -> M B) (p : Page) :
  outcome (bind m k) p =
  match m p with
  | (Normal a, p') => outcome (k a) p'
  | (Thrown e, _) => Thrown e
  end.
Proof. unfold outcome, bind. destruct (m p) as [[a | e] p']; reflexivity. Qed.

(** ** The retrieval display *)

Lemma result_item_non_nullish idx item :
  non_nullish item -> result_item idx item = inr (shown_item idx item).
Proof.
  unfold non_nullish, result_item, shown_item.
  destruct item; cbn; intros H; try discriminate; reflexivity.
Qed.

Lemma shown_from_length items : forall idx,
  List.length (shown_from idx items) = List.length items.
Proof. induction items as [| item rest IH]; intros idx; cbn; [| rewrite IH]; reflexivity. Qed.

Lemma shown_from_lookup items : forall idx i item,
  items !! i = Some item ->
  shown_from idx items !! i = Some (shown_item (idx + i) item).
Proof.
  induction items as [| x rest IH]; intros idx i item H; [discriminate |].
  destruct i as [| i]; cbn in *.
  - injection H as ->. rewrite Nat.add_0_r. reflexivity.
  - transitivity (Some (shown_item (S idx + i) item)); [exact (IH _ _ _ H) |].
    do 2 f_equal. lia.
Qed.

(** The loop of the display appends one item per excerpt and touches
    nothing but the list. *)
Lemma append_results_spec items : forall idx p w l,
  Forall non_nullish items ->
  p.(ragResults) = Some w -> w.(ol) = Some l ->
  append_results idx items p =
  (Normal tt,
   set_ragResults
     (Some {| hidden := w.(hidden); ol := Some (l ++ shown_from idx items)%list |}) p).
Proof.
  induction items as [| item rest IH]; intros idx p w l Hall Hw Hl.
  - cbn. rewrite app_nil_r. destruct p, w; cbn in *. subst. reflexivity.
  - inversion Hall as [| ? ? Hitem Hrest]; subst.
    cbn [append_results]. unfold bind at 1. unfold lift.
    rewrite (result_item_non_nullish idx item Hitem). cbn [ret].
    unfold bind at 1. unfold modify at 1.
    rewrite (IH (S idx) _ {| hidden := w.(hidden); ol := Some (l ++ [shown_item idx item])%list |}
               (l ++ [shown_item idx item])%list Hrest).
    + rewrite <- app_assoc. unfold set_ol. rewrite Hw. reflexivity.
    + unfold set_ol, ol_items. rewrite Hw, Hl. reflexivity.
    + reflexivity.
Qed.

Lemma render_without_region v p :
  (p.(ragResults) = None \/ exists w, p.(ragResults) = Some w /\ w.(ol) = None) ->
  renderRagResults v p = (Normal tt, p).
Proof.
  unfold renderRagResults, bind, read.
  intros [-> | (w & -> & ->)]; reflexivity.
Qed.

Lemma render_hides v p w l :
  p.(ragResults) = Some w -> w.(ol) = Some l ->
  Js.isArray v = false \/ v = JArr [] ->
  renderRagResults v p =
  (Normal tt, set_ragResults (Some {| hidden := true; ol := Some [] |}) p).
Proof.
  intros Hw Hl Hv. unfold renderRagResults, bind, read. rewrite Hw, Hl.
  destruct Hv as [Hv | ->].
  - destruct v; try discriminate Hv;
      unfold modify, set_ol, set_hidden; rewrite Hw; reflexivity.
  - unfold modify, set_ol, set_hidden; rewrite Hw; reflexivity.
Qed.

Lemma render_shows items p w l :
  p.(ragResults) = Some w -> w.(ol) = Some l ->
  items <> [] -> Forall non_nullish items ->
  renderRagResults (JArr items) p =
  (Normal tt,
   set_ragResults (Some {| hidden := false; ol := Some (shown_from 0 items) |}) p).
Proof.
  intros Hw Hl Hne Hall. unfold renderRagResults, bind, read. rewrite Hw, Hl.
  destruct items as [| item rest]; [congruence |].
  unfold modify at 1.
  rewrite (append_results_spec (item :: rest) 0 (set_ol [] p)
             {| hidden := w.(hidden); ol := Some [] |} [] Hall);
    [| unfold set_ol; rewrite Hw; reflexivity | reflexivity ].
  unfold modify, set_hidden, set_ol. rewrite Hw. reflexivity.
Qed.

(** C10. For a value that is not an array ([undefined], [null], a
    boolean, a number, a string, an object) the display does exactly what
    it does for the empty array: it returns without throwing, and on a
    page with the results region the list is emptied and the region
    hidden. *)
Theorem render_non_array_like_empty (v : JsVal) (p : Page) :
  Js.isArray v = false ->
  renderRagResults v p = renderRagResults (JArr []) p
  /\ returns (renderRagResults v) p = true
  /\ (forall w l, p.(ragResults) = Some w -> w.(ol) = Some l ->
      (exec (renderRagResults v) p).(ragResults)
      = Some {| hidden := true; ol := Some [] |}).
Proof.
  intros Hv.
  assert (Hsame : renderRagResults v p = renderRagResults (JArr []) p).
  { destruct p.(ragResults) as [w |] eqn:Hw.
    - destruct w.(ol) as [l |] eqn:Hl.
      + rewrite (render_hides v p w l Hw Hl (or_introl Hv)).
        rewrite (render_hides (JArr []) p w l Hw Hl (or_intror eq_refl)).
        reflexivity.
      + rewrite !render_without_region; eauto.
    - rewrite !render_without_region; eauto. }
  split; [exact Hsame |]. split.
  - unfold returns, outcome.
    destruct p.(ragResults) as [w |] eqn:Hw.
    + destruct w.(ol) as [l |] eqn:Hl.
      * rewrite (render_hides v p w l Hw Hl (or_introl Hv)). reflexivity.
      * rewrite render_without_region; eauto.
    + rewrite render_without_region; eauto.
  - intros w l Hw Hl. unfold exec.
    rewrite (render_hides v p w l Hw Hl (or_introl Hv)). reflexivity.
Qed.

Lemma append_empty (s : string) : s +:+ "" = s.
Proof.
  induction s as [| a s IH]; [reflexivity |].
  change (String a (s +:+ "") = String a s). f_equal. exact IH.
Qed.

Lemma similarity_absent : similarity JUndefined = "".
Proof. reflexivity. Qed.

(** C6. On a page with the results region: the empty array and
    [undefined] both empty the list and hide the region; a non-empty array
    of items replaces the list, whatever it held, by one entry per item,
    in order, the entry at index [i] being labelled [Utdrag i+1] (the
    page's word for excerpt), with nothing after the label when the item
    has no score; the region is then shown. *)
Theorem render_hides_or_lists (p : Page) (w : Results) (l : list ResultItem) :
  p.(ragResults) = Some w -> w.(ol) = Some l ->
  let hidden_page := set_ragResults (Some {| hidden := true; ol := Some [] |}) p in
  renderRagResults (JArr []) p = (Normal tt, hidden_page)
  /\ renderRagResults JUndefined p = (Normal tt, hidden_page)
  /\ forall items : list JsVal, items <> [] -> Forall non_nullish items ->
     renderRagResults (JArr items) p
     = (Normal tt,
        set_ragResults (Some {| hidden := false; ol := Some (shown_from 0 items) |}) p)
     /\ List.length (shown_from 0 items) = List.length items
     /\ forall (i : nat) (item : JsVal), items !! i = Some item ->
        exists li : ResultItem,
          shown_from 0 items !! i = Some li
          /\ li.(header) = "Utdrag " +:+ pretty (i + 1)%nat
                           +:+ similarity (Js.get_opt item "score")
          /\ (Js.get_opt item "score" = JUndefined ->
              li.(header) = "Utdrag " +:+ pretty (i + 1)%nat).
Proof.
  intros Hw Hl hidden_page. split; [| split].
  - apply (render_hides _ p w l Hw Hl). right. reflexivity.
  - apply (render_hides _ p w l Hw Hl). left. reflexivity.
  - intros items Hne Hall. split; [| split].
    + apply (render_shows items p w l Hw Hl Hne Hall).
    + apply shown_from_length.
    + intros i item Hi. exists (shown_item i item). split; [| split].
      * apply (shown_from_lookup items 0 i item Hi).
      * reflexivity.
      * intros Hscore. cbn [shown_item header]. rewrite Hscore, similarity_absent.
        rewrite append_empty. reflexivity.
Qed.

(** C3, as the code has it. For the item at index [i] of a non-empty
    array of items, the entry shown carries the similarity exactly when
    the score is a number other than [NaN]; the percentage is then
    [Math.round(clamp(score, -1, 1) * 1000) / 10], printed as JavaScript
    prints a number. An infinite score is clamped like any other number. *)
Theorem similarity_annotation (p : Page) (w : Results) (l : list ResultItem)
    (items : list JsVal) (i : nat) (item : JsVal) :
  p.(ragResults) = Some w -> w.(ol) = Some l ->
  Forall non_nullish items -> items !! i = Some item ->
  exists li : ResultItem,
    ol_items (exec (renderRagResults (JArr items)) p) !! i = Some li
    /\ match Js.get_opt item "score" with
       | JNum score =>
           if Num.isNaN score
           then li.(header) = "Utdrag " +:+ pretty (i + 1)%nat
           else li.(header) =
                "Utdrag " +:+ pretty (i + 1)%nat +:+ " • likhet "
                +:+ Num.Number_toString
                      (Num.Math_round
                         (Num.Math_max (-1) (Num.Math_min 1 score) * 1000) / 10)%float
                +:+ "%"
       | _ => li.(header) = "Utdrag " +:+ pretty (i + 1)%nat
       end.
Proof.
  intros Hw Hl Hall Hi.
  assert (Hne : items <> []) by (intros ->; discriminate Hi).
  exists (shown_item i item). split.
  - unfold exec. rewrite (render_shows items p w l Hw Hl Hne Hall).
    unfold ol_items. cbn. apply (shown_from_lookup items 0 i item Hi).
  - cbn [shown_item header]. unfold similarity, percent.
    destruct (Js.get_opt item "score") as [| | b | score | s | xs | props];
      try (rewrite append_empty; reflexivity).
    destruct (Num.isNaN score); [rewrite append_empty |]; reflexivity.
Qed.

(** ** What a script leaves alone *)

Section Preservation.

Variable R : Page -> Page -> Prop.
Hypothesis R_refl : forall p, R p p.
Hypothesis R_trans : forall p q r, R p q -> R q r -> R p r.

Lemma preserves_ret {A} (a : A) : preserves R (ret a).
Proof. intros p. apply R_refl. Qed.

Lemma preserves_throw {A} (e : Exn) : preserves R (@throw A e).
Proof. intros p. apply R_refl. Qed.

Lemma preserves_read {A} (f : Page -> A) : preserves R (read f).
Proof. intros p. apply R_refl. Qed.

Lemma preserves_lift {A} (r : Exn + A) : preserves R (lift r).
Proof. destruct r; [apply preserves_throw | apply preserves_ret]. Qed.

Lemma preserves_modify (f : Page -> Page) :
  (forall p, R p (f p)) -> preserves R (modify f).
Proof. intros Hf p. apply Hf. Qed.

Lemma preserves_bind {A B} (m : M A) (k : A -> M B) :
  preserves R m -> (forall a, preserves R (k a)) -> preserves R (bind m k).
Proof.
  intros Hm Hk p. rewrite exec_bind. specialize (Hm p). unfold exec in Hm.
  destruct (m p) as [[a | e] p']; cbn in Hm; [| exact Hm].
  exact (R_trans _ _ _ Hm (Hk a p')).
Qed.

Lemma preserves_try_catch {A} (m : M A) (h : Exn -> M A) :
  preserves R m -> (forall e, preserves R (h e)) -> preserves R (try_catch m h).
Proof.
  intros Hm Hh p. specialize (Hm p). unfold exec, try_catch in *.
  destruct (m p) as [[a | e] p']; cbn in *; [exact Hm |].
  exact (R_trans _ _ _ Hm (Hh e p')).
Qed.

Lemma preserves_finally {A} (m : M A) (f : Page -> Page) :
  preserves R m -> (forall p, R p (f p)) -> preserves R (finally m f).
Proof.
  intros Hm Hf p. specialize (Hm p). unfold exec, finally in *.
  destruct (m p) as [r p']; cbn in *.
  exact (R_trans _ _ _ Hm (Hf p')).
Qed.

End Preservation.

Lemma exchange_frame_refl p : exchange_frame p p.
Proof. repeat split. exists []. symmetry. apply app_nil_r. Qed.

Lemma exchange_frame_trans p q r :
  exchange_frame p q -> exchange_frame q r -> exchange_frame p r.
Proof.
  intros (Hw1 & Hk1 & Ht1 & rest1 & Hr1) (Hw2 & Hk2 & Ht2 & rest2 & Hr2).
  repeat split; try congruence.
  exists (rest1 ++ rest2)%list. rewrite Hr2, Hr1, app_assoc. reflexivity.
Qed.

Lemma exchange_frame_same p q :
  q.(window) = p.(window) -> q.(ragTopK) = p.(ragTopK) ->
  q.(ragToggle) = p.(ragToggle) -> q.(requests) = p.(requests) ->
  exchange_frame p q.
Proof.
  intros Hw Hk Ht Hr. repeat split; try assumption.
  exists []. rewrite Hr. symmetry. apply app_nil_r.
Qed.

(** One step of a proof of [preserves R m], by the shape of [m]; [refl]
    and [trans] are the proofs that [R] is reflexive and transitive. *)
Ltac frame_step_with refl trans :=
  lazymatch goal with
  | |- preserves _ (bind _ _) => apply preserves_bind; [exact trans | | intros ?]
  | |- preserves _ (try_catch _ _) => apply preserves_try_catch; [exact trans | | intros ?]
  | |- preserves _ (finally _ _) => apply preserves_finally; [exact trans | |]
  | |- preserves _ (ret _) => apply preserves_ret; exact refl
  | |- preserves _ (throw _) => apply preserves_throw; exact refl
  | |- preserves _ (read _) => apply preserves_read; exact refl
  | |- preserves _ (lift _) => apply preserves_lift; exact refl
  | |- preserves _ (modify _) => apply preserves_modify; intros ?
  end.

Ltac frame_step := frame_step_with exchange_frame_refl exchange_frame_trans.

Ltac frame_case :=
  lazymatch goal with
  | |- preserves _ (if ?b then _ else _) => destruct b
  | |- preserves _ (match ?x with _ => _ end) => destruct x
  end.

Ltac frame := repeat first [frame_step | frame_case].

Lemma set_ol_frame items p : exchange_frame p (set_ol items p).
Proof. unfold set_ol. destruct p.(ragResults); apply exchange_frame_same; reflexivity. Qed.

Lemma set_hidden_frame h p : exchange_frame p (set_hidden h p).
Proof. unfold set_hidden. destruct p.(ragResults); apply exchange_frame_same; reflexivity. Qed.

Lemma append_results_frame items : forall idx,
  preserves exchange_frame (append_results idx items).
Proof.
  induction items as [| item rest IH]; intros idx; cbn [append_results].
  - frame_step.
  - repeat frame_step; [apply set_ol_frame | apply IH].
Qed.

Lemma renderRagResults_frame v : preserves exchange_frame (renderRagResults v).
Proof.
  unfold renderRagResults. frame_step; [frame_step |].
  destruct a as [w |]; [| frame_step].
  destruct w.(ol); [| frame_step].
  frame_step; [frame_step; apply set_ol_frame |].
  destruct v as [| | | | | [| item rest] |];
    repeat frame_step; try apply set_hidden_frame; try apply append_results_frame.
Qed.

Lemma speakBrowser_frame text : preserves exchange_frame (speakBrowser text).
Proof. unfold speakBrowser. frame. apply exchange_frame_same; reflexivity. Qed.

Lemma downloadServerTTS_frame text : preserves exchange_frame (downloadServerTTS text).
Proof.
  unfold downloadServerTTS. frame_step.
  repeat split. eexists. reflexivity.
Qed.

Lemma addMsg_frame role text : preserves exchange_frame (addMsg role text).
Proof.
  unfold addMsg. frame;
    first [ apply exchange_frame_same; reflexivity
          | apply speakBrowser_frame
          | apply downloadServerTTS_frame ].
Qed.

Lemma fetch_frame req ans : preserves exchange_frame (fetch req ans).
Proof. unfold fetch. frame. repeat split. eexists. reflexivity. Qed.

Lemma json_of_frame j : preserves exchange_frame (json_of j).
Proof. unfold json_of. frame. Qed.

Lemma throw_detail_frame {A} data status :
  preserves exchange_frame (@throw_detail A data status).
Proof. unfold throw_detail. frame. Qed.

Lemma set_send_frame b p : exchange_frame p (set_send b p).
Proof. apply exchange_frame_same; reflexivity. Qed.

Ltac frame_leaf :=
  first [ apply set_send_frame | apply addMsg_frame | apply renderRagResults_frame
        | apply fetch_frame | apply json_of_frame | apply throw_detail_frame ].

(** What follows the request of a chat exchange. *)
Lemma chat_exchange_frame body useRag ans :
  preserves exchange_frame (chat_exchange body useRag ans).
Proof. unfold chat_exchange. frame; frame_leaf. Qed.

(** A guarded [fetch] logs its request first: whatever the answer, the
    log then holds the request, followed by what the continuation and the
    handler send. *)
Lemma fetch_logged_first {A} req ans (k : nat * Json -> M A) (h : Exn -> M A) q :
  (forall r, preserves exchange_frame (k r)) ->
  (forall e, preserves exchange_frame (h e)) ->
  exists rest,
    (exec (try_catch (bind (fetch req ans) k) h) q).(requests)
    = (q.(requests) ++ req :: rest)%list.
Proof.
  intros Hk Hh.
  set (q1 := set_requests (q.(requests) ++ [req])%list q).
  assert (Hrun : exists m : M A,
            preserves exchange_frame m
            /\ exec (try_catch (bind (fetch req ans) k) h) q = exec m q1).
  { destruct ans as [msg | status json].
    - exists (h (TypeError msg)). split; [apply Hh | reflexivity].
    - exists (try_catch (k (status, json)) h). split; [| reflexivity].
      apply preserves_try_catch; [exact exchange_frame_trans | apply Hk | apply Hh]. }
  destruct Hrun as (m & Hm & ->).
  destruct (Hm q1) as (_ & _ & _ & rest & Hrest).
  exists rest. rewrite Hrest. subst q1. cbn [requests set_requests].
  rewrite <- app_assoc. reflexivity.
Qed.

(** A chat exchange logs its request first; what comes after it in the
    log are requests for speech. *)
Lemma chat_exchange_requests body useRag ans q :
  exists rest,
    (exec (chat_exchange body useRag ans) q).(requests)
    = (q.(requests) ++ POST "/api/chat" body :: rest)%list.
Proof.
  unfold chat_exchange.
  match goal with
  | |- context [try_catch (bind (fetch ?req ans) ?k) ?h] =>
      destruct (fetch_logged_first req ans k h q) as (rest & Hrest)
  end.
  - intros r. frame; frame_leaf.
  - intros e. frame; frame_leaf.
  - exists rest. rewrite <- Hrest. unfold exec, finally.
    destruct (try_catch _ _ q) as [o q']. reflexivity.
Qed.

(** ** Sending a prompt *)

Lemma write_back_topK_frame p :
  let p' := write_back_topK p in
  p'.(prompt) = p.(prompt) /\ p'.(history) = p.(history)
  /\ p'.(requests) = p.(requests) /\ p'.(window) = p.(window)
  /\ p'.(ragToggle) = p.(ragToggle).
Proof. unfold write_back_topK. destruct p.(ragTopK); repeat split. Qed.

Lemma write_back_topK_value p v :
  p.(ragTopK) = Some v ->
  (write_back_topK p).(ragTopK) = Some (pretty (send_topK (Some v))).
Proof. intros H. unfold write_back_topK. rewrite H. reflexivity. Qed.

(** A send with a blank prompt stops after the top-K input is written. *)
Lemma sendPrompt_blank parseFloat ans p :
  Str.trim p.(prompt) = "" ->
  sendPrompt parseFloat ans p = (Normal tt, write_back_topK p).
Proof.
  intros Hblank. unfold sendPrompt, bind, read, modify. cbn.
  destruct (write_back_topK_frame p) as (-> & _). rewrite Hblank. reflexivity.
Qed.

Lemma render_empty_returns p : outcome (renderRagResults (JArr [])) p = Normal tt.
Proof.
  unfold outcome.
  destruct p.(ragResults) as [w |] eqn:Hw.
  - destruct w.(ol) as [l |] eqn:Hl.
    + rewrite (render_hides _ p w l Hw Hl (or_intror eq_refl)). reflexivity.
    + rewrite render_without_region; eauto.
  - rewrite render_without_region; eauto.
Qed.

(** A send with a prompt that is not blank goes on to the chat exchange. *)
Lemma sendPrompt_sends parseFloat ans p :
  Str.trim p.(prompt) <> "" ->
  sendPrompt parseFloat ans p
  = chat_exchange (chat_body parseFloat p) (use_rag p) ans (page_at_request p).
Proof.
  intros Hprompt.
  destruct (write_back_topK_frame p) as (Hp & Hh & _ & _ & Ht).
  pose proof (render_empty_returns
                (set_send {| btn_disabled := true; btn_text := "Tänker…" |}
                   (set_prompt ""
                      (set_history
                         (p.(history) ++ [user_message (Str.trim p.(prompt))])%list
                         (write_back_topK p))))) as Hret.
  unfold sendPrompt, bind, read, modify, page_at_request, exec, outcome in *.
  cbn -[renderRagResults chat_exchange write_back_topK Str.trim] in *.
  rewrite Hp.
  destruct (String.eqb_spec (Str.trim p.(prompt)) "") as [Heq | _]; [contradiction |].
  cbn beta. rewrite Hh. change ("msg " +:+ "user") with "msg user".
  unfold user_message in *.
  destruct (renderRagResults (JArr []) _) as [o q]. cbn in Hret. subst o.
  unfold chat_body, use_rag. rewrite Ht. reflexivity.
Qed.

Lemma page_at_request_frame p : exchange_frame (write_back_topK p) (page_at_request p).
Proof.
  unfold page_at_request.
  eapply exchange_frame_trans; [| apply renderRagResults_frame].
  apply exchange_frame_same; reflexivity.
Qed.

Lemma page_at_request_requests p : (page_at_request p).(requests) = p.(requests).
Proof.
  destruct (write_back_topK_frame p) as (_ & _ & Hreq & _).
  set (q := set_send {| btn_disabled := true; btn_text := "Tänker…" |}
              (set_prompt ""
                 (set_history
                    (p.(history) ++ [user_message (Str.trim p.(prompt))])%list
                    (write_back_topK p)))).
  assert (Hq : q.(requests) = p.(requests)) by exact Hreq.
  unfold page_at_request, exec. fold q.
  destruct q.(ragResults) as [w |] eqn:Hw.
  - destruct w.(ol) as [l |] eqn:Hl.
    + rewrite (render_hides _ q w l Hw Hl (or_intror eq_refl)). exact Hq.
    + rewrite render_without_region; [exact Hq | eauto].
  - rewrite render_without_region; [exact Hq | eauto].
Qed.

Lemma parseInt_empty : parseInt "" = None.
Proof. reflexivity. Qed.

Lemma clamp_topK_range parsed : 1 <= clamp_topK parsed <= 10.
Proof.
  unfold clamp_topK, Number_isFinite_int.
  destruct parsed as [z |]; [| cbn; lia].
  destruct (rounds_to_infinity z); cbn [negb orb]; [cbn; lia |].
  destruct (Z.ltb_spec z 1); [cbn; lia |].
  destruct (Z.ltb_spec 10 z); lia.
Qed.

(** The top-K of a send, from the value [v] of the input. *)
Lemma send_topK_spec :
  (forall v n, parseInt v = Some n -> Number_isFinite_int (Some n) = true -> 1 <= n ->
               send_topK (Some v) = Z.min 10 (Z.max 1 n))
  /\ send_topK None = 3
  /\ (forall v, parseInt v = None -> send_topK (Some v) = 3).
Proof.
  split; [| split].
  - intros v n Hparse Hfin Hn. unfold send_topK.
    change (default "" (Some v)) with v.
    assert (Hv : or_string v "3" = v).
    { unfold or_string. destruct (String.eqb_spec v "") as [-> | _]; [| reflexivity].
      rewrite parseInt_empty in Hparse. discriminate. }
    rewrite Hv, Hparse. unfold clamp_topK. rewrite Hfin. cbn [negb orb].
    destruct (Z.ltb_spec n 1); [lia |].
    destruct (Z.ltb_spec 10 n); lia.
  - reflexivity.
  - intros v Hparse. unfold send_topK, or_string.
    change (default "" (Some v)) with v.
    destruct (String.eqb_spec v "") as [-> | _]; [reflexivity |].
    rewrite Hparse. reflexivity.
Qed.

(** C8. A send whose prompt is blank after trimming appends no message
    and sends no request: the history and the log of requests are as they
    were, and the call returns. *)
Theorem blank_send_is_silent (parseFloat : string -> float) (ans : FetchResult)
    (p : Page) :
  Str.trim p.(prompt) = "" ->
  let p' := exec (sendPrompt parseFloat ans) p in
  p'.(history) = p.(history)
  /\ p'.(requests) = p.(requests)
  /\ returns (sendPrompt parseFloat ans) p = true.
Proof.
  intros Hblank p'. subst p'. unfold returns, outcome, exec.
  rewrite (sendPrompt_blank parseFloat ans p Hblank). cbn [fst snd].
  destruct (write_back_topK_frame p) as (_ & Hh & Hr & _).
  repeat split; assumption.
Qed.

(** C9. A send whose prompt is blank still normalises the top-K input:
    after it the input shows the clamped value (so an input that showed
    anything else has changed), while no message is appended and no
    request is sent. *)
Theorem blank_send_rewrites_topK (parseFloat : string -> float) (ans : FetchResult)
    (p : Page) (v : string) :
  Str.trim p.(prompt) = "" -> p.(ragTopK) = Some v ->
  let p' := exec (sendPrompt parseFloat ans) p in
  p'.(ragTopK) = Some (pretty (send_topK (Some v)))
  /\ (v <> pretty (send_topK (Some v)) -> p'.(ragTopK) <> p.(ragTopK))
  /\ p'.(history) = p.(history)
  /\ p'.(requests) = p.(requests).
Proof.
  intros Hblank Hv p'. subst p'. unfold exec.
  rewrite (sendPrompt_blank parseFloat ans p Hblank). cbn [snd].
  destruct (write_back_topK_frame p) as (_ & Hh & Hr & _).
  rewrite (write_back_topK_value p v Hv), Hv.
  repeat split; try assumption. congruence.
Qed.

Lemma sendPrompt_window parseFloat ans p :
  (exec (sendPrompt parseFloat ans) p).(window) = p.(window).
Proof.
  destruct (write_back_topK_frame p) as (_ & _ & _ & Hw & _).
  destruct (String.eqb_spec (Str.trim p.(prompt)) "") as [Hblank | Hprompt].
  - unfold exec. rewrite (sendPrompt_blank parseFloat ans p Hblank). exact Hw.
  - unfold exec. rewrite (sendPrompt_sends parseFloat ans p Hprompt).
    destruct (chat_exchange_frame (chat_body parseFloat p) (use_rag p) ans
                (page_at_request p)) as (Hw1 & _).
    destruct (page_at_request_frame p) as (Hw2 & _).
    unfold exec in Hw1. congruence.
Qed.

Lemma sendPrompt_topK parseFloat ans p :
  (exec (sendPrompt parseFloat ans) p).(ragTopK) = (write_back_topK p).(ragTopK).
Proof.
  destruct (String.eqb_spec (Str.trim p.(prompt)) "") as [Hblank | Hprompt].
  - unfold exec. rewrite (sendPrompt_blank parseFloat ans p Hblank). reflexivity.
  - unfold exec. rewrite (sendPrompt_sends parseFloat ans p Hprompt).
    destruct (chat_exchange_frame (chat_body parseFloat p) (use_rag p) ans
                (page_at_request p)) as (_ & Hk1 & _).
    destruct (page_at_request_frame p) as (_ & Hk2 & _).
    unfold exec in Hk1. congruence.
Qed.

(** C4, as the code has it. Every send writes the clamped top-K back to
    the top-K input and leaves the preference store as it was. The value
    is stored by the handler of [change] on the input, which clamps it
    the same way, writes it back and stores it when the store takes it. *)
Theorem send_writes_back_topK (parseFloat : string -> float) (ans : FetchResult)
    (p : Page) (v : string) :
  p.(ragTopK) = Some v ->
  let p' := exec (sendPrompt parseFloat ans) p in
  p'.(ragTopK) = Some (pretty (send_topK (Some v)))
  /\ p'.(window).(localStorage) = p.(window).(localStorage)
  /\ (on_ragTopK_change p).(ragTopK) = Some (pretty (clamp_topK (parseInt v)))
  /\ (forall items, p.(window).(localStorage) = Storage items false ->
      getStoredItem STORAGE_KEYS.ragTopK (on_ragTopK_change p)
      = Some (pretty (clamp_topK (parseInt v)))).
Proof.
  intros Hv p'. subst p'. split; [| split; [| split]].
  - rewrite sendPrompt_topK. apply (write_back_topK_value p v Hv).
  - rewrite sendPrompt_window. reflexivity.
  - unfold on_ragTopK_change, setStoredItem. rewrite Hv. cbn.
    destruct p.(window).(localStorage) as [| items [|]]; reflexivity.
  - intros items Hst. unfold on_ragTopK_change, setStoredItem, getStoredItem.
    rewrite Hv. cbn. rewrite Hst. cbn. apply lookup_insert_eq.
Qed.

(** C2. When retrieval is in use, the request of a send carries the
    top-K read from the input: [min(10, max(1, n))] when the input parses
    to a finite integer [n] from 1 on, and the default 3 when the page has
    no input or the input holds no number. *)
Theorem send_applies_clamped_topK (parseFloat : string -> float) (ans : FetchResult)
    (p : Page) :
  Str.trim p.(prompt) <> "" -> use_rag p = true ->
  exists (k : Z) (model : string) (messages : list (string * string))
         (temperature : float) (rest : list Request),
    (exec (sendPrompt parseFloat ans) p).(requests)
    = (p.(requests)
       ++ POST "/api/chat" (ChatBody model messages temperature (Some k)) :: rest)%list
    /\ (forall v n, p.(ragTopK) = Some v -> parseInt v = Some n ->
                    Number_isFinite_int (Some n) = true -> 1 <= n ->
                    k = Z.min 10 (Z.max 1 n))
    /\ (p.(ragTopK) = None -> k = 3)
    /\ (forall v, p.(ragTopK) = Some v -> parseInt v = None -> k = 3).
Proof.
  intros Hprompt Hrag.
  destruct (chat_exchange_requests (chat_body parseFloat p) (use_rag p) ans
              (page_at_request p)) as (rest & Hrest).
  exists (send_topK p.(ragTopK)), (or_string (Sel.value p.(model)) (default_model p)),
    [("system", system_prompt); ("user", Str.trim p.(prompt))],
    (parseFloat p.(temperature)), rest.
  destruct send_topK_spec as (Hnum & Habsent & Hnan).
  split; [| split; [| split]].
  - unfold exec in *. rewrite (sendPrompt_sends parseFloat ans p Hprompt), Hrest.
    rewrite page_at_request_requests. unfold chat_body. rewrite Hrag. reflexivity.
  - intros v n -> Hparse Hfin Hn. exact (Hnum v n Hparse Hfin Hn).
  - intros ->. exact Habsent.
  - intros v -> Hparse. exact (Hnan v Hparse).
Qed.

(** ** The model selector *)

Lemma append_models_spec ms : forall p,
  exists idx,
    append_models ms p
    = (Normal tt,
       set_model {| options := (p.(model).(options) ++ List.map listed_option ms)%list;
                    selectedIndex := idx |} p).
Proof.
  induction ms as [| m rest IH]; intros p.
  - exists p.(model).(selectedIndex). cbn. rewrite app_nil_r.
    destruct p as [? ? [opts idx]]; reflexivity.
  - cbn [append_models]. unfold bind, append_option, modify.
    destruct (IH (set_model (Sel.appendChild (listed_option m) p.(model)) p))
      as (idx & Hrest).
    exists idx. unfold listed_option in *. rewrite Hrest. cbn.
    rewrite <- app_assoc. reflexivity.
Qed.

Lemma index_of_some v opts :
  (exists o, In o opts /\ o.(opt_value) = v) ->
  exists i o, Sel.index_of v opts = Some i
              /\ nth_error opts i = Some o /\ o.(opt_value) = v.
Proof.
  induction opts as [| o opts IH]; intros (o' & Hin & Hval); [destruct Hin |].
  cbn [Sel.index_of].
  destruct (String.eqb_spec o.(opt_value) v) as [Heq | Hne].
  - exists 0%nat, o. repeat split. exact Heq.
  - destruct Hin as [-> | Hin]; [contradiction |].
    destruct IH as (i & o'' & -> & Hnth & Hv); [exists o'; split; assumption |].
    exists (S i), o''. repeat split; assumption.
Qed.

(** Selecting a value that some option has makes it the value of the
    selector. *)
Lemma select_listed_value v sel :
  (exists o, In o sel.(options) /\ o.(opt_value) = v) ->
  Sel.value (Sel.set_value v sel) = v.
Proof.
  intros Hex. destruct (index_of_some v sel.(options) Hex) as (i & o & Hi & Hnth & Hv).
  unfold Sel.value, Sel.set_value. cbn. rewrite Hi, Hnth. exact Hv.
Qed.

Lemma preferred_model_stored p :
  preferred_model p
  = let configured :=
      match p.(window).(DEFAULT_MODEL) with
      | Some (String a s) => String a s
      | _ => "llama3.2:1b"
      end in
    match p.(window).(localStorage) with
    | Storage items _ =>
        match items !! "ollama-webui:selected-model" with
        | Some (String a s) => String a s
        | _ => configured
        end
    | NoStorage => configured
    end.
Proof.
  unfold preferred_model, default_model, or_string, getStoredItem, STORAGE_KEYS.model.
  destruct p.(window).(localStorage) as [| items full];
    [| destruct (items !! "ollama-webui:selected-model") as [[| a s] |]];
    destruct p.(window).(DEFAULT_MODEL) as [[| b t] |]; reflexivity.
Qed.

(** A list that does not hold the string [v] does not have it in the set
    of the listed models. *)
Lemma has_model_absent v ms : ~ In (JStr v) ms -> has_model v ms = false.
Proof.
  induction ms as [| m rest IH]; intros Hnot; [reflexivity |].
  cbn [has_model existsb]. fold (has_model v rest).
  rewrite IH by (intros Hin; apply Hnot; right; exact Hin).
  rewrite orb_false_r.
  destruct m as [| | | | s | |]; try reflexivity.
  destruct (String.eqb_spec s v) as [-> | _]; [| reflexivity].
  exfalso. apply Hnot. left. reflexivity.
Qed.

(** C5. The preferred model is the stored preference, else the
    configured default: the text that the store of the browser holds
    under [ollama-webui:selected-model] when it holds one that is not
    empty, else [window.DEFAULT_MODEL] when that is set and not empty,
    else [llama3.2:1b]. When the server answers with an empty list of
    models (or with none), the selector holds exactly one option, the
    preferred model marked [(ej installerad än)], not installed yet. When
    it answers with a non-empty list that does not hold the preferred
    model, the selector holds the listed models in order and then one
    more option, the preferred model marked [(standard)], the default.
    Either way the preferred model is the one selected. *)
Theorem fetchModels_offers_preferred (p : Page) (status : nat) (data listed : JsVal)
    (ms : list JsVal) :
  Js.get data "models" = inr listed -> Js.or listed (JArr []) = JArr ms ->
  let configured :=
    match p.(window).(DEFAULT_MODEL) with
    | Some (String a s) => String a s
    | _ => "llama3.2:1b"
    end in
  let preferred :=
    match p.(window).(localStorage) with
    | Storage items _ =>
        match items !! "ollama-webui:selected-model" with
        | Some (String a s) => String a s
        | _ => configured
        end
    | NoStorage => configured
    end in
  let sel := (exec (fetchModels (Response status (Parsed data))) p).(model) in
  preferred_model p = preferred
  /\ (ms = [] ->
      sel.(options)
      = [ {| opt_value := preferred; opt_text := preferred +:+ " (ej installerad än)" |} ]
      /\ Sel.value sel = preferred)
  /\ (ms <> [] -> ~ In (JStr preferred) ms ->
      sel.(options)
      = (List.map (fun m => {| opt_value := Js.ToString m; opt_text := Js.text_of m |}) ms
         ++ [ {| opt_value := preferred; opt_text := preferred +:+ " (standard)" |} ])%list
      /\ Sel.value sel = preferred).
Proof.
  intros Hget Hmodels configured preferred sel.
  assert (Hpref : preferred_model p = preferred) by apply preferred_model_stored.
  split; [exact Hpref |].
  clearbody preferred. clear configured. subst preferred sel.
  unfold exec, fetchModels, try_catch, bind, fetch, modify, json_of, read.
  cbn -[append_models preferred_model Js.or has_model Js.length_is_zero Js.iterate].
  rewrite Hget. cbn -[append_models preferred_model Js.or has_model Js.length_is_zero Js.iterate].
  rewrite Hmodels.
  change (preferred_model (set_requests _ (set_model Sel.empty p)))
    with (preferred_model p).
  set (preferred := preferred_model p).
  split.
  - intros ->. cbn. rewrite String.eqb_refl. cbn. split; [reflexivity |].
    unfold Sel.value. cbn. rewrite String.eqb_refl. reflexivity.
  - intros Hne Habsent. pose proof (has_model_absent _ _ Habsent) as Hhas.
    destruct ms as [| m rest]; [congruence |].
    cbn [Js.length_is_zero Js.iterate].
    destruct (append_models_spec (m :: rest)
                (set_requests (p.(requests) ++ [GET "/api/models"])%list
                   (set_model Sel.empty p))) as (idx & Hrest).
    rewrite Hrest. cbn -[List.map has_model]. rewrite Hhas.
    cbn -[List.map]. split; [reflexivity |].
    apply select_listed_value. cbn -[List.map].
    eexists. split; [apply in_or_app; right; left; reflexivity | reflexivity].
Qed.

(** ** The knowledge base and the toggle *)

Lemma setRagStatus_frame message type p :
  let p' := setRagStatus message type p in
  p'.(ragList) = p.(ragList) /\ p'.(ragToggle) = p.(ragToggle)
  /\ p'.(window) = p.(window) /\ p'.(ragInput) = p.(ragInput).
Proof. unfold setRagStatus. destruct p.(ragStatus); repeat split. Qed.

(** A try block with a handler that returns, returns. *)
Lemma try_catch_returns {A} (m : M A) (h : Exn -> M A) p :
  (forall e q, returns (h e) q = true) -> returns (try_catch m h) p = true.
Proof.
  intros Hh. unfold returns, outcome, try_catch in *.
  destruct (m p) as [[a | e] p']; [reflexivity | apply Hh].
Qed.

(** The listing of the chat page never throws. *)
Lemma fetchRagDocs_returns StringToNumber Date_toLocaleString ans statusOverride p :
  returns (fetchRagDocs StringToNumber Date_toLocaleString ans statusOverride) p = true.
Proof.
  unfold fetchRagDocs. unfold returns, outcome, bind at 1, read at 1.
  cbn [fst snd]. destruct (present p.(ragList)); cbn [negb]; [| reflexivity].
  unfold bind at 1.
  destruct statusOverride as [so |]; unfold ret at 1, modify at 1; cbv iota beta;
    match goal with
    | |- context [try_catch ?m ?h ?q] => pose proof (try_catch_returns m h q) as Hret
    end;
    unfold returns, outcome in Hret; apply Hret; intros e q0; reflexivity.
Qed.

Lemma switch_toggle_off_spec q :
  let q' := switch_toggle_off q in
  q'.(ragList) = q.(ragList) /\ q'.(ragStatus) = q.(ragStatus)
  /\ q'.(ragSummaryText) = q.(ragSummaryText)
  /\ q'.(ragToggle) = option_map (fun _ => switched_off) q.(ragToggle).
Proof. unfold switch_toggle_off. destruct q.(ragToggle) eqn:Ht; cbn; rewrite ?Ht; repeat split. Qed.

Lemma setRagStatus_status message type q :
  (setRagStatus message type q).(ragStatus)
  = option_map (fun _ => {| status_text := message;
                            is_error := String.eqb type "error";
                            is_success := String.eqb type "success" |}) q.(ragStatus).
Proof. unfold setRagStatus. destruct q.(ragStatus) eqn:Hs; cbn; rewrite ?Hs; reflexivity. Qed.

(** The page after a listing that failed for [reason]. *)
Lemma fetchRagDocs_failure StringToNumber Date_toLocaleString ans statusOverride p l reason :
  p.(ragList) = Some l -> failure_reason ans = Some reason ->
  let p0 := if statusOverride is None
            then setRagStatus "Hämtar kunskapsbas…" "info" p else p in
  exec (fetchRagDocs StringToNumber Date_toLocaleString ans statusOverride) p
  = switch_toggle_off
      (set_ragList (Some [])
         (setRagStatus ("Kunde inte hämta kunskapsbasen: " +:+ reason) "error"
            (set_requests (p0.(requests) ++ [GET "/api/rag/docs"])%list p0))).
Proof.
  intros Hl Hreason p0. subst p0.
  unfold exec, fetchRagDocs, bind at 1, read at 1.
  rewrite Hl. cbn [present negb fst snd].
  destruct ans as [msg | status json]; cbn in Hreason.
  - injection Hreason as <-.
    destruct statusOverride as [so |];
      unfold try_catch, bind, fetch, modify; cbn; reflexivity.
  - destruct (ok status) eqn:Hok; [discriminate |]. injection Hreason as <-.
    destruct statusOverride as [so |];
      unfold try_catch, bind, fetch, modify; cbn -[http_error];
      rewrite Hok; reflexivity.
Qed.

(** The listing of the chat page with the knowledge base on it: when it
    fails the list is emptied, the toggle is unchecked and disabled, and
    the status shows the error with the reason. *)
Lemma chat_failed_listing
    (StringToNumber : string -> float) (Date_toLocaleString : JsVal -> option string)
    (ans : FetchResult) (statusOverride : option StatusOverride)
    (p : Page) (l : list DocItem) (reason : string) :
  p.(ragList) = Some l -> failure_reason ans = Some reason ->
  let p' := exec (fetchRagDocs StringToNumber Date_toLocaleString ans statusOverride) p in
  p'.(ragList) = Some []
  /\ (forall t, p.(ragToggle) = Some t -> p'.(ragToggle) = Some switched_off)
  /\ (forall s, p.(ragStatus) = Some s ->
      p'.(ragStatus)
      = Some (error_status ("Kunde inte hämta kunskapsbasen: " +:+ reason))).
Proof.
  intros Hl Hreason p'. subst p'.
  rewrite (fetchRagDocs_failure _ _ ans statusOverride p l reason Hl Hreason).
  set (p0 := if statusOverride is None
             then setRagStatus "Hämtar kunskapsbas…" "info" p else p).
  cbv zeta.
  assert (Hp0 : p0.(ragToggle) = p.(ragToggle)
                /\ (present p0.(ragStatus) = present p.(ragStatus))).
  { subst p0. destruct statusOverride; [split; reflexivity |].
    rewrite setRagStatus_status.
    split; [apply setRagStatus_frame | destruct p.(ragStatus); reflexivity]. }
  destruct Hp0 as (Htoggle & Hstatus).
  match goal with
  | |- context [switch_toggle_off ?q] =>
      destruct (switch_toggle_off_spec q) as (Hl' & Hs' & _ & Ht')
  end.
  cbv zeta in *. rewrite Hl', Hs', Ht'. clear Hl' Hs' Ht'.
  split; [| split].
  - reflexivity.
  - intros t Ht. cbn [ragToggle set_ragList].
    destruct (setRagStatus_frame ("Kunde inte hämta kunskapsbasen: " +:+ reason) "error"
                (set_requests (p0.(requests) ++ [GET "/api/rag/docs"])%list p0))
      as (_ & -> & _).
    cbn [ragToggle set_requests]. rewrite Htoggle, Ht. reflexivity.
  - intros s Hs. cbn [ragStatus set_ragList]. rewrite setRagStatus_status.
    cbn [ragStatus set_requests]. rewrite Hs in Hstatus.
    destruct p0.(ragStatus); [reflexivity | discriminate].
Qed.

(** The summary of the later chat page: when its listing fails, the
    toggle is unchecked and disabled and the summary shows the reason. *)
Lemma failed_summary_disables (StringToNumber : string -> float) (ans : FetchResult)
    (p : Page) (reason : string) :
  failure_reason ans = Some reason ->
  let p' := exec (fetchRagSummary StringToNumber ans) p in
  p'.(ragToggle) = option_map (fun _ => switched_off) p.(ragToggle)
  /\ p'.(ragSummaryText)
     = option_map (fun _ => "Kunde inte hämta kunskapsbasen: " +:+ reason)
         p.(ragSummaryText).
Proof.
  intros Hreason p'. subst p'.
  assert (Hrun : exec (fetchRagSummary StringToNumber ans) p
                 = switch_toggle_off
                     (set_summary_text ("Kunde inte hämta kunskapsbasen: " +:+ reason)
                        (set_requests
                           ((set_summary_text "Hämtar statistik…" p).(requests)
                            ++ [GET "/api/rag/docs"])%list
                           (set_summary_text "Hämtar statistik…" p)))).
  { unfold exec, fetchRagSummary, bind at 1, modify at 1.
    destruct ans as [msg | status json]; cbn in Hreason.
    - injection Hreason as <-. reflexivity.
    - destruct (ok status) eqn:Hok; [discriminate |]. injection Hreason as <-.
      unfold try_catch, bind, fetch, modify. cbn -[http_error].
      rewrite Hok. reflexivity. }
  rewrite Hrun.
  match goal with
  | |- context [switch_toggle_off ?q] =>
      destruct (switch_toggle_off_spec q) as (_ & _ & Hs & Ht)
  end.
  cbv zeta in *. rewrite Hs, Ht. unfold set_summary_text.
  destruct p.(ragSummaryText) eqn:Hsum; cbn; rewrite ?Hsum; cbn; rewrite ?Hsum;
    split; reflexivity.
Qed.

(** The knowledge-base page ([rag.js]): when its listing fails, the list
    is emptied, the status shows the error with the reason, the summary
    is reset and the button that clears the knowledge base is disabled.
    That script never reads or writes the toggle. *)
Lemma kb_failed_listing (StringToNumber : string -> float)
    (Date_toLocaleString : JsVal -> option string) (ans : FetchResult)
    (statusOverride : option StatusOverride) (p : Page) (reason : string) :
  failure_reason ans = Some reason ->
  let p' := exec (RagJs.fetchRagDocs StringToNumber Date_toLocaleString ans statusOverride)
                 p in
  p'.(ragList) = option_map (fun _ => []) p.(ragList)
  /\ p'.(ragStatus)
     = option_map
         (fun _ => error_status ("Kunde inte hämta kunskapsbasen: " +:+ reason))
         p.(ragStatus)
  /\ p'.(clearRag) = option_map (fun _ => true) p.(clearRag)
  /\ p'.(ragToggle) = p.(ragToggle).
Proof.
  intros Hreason p'. subst p'.
  set (p0 := if statusOverride is None
             then setRagStatus "Hämtar kunskapsbas…" "info" p else p).
  assert (Hp0 : p0.(ragList) = p.(ragList) /\ p0.(ragToggle) = p.(ragToggle)
                /\ p0.(clearRag) = p.(clearRag)
                /\ present p0.(ragStatus) = present p.(ragStatus)).
  { subst p0. destruct statusOverride; [repeat split |].
    unfold setRagStatus. destruct p.(ragStatus) eqn:Hs; cbn; rewrite ?Hs; repeat split. }
  destruct Hp0 as (Hl & Ht & Hc & Hs).
  assert (Hrun : exists q,
            exec (RagJs.fetchRagDocs StringToNumber Date_toLocaleString ans statusOverride) p
            = match q.(clearRag) with
              | Some _ => set_clearRag (Some true) q
              | None => q
              end
            /\ q = RagJs.updateSummary 0 0
                     (let q0 := setRagStatus ("Kunde inte hämta kunskapsbasen: " +:+ reason)
                                  "error"
                                  (set_requests
                                     (p0.(requests) ++ [GET "/api/rag/docs"])%list p0) in
                      match q0.(ragList) with
                      | Some _ => set_ragList (Some []) q0
                      | None => q0
                      end)).
  { eexists. split; [| reflexivity].
    unfold exec, RagJs.fetchRagDocs, bind at 1.
    assert (Hq0 : (if statusOverride is None
                   then modify (setRagStatus "Hämtar kunskapsbas…" "info") else ret tt) p
                  = (Normal tt, p0)).
    { subst p0. destruct statusOverride; reflexivity. }
    rewrite Hq0.
    destruct ans as [msg | status json]; cbn in Hreason.
    - injection Hreason as <-. reflexivity.
    - destruct (ok status) eqn:Hok; [discriminate |]. injection Hreason as <-.
      unfold try_catch, bind, fetch, modify. cbn -[http_error RagJs.updateSummary].
      rewrite Hok. reflexivity. }
  destruct Hrun as (q & -> & ->). cbv zeta.
  set (q0 := setRagStatus _ "error" _).
  assert (Hq0 : q0.(ragList) = p.(ragList) /\ q0.(ragToggle) = p.(ragToggle)
                /\ q0.(clearRag) = p.(clearRag)
                /\ q0.(ragStatus)
                   = option_map
                       (fun _ => error_status
                                   ("Kunde inte hämta kunskapsbasen: " +:+ reason))
                       p.(ragStatus)).
  { subst q0. rewrite setRagStatus_status. cbn [ragStatus set_requests].
    unfold setRagStatus. cbn [ragStatus set_requests].
    destruct p0.(ragStatus) eqn:Hs0, p.(ragStatus) eqn:Hsp; try discriminate Hs;
      cbn; rewrite Hl, Ht, Hc; repeat split. }
  destruct Hq0 as (Hl0 & Ht0 & Hc0 & Hs0).
  set (q1 := match q0.(ragList) with Some _ => set_ragList (Some []) q0 | None => q0 end).
  assert (Hq1 : q1.(ragList) = option_map (fun _ => []) p.(ragList)
                /\ q1.(ragToggle) = p.(ragToggle) /\ q1.(clearRag) = p.(clearRag)
                /\ q1.(ragStatus) = q0.(ragStatus)).
  { subst q1. rewrite <- Hl0, <- Ht0, <- Hc0.
    destruct q0.(ragList) eqn:Hq; cbn; rewrite ?Hq; repeat split. }
  destruct Hq1 as (Hl1 & Ht1 & Hc1 & Hs1).
  set (q2 := RagJs.updateSummary 0 0 q1).
  assert (Hq2 : q2.(ragList) = q1.(ragList) /\ q2.(ragToggle) = q1.(ragToggle)
                /\ q2.(clearRag) = q1.(clearRag) /\ q2.(ragStatus) = q1.(ragStatus)).
  { subst q2. unfold RagJs.updateSummary. destruct q1.(ragSummaryText); repeat split. }
  destruct Hq2 as (Hl2 & Ht2 & Hc2 & Hs2).
  rewrite <- Hl1, <- Ht1, <- Hc1, <- Hs0, <- Hs1, <- Hl2, <- Ht2, <- Hc2, <- Hs2.
  destruct q2.(clearRag) eqn:Hq; cbn; rewrite ?Hq; repeat split.
Qed.

Lemma fetchRagSummary_returns StringToNumber ans p :
  returns (fetchRagSummary StringToNumber ans) p = true.
Proof.
  unfold fetchRagSummary, returns, outcome, bind at 1, modify at 1.
  match goal with
  | |- context [try_catch ?m ?h ?q] => pose proof (try_catch_returns m h q) as Hret
  end.
  unfold returns, outcome in Hret. apply Hret. intros e q0. reflexivity.
Qed.

Lemma kb_fetchRagDocs_returns StringToNumber Date_toLocaleString ans statusOverride p :
  returns (RagJs.fetchRagDocs StringToNumber Date_toLocaleString ans statusOverride) p
  = true.
Proof.
  unfold RagJs.fetchRagDocs, returns, outcome, bind at 1.
  destruct statusOverride as [so |]; unfold ret at 1, modify at 1; cbv iota beta;
    match goal with
    | |- context [try_catch ?m ?h ?q] => pose proof (try_catch_returns m h q) as Hret
    end;
    unfold returns, outcome in Hret; apply Hret; intros e q0; reflexivity.
Qed.

(** C7. When the listing of the knowledge base fails, by a transport
    error or by a response outside 200..299, the list on the page is
    emptied, the toggle is unchecked and disabled, the status shows an
    error that ends with the reason of the failure, and the call returns
    instead of throwing. The chat page with the knowledge base on it does
    all of it in [fetchRagDocs]. Where the knowledge base has a page of
    its own, the listing of that page ([rag.js]) empties the list and
    shows the error, and the listing of the chat page ([fetchRagSummary])
    switches the toggle off and shows the reason in the summary. *)
Theorem failed_listing_clears_and_disables
    (StringToNumber : string -> float) (Date_toLocaleString : JsVal -> option string)
    (ans : FetchResult) (statusOverride : option StatusOverride)
    (p : Page) (reason : string) :
  failure_reason ans = Some reason ->
  let failed := error_status ("Kunde inte hämta kunskapsbasen: " +:+ reason) in
  let listing := fetchRagDocs StringToNumber Date_toLocaleString ans statusOverride in
  let kb_listing :=
    RagJs.fetchRagDocs StringToNumber Date_toLocaleString ans statusOverride in
  let summary := fetchRagSummary StringToNumber ans in
  (forall l, p.(ragList) = Some l ->
     (exec listing p).(ragList) = Some []
     /\ (forall t, p.(ragToggle) = Some t ->
         (exec listing p).(ragToggle) = Some switched_off)
     /\ (forall s, p.(ragStatus) = Some s ->
         (exec listing p).(ragStatus) = Some failed))
  /\ returns listing p = true
  /\ ((exec kb_listing p).(ragList) = option_map (fun _ => []) p.(ragList)
      /\ (exec kb_listing p).(ragStatus) = option_map (fun _ => failed) p.(ragStatus)
      /\ returns kb_listing p = true)
  /\ ((exec summary p).(ragToggle) = option_map (fun _ => switched_off) p.(ragToggle)
      /\ (exec summary p).(ragSummaryText)
         = option_map (fun _ => "Kunde inte hämta kunskapsbasen: " +:+ reason)
             p.(ragSummaryText)
      /\ returns summary p = true).
Proof.
  intros Hreason failed listing kb_listing summary.
  split; [| split; [| split]].
  - intros l Hl.
    exact (chat_failed_listing StringToNumber Date_toLocaleString ans statusOverride
             p l reason Hl Hreason).
  - apply fetchRagDocs_returns.
  - destruct (kb_failed_listing StringToNumber Date_toLocaleString ans statusOverride
                p reason Hreason) as (Hlist & Hstatus & _).
    split; [exact Hlist | split; [exact Hstatus | apply kb_fetchRagDocs_returns]].
  - destruct (failed_summary_disables StringToNumber ans p reason Hreason)
      as (Htoggle & Htext).
    split; [exact Htoggle | split; [exact Htext | apply fetchRagSummary_returns]].
Qed.

Lemma toggle_frame_refl p : toggle_frame p p.
Proof. repeat split. Qed.

Lemma toggle_frame_trans p q r :
  toggle_frame p q -> toggle_frame q r -> toggle_frame p r.
Proof. intros (? & ? & ?) (? & ? & ?). repeat split; congruence. Qed.

Lemma setRagStatus_toggle_frame message type p :
  toggle_frame p (setRagStatus message type p).
Proof. unfold setRagStatus. destruct p.(ragStatus); repeat split. Qed.

Lemma status_after_toggle_frame statusOverride summary p :
  toggle_frame p (status_after statusOverride summary p).
Proof.
  unfold status_after.
  destruct statusOverride as [[[| a t] ty] |]; try destruct (_ =? _)%nat;
    apply setRagStatus_toggle_frame.
Qed.

Lemma reconcile_toggle_spec docs p q t :
  p.(ragToggle) = Some t -> toggle_frame p q ->
  toggle_reconciled docs p (reconcile_toggle (List.length docs) q).
Proof.
  intros Ht (Hqt & Hqw & _). unfold reconcile_toggle. rewrite Hqt, Ht.
  destruct docs as [| d rest]; cbn [List.length Nat.eqb toggle_reconciled].
  - split.
    + unfold setStoredItem. cbn. destruct q.(window).(localStorage) as [| items [|]];
        reflexivity.
    + intros (items & Hst). unfold setStoredItem, getStoredItem. cbn.
      rewrite Hqw, Hst. cbn. apply lookup_insert_eq.
  - exists t. split; [exact Ht |].
    unfold getStoredItem. cbn. rewrite Hqw.
    destruct p.(window).(localStorage) as [| items full]; [reflexivity |].
    destruct (items !! STORAGE_KEYS.ragEnabled); reflexivity.
Qed.

Lemma toggle_reconciled_frame docs p a b :
  toggle_reconciled docs p a -> toggle_frame a b -> toggle_reconciled docs p b.
Proof.
  intros H (Ht & Hw & _). destruct docs as [| d rest]; cbn in *.
  - destruct H as (Ha & Hstore). split; [congruence |].
    intros Hacc. unfold getStoredItem in *. rewrite Hw. exact (Hstore Hacc).
  - destruct H as (t & Hp & Ha). exists t. split; [exact Hp | congruence].
Qed.

Lemma doc_item_non_nullish Date_toLocaleString doc :
  non_nullish doc -> exists li, doc_item Date_toLocaleString doc = inr li.
Proof.
  unfold non_nullish, doc_item.
  destruct doc; cbn; intros H; try discriminate; eexists; reflexivity.
Qed.

Lemma append_docs_run Date_toLocaleString docs :
  Forall non_nullish docs ->
  forall q, present q.(ragList) = true ->
  exists q',
    append_docs Date_toLocaleString docs q = (Normal tt, q') /\ toggle_frame q q'.
Proof.
  induction docs as [| doc rest IH]; intros Hall q Hlist.
  - exists q. split; [reflexivity | apply toggle_frame_refl].
  - inversion Hall as [| ? ? Hdoc Hrest]; subst.
    destruct (doc_item_non_nullish Date_toLocaleString doc Hdoc) as (li & Hli).
    cbn [append_docs]. unfold bind at 1, lift. rewrite Hli.
    unfold ret at 1, bind at 1, modify at 1.
    destruct (IH Hrest (set_ragList (Some (default [] q.(ragList) ++ [li])%list) q)
                eq_refl)
      as (q' & Hrun & Hframe).
    exists q'. split; [exact Hrun |].
    eapply toggle_frame_trans; [| exact Hframe].
    repeat split. cbn. symmetry. exact Hlist.
Qed.

(** The rendering of the documents of the chat page: the list is
    rebuilt, then the toggle is reconciled. *)
Lemma renderRagDocs_run StringToNumber Date_toLocaleString payload q :
  Forall non_nullish (documents_of payload) ->
  exists q1,
    toggle_frame q q1
    /\ renderRagDocs StringToNumber Date_toLocaleString payload q
       = (Normal {| count := List.length (documents_of payload);
                    chunkCount := chunk_count_of StringToNumber payload |},
          reconcile_toggle (List.length (documents_of payload)) q1).
Proof.
  intros Hall. unfold renderRagDocs, bind at 1, modify at 1.
  set (q0 := match q.(ragModelName) with Some _ => _ | None => q end).
  assert (H0 : toggle_frame q q0).
  { subst q0. destruct q.(ragModelName); [| apply toggle_frame_refl].
    destruct (_ && _); repeat split. }
  unfold bind at 1, read at 1.
  destruct (present q0.(ragList)) eqn:Hlist.
  - unfold bind at 1. unfold bind at 1, modify at 1.
    destruct (append_docs_run Date_toLocaleString _ Hall (set_ragList (Some []) q0) eq_refl)
      as (q1 & Hrun & Hframe).
    rewrite Hrun. exists q1. split; [| reflexivity].
    eapply toggle_frame_trans; [exact H0 |].
    eapply toggle_frame_trans; [| exact Hframe].
    repeat split. cbn. symmetry. exact Hlist.
  - exists q0. split; [exact H0 | reflexivity].
Qed.

Lemma renderRagSummary_run StringToNumber payload q :
  exists q1,
    toggle_frame q q1
    /\ renderRagSummary StringToNumber payload q
       = (Normal {| count := List.length (documents_of payload);
                    chunkCount := chunk_count_of StringToNumber payload |},
          reconcile_toggle (List.length (documents_of payload)) q1).
Proof.
  unfold renderRagSummary, bind at 1, modify at 1.
  eexists. split; [| reflexivity].
  destruct q.(ragSummaryText); repeat split.
Qed.

(** A listing of the chat page that succeeds: the documents are
    rendered on a page whose toggle and store are those before the
    listing, and what follows leaves the toggle and the store alone. *)
Lemma fetchRagDocs_success StringToNumber Date_toLocaleString status payload
    statusOverride q :
  present q.(ragList) = true -> ok status = true ->
  Forall non_nullish (documents_of payload) ->
  exists q1 q2,
    toggle_frame q q1
    /\ toggle_frame (reconcile_toggle (List.length (documents_of payload)) q1) q2
    /\ fetchRagDocs StringToNumber Date_toLocaleString
         (Response status (Parsed payload)) statusOverride q
       = (Normal tt, q2).
Proof.
  intros Hlist Hok Hall.
  unfold fetchRagDocs, bind at 1, read at 1. rewrite Hlist. cbn [negb].
  set (q0 := if statusOverride is None
             then setRagStatus "Hämtar kunskapsbas…" "info" q else q).
  assert (H0 : toggle_frame q q0).
  { subst q0. destruct statusOverride;
      [apply toggle_frame_refl | apply setRagStatus_toggle_frame]. }
  destruct (renderRagDocs_run StringToNumber Date_toLocaleString payload
              (set_requests (q0.(requests) ++ [GET "/api/rag/docs"])%list q0) Hall)
    as (q1 & H1 & Hrun).
  exists q1, (status_after statusOverride
                {| count := List.length (documents_of payload);
                   chunkCount := chunk_count_of StringToNumber payload |}
                (reconcile_toggle (List.length (documents_of payload)) q1)).
  split; [| split].
  - eapply toggle_frame_trans; [exact H0 |].
    eapply toggle_frame_trans; [| exact H1]. repeat split.
  - apply status_after_toggle_frame.
  - assert (Hq0 : (if statusOverride is None
                   then modify (setRagStatus "Hämtar kunskapsbas…" "info") else ret tt) q
                  = (Normal tt, q0)).
    { subst q0. destruct statusOverride; reflexivity. }
    unfold bind at 1. rewrite Hq0.
    unfold try_catch, bind at 1, fetch, bind at 1, modify at 1. cbn [ret fst snd].
    unfold bind at 1. rewrite Hok. cbn [ret json_of].
    unfold bind at 1. cbn [ret]. unfold bind at 1. rewrite Hrun. reflexivity.
Qed.

Lemma reconciles_spec docs m p t :
  p.(ragToggle) = Some t -> reconciles docs m p ->
  toggle_reconciled docs p (exec m p).
Proof.
  intros Ht (q1 & q2 & H1 & H2 & Hrun). unfold exec. rewrite Hrun.
  exact (toggle_reconciled_frame docs p _ q2 (reconcile_toggle_spec docs p q1 t Ht H1) H2).
Qed.

Lemma reconciles_from docs m p q :
  toggle_frame p q -> reconciles docs m q ->
  exists q1 q2,
    toggle_frame p q1
    /\ toggle_frame (reconcile_toggle (List.length docs) q1) q2
    /\ m q = (Normal tt, q2).
Proof.
  intros Hpq (q1 & q2 & H1 & H2 & Hrun). exists q1, q2.
  split; [exact (toggle_frame_trans _ _ _ Hpq H1) | split; assumption].
Qed.

Lemma fetchRagDocs_reconciles StringToNumber Date_toLocaleString status payload
    statusOverride q :
  present q.(ragList) = true -> ok status = true ->
  Forall non_nullish (documents_of payload) ->
  reconciles (documents_of payload)
    (fetchRagDocs StringToNumber Date_toLocaleString
       (Response status (Parsed payload)) statusOverride) q.
Proof. apply fetchRagDocs_success. Qed.

Lemma addRagDoc_reconciles StringToNumber Date_toLocaleString
    posted_status posted_json status payload value q :
  present q.(ragList) = true -> q.(ragInput) = Some value -> Str.trim value <> "" ->
  ok posted_status = true -> ok status = true ->
  Forall non_nullish (documents_of payload) ->
  reconciles (documents_of payload)
    (addRagDoc StringToNumber Date_toLocaleString
       (Response posted_status posted_json) (Response status (Parsed payload))) q.
Proof.
  intros Hlist Hinput Htext Hposted Hok Hall.
  unfold reconciles, addRagDoc, bind at 1, read at 1. rewrite Hinput.
  destruct (String.eqb_spec (Str.trim value) "") as [Heq | _]; [contradiction |].
  unfold bind at 1, modify at 1, try_catch, bind at 1, fetch, bind at 1, modify at 1.
  cbn [ret fst snd]. unfold bind at 1. rewrite Hposted. cbn [ret].
  unfold bind at 1, modify at 1.
  match goal with
  | |- context [fetchRagDocs _ _ _ ?so ?q'] =>
      destruct (reconciles_from (documents_of payload)
                  (fetchRagDocs StringToNumber Date_toLocaleString
                     (Response status (Parsed payload)) so) q q')
        as (q1 & q2 & H1 & H2 & Hrun)
  end.
  - destruct (setRagStatus_frame "Lägger till text…" "info" q) as (Hl & Ht & Hw & _).
    repeat split; cbn; congruence.
  - apply fetchRagDocs_reconciles; try assumption.
    cbn. destruct (setRagStatus_frame "Lägger till text…" "info" q) as (-> & _).
    exact Hlist.
  - exists q1, q2. rewrite Hrun. split; [exact H1 | split; [exact H2 | reflexivity]].
Qed.

Lemma deleteRagDoc_reconciles StringToNumber Date_toLocaleString
    id deleted_status deleted_json status payload q :
  present q.(ragList) = true -> Js.truthy id = true ->
  ok deleted_status = true -> ok status = true ->
  Forall non_nullish (documents_of payload) ->
  reconciles (documents_of payload)
    (deleteRagDoc StringToNumber Date_toLocaleString id
       (Response deleted_status deleted_json) (Response status (Parsed payload))) q.
Proof.
  intros Hlist Hid Hdeleted Hok Hall.
  unfold reconciles, deleteRagDoc. rewrite Hid. cbn [negb].
  unfold try_catch, bind at 1, fetch, bind at 1, modify at 1.
  cbn [ret fst snd]. unfold bind at 1. rewrite Hdeleted. cbn [ret].
  match goal with
  | |- context [fetchRagDocs _ _ _ ?so ?q'] =>
      destruct (reconciles_from (documents_of payload)
                  (fetchRagDocs StringToNumber Date_toLocaleString
                     (Response status (Parsed payload)) so) q q')
        as (q1 & q2 & H1 & H2 & Hrun)
  end.
  - repeat split.
  - apply fetchRagDocs_reconciles; assumption.
  - exists q1, q2. rewrite Hrun. split; [exact H1 | split; [exact H2 | reflexivity]].
Qed.

Lemma clearRagDocs_reconciles StringToNumber Date_toLocaleString
    deleted_status deleted_json status payload q :
  present q.(ragList) = true ->
  ok deleted_status = true -> ok status = true ->
  Forall non_nullish (documents_of payload) ->
  reconciles (documents_of payload)
    (clearRagDocs StringToNumber Date_toLocaleString true
       (Response deleted_status deleted_json) (Response status (Parsed payload))) q.
Proof.
  intros Hlist Hdeleted Hok Hall.
  unfold reconciles, clearRagDocs, bind at 1, read at 1. rewrite Hlist. cbn [negb].
  unfold try_catch, bind at 1, fetch, bind at 1, modify at 1.
  cbn [ret fst snd]. unfold bind at 1. rewrite Hdeleted. cbn [ret].
  match goal with
  | |- context [fetchRagDocs _ _ _ ?so ?q'] =>
      destruct (reconciles_from (documents_of payload)
                  (fetchRagDocs StringToNumber Date_toLocaleString
                     (Response status (Parsed payload)) so) q q')
        as (q1 & q2 & H1 & H2 & Hrun)
  end.
  - repeat split.
  - apply fetchRagDocs_reconciles; assumption.
  - exists q1, q2. rewrite Hrun. split; [exact H1 | split; [exact H2 | reflexivity]].
Qed.

(** C1, as the code has it. Whenever the chat page renders a snapshot of
    documents, the toggle follows the number of documents: without
    documents it is unchecked and disabled and ["0"] is written to the
    preference store (so the stored preference is ["0"] when the store
    takes the write); with documents it is enabled, and checked as the
    stored preference says when there is one, left as it was otherwise.
    That is so for the rendering itself, in both revisions of the page,
    and after every listing, addition, deletion and clearing that
    succeeds. *)
Theorem toggle_follows_documents
    (StringToNumber : string -> float) (Date_toLocaleString : JsVal -> option string)
    (payload : JsVal) (p : Page) (t : Toggle) :
  p.(ragToggle) = Some t ->
  Forall non_nullish (documents_of payload) ->
  let docs := documents_of payload in
  let listed status := Response status (Parsed payload) in
  toggle_reconciled docs p
    (exec (renderRagDocs StringToNumber Date_toLocaleString payload) p)
  /\ toggle_reconciled docs p (exec (renderRagSummary StringToNumber payload) p)
  /\ (present p.(ragList) = true ->
      forall status, ok status = true ->
      (forall statusOverride,
         toggle_reconciled docs p
           (exec (fetchRagDocs StringToNumber Date_toLocaleString
                    (listed status) statusOverride) p))
      /\ (forall posted_status posted_json value,
            ok posted_status = true ->
            p.(ragInput) = Some value -> Str.trim value <> "" ->
            toggle_reconciled docs p
              (exec (addRagDoc StringToNumber Date_toLocaleString
                       (Response posted_status posted_json) (listed status)) p))
      /\ (forall deleted_status deleted_json id,
            ok deleted_status = true -> Js.truthy id = true ->
            toggle_reconciled docs p
              (exec (deleteRagDoc StringToNumber Date_toLocaleString id
                       (Response deleted_status deleted_json) (listed status)) p))
      /\ (forall deleted_status deleted_json,
            ok deleted_status = true ->
            toggle_reconciled docs p
              (exec (clearRagDocs StringToNumber Date_toLocaleString true
                       (Response deleted_status deleted_json) (listed status)) p))).
Proof.
  intros Ht Hall docs listed. subst docs listed. split; [| split].
  - destruct (renderRagDocs_run StringToNumber Date_toLocaleString payload p Hall)
      as (q1 & H1 & Hrun).
    unfold exec. rewrite Hrun. exact (reconcile_toggle_spec _ p q1 t Ht H1).
  - destruct (renderRagSummary_run StringToNumber payload p) as (q1 & H1 & Hrun).
    unfold exec. rewrite Hrun. exact (reconcile_toggle_spec _ p q1 t Ht H1).
  - intros Hlist status Hok. split; [| split; [| split]].
    + intros statusOverride. apply (reconciles_spec _ _ p t Ht).
      apply fetchRagDocs_reconciles; assumption.
    + intros posted_status posted_json value Hposted Hinput Htext.
      apply (reconciles_spec _ _ p t Ht).
      apply (addRagDoc_reconciles _ _ _ _ _ _ value); assumption.
    + intros deleted_status deleted_json id Hdeleted Hid.
      apply (reconciles_spec _ _ p t Ht).
      apply deleteRagDoc_reconciles; assumption.
    + intros deleted_status deleted_json Hdeleted.
      apply (reconciles_spec _ _ p t Ht).
      apply clearRagDocs_reconciles; assumption.
Qed.

(** ** Instances *)

(** C1: without [localStorage] an empty snapshot switches the toggle off,
    and no preference is stored. *)
Lemma empty_snapshot_without_store :
  let p' := exec (renderRagDocs example_StringToNumber example_Date no_documents)
                 page_without_store in
  documents_of no_documents = []
  /\ p'.(ragToggle) = Some {| checked := false; disabled := true |}
  /\ getStoredItem STORAGE_KEYS.ragEnabled p' <> Some "0".
Proof. cbv zeta. split; [| split]; [reflexivity | reflexivity | discriminate]. Qed.

Lemma toggle_follows_documents_witness :
  toggle_reconciled [] chat_page
    (exec (renderRagDocs example_StringToNumber example_Date no_documents) chat_page)
  /\ (exec (fetchRagDocs example_StringToNumber example_Date
              (Response 200 (Parsed one_document)) None) chat_page).(ragToggle)
     = Some {| checked := true; disabled := false |}.
Proof.
  assert (Hnone : Forall non_nullish (documents_of no_documents)) by constructor.
  assert (Hone : Forall non_nullish (documents_of one_document))
    by (repeat constructor).
  split.
  - exact (proj1 (toggle_follows_documents example_StringToNumber example_Date
                    no_documents chat_page _ eq_refl Hnone)).
  - destruct (toggle_follows_documents example_StringToNumber example_Date
                one_document chat_page _ eq_refl Hone) as (_ & _ & Hcycles).
    destruct (Hcycles eq_refl 200%nat eq_refl) as (Hlist & _).
    destruct (Hlist None) as (t & Ht & Hafter).
    injection Ht as <-. exact Hafter.
Defined.

(** C2: with 7 in the input the request asks for 7 passages. *)
Lemma send_applies_clamped_topK_witness :
  parseInt "7" = Some 7
  /\ exists model messages temperature rest,
       (exec (sendPrompt example_parseFloat answer) chat_page).(requests)
       = POST "/api/chat" (ChatBody model messages temperature (Some 7)) :: rest.
Proof.
  split; [reflexivity |].
  destruct (send_applies_clamped_topK example_parseFloat answer chat_page)
    as (k & model & messages & temperature & rest & Hreq & Hnum & _);
    [discriminate | reflexivity |].
  rewrite (Hnum "7" 7 eq_refl eq_refl eq_refl) in Hreq by lia.
  exists model, messages, temperature, rest. exact Hreq.
Defined.

(** C3: a score of [Infinity] is not a finite number, and the entry
    still shows a similarity, of 100%. *)
Lemma infinite_score_is_annotated :
  Num.isFinite infinity = false
  /\ (exec (renderRagResults (JArr [JObj [("text", JStr "a"); ("score", JNum infinity)]]))
           chat_page).(ragResults)
     = Some {| hidden := false;
               ol := Some [ {| header := "Utdrag 1 • likhet 100%"; content := "a" |} ] |}.
Proof. split; vm_compute; reflexivity. Qed.

Lemma similarity_annotation_witness :
  exists li,
    ol_items (exec (renderRagResults
                      (JArr [JObj [("text", JStr "a"); ("score", JNum 0.957)]]))
                   chat_page) !! 0%nat = Some li
    /\ li.(header) = "Utdrag 1 • likhet 95.7%".
Proof.
  destruct (similarity_annotation chat_page _ _
              [JObj [("text", JStr "a"); ("score", JNum 0.957)]] 0 _
              eq_refl eq_refl ltac:(repeat constructor) eq_refl)
    as (li & Hli & Hheader).
  exists li. split; [exact Hli |]. vm_compute in Hheader. exact Hheader.
Defined.

(** The examples of the specification: 0.957 is shown as 95.7%, a score of
    -2 as -100%, and [NaN] or no score without a percentage. *)
Lemma similarity_examples :
  similarity (JNum 0.957) = " • likhet 95.7%"
  /\ similarity (JNum (-2)) = " • likhet -100%"
  /\ similarity (JNum nan) = ""
  /\ similarity JUndefined = ""
  /\ similarity (JStr "0.5") = "".
Proof. repeat split; vm_compute; reflexivity. Qed.

(** C4: a send with 7 in the top-K input writes 7 back and stores
    nothing. *)
Lemma send_does_not_store_topK :
  let p' := exec (sendPrompt example_parseFloat answer) chat_page in
  p'.(ragTopK) = Some "7"
  /\ p'.(history) = [ {| className := "msg user"; msg_text := "hej" |};
                      {| className := "msg assistant"; msg_text := "Hej!" |} ]
  /\ getStoredItem STORAGE_KEYS.ragTopK p' = None.
Proof. cbv zeta. repeat split; vm_compute; reflexivity. Qed.

Lemma send_writes_back_topK_witness :
  (exec (sendPrompt example_parseFloat answer) blank_page).(ragTopK) = Some "10"
  /\ getStoredItem STORAGE_KEYS.ragTopK (on_ragTopK_change blank_page) = Some "10".
Proof.
  destruct (send_writes_back_topK example_parseFloat answer blank_page "99" eq_refl)
    as (Hback & _ & _ & Hstored).
  split; [exact Hback | exact (Hstored ∅ eq_refl)].
Defined.

(** C5: with the models [a] and [b] listed, [mistral] stored and
    [qwen2:0.5b] configured, the stored [mistral] is appended and
    selected; with nothing stored it is the configured [qwen2:0.5b]; and
    with no models listed the stored [mistral] is the only option. *)
Lemma fetchModels_offers_preferred_witness :
  let listing := fetchModels
                   (Response 200 (Parsed (JObj [("models", JArr [JStr "a"; JStr "b"])]))) in
  let nothing := fetchModels (Response 200 (Parsed (JObj [("models", JArr [])]))) in
  ((exec listing page_with_preference).(model).(options)
   = [ {| opt_value := "a"; opt_text := "a" |};
       {| opt_value := "b"; opt_text := "b" |};
       {| opt_value := "mistral"; opt_text := "mistral (standard)" |} ]
   /\ Sel.value (exec listing page_with_preference).(model) = "mistral")
  /\ ((exec listing configured_page).(model).(options)
      = [ {| opt_value := "a"; opt_text := "a" |};
          {| opt_value := "b"; opt_text := "b" |};
          {| opt_value := "qwen2:0.5b"; opt_text := "qwen2:0.5b (standard)" |} ]
      /\ Sel.value (exec listing configured_page).(model) = "qwen2:0.5b")
  /\ ((exec nothing page_with_preference).(model).(options)
      = [ {| opt_value := "mistral"; opt_text := "mistral (ej installerad än)" |} ]
      /\ Sel.value (exec nothing page_with_preference).(model) = "mistral").
Proof.
  assert (Hnot : forall v, v <> "a" -> v <> "b" -> ~ In (JStr v) [JStr "a"; JStr "b"]).
  { intros v Ha Hb [H | [H | []]]; injection H as H; congruence. }
  split; [| split].
  - destruct (fetchModels_offers_preferred page_with_preference 200
                (JObj [("models", JArr [JStr "a"; JStr "b"])])
                (JArr [JStr "a"; JStr "b"]) [JStr "a"; JStr "b"] eq_refl eq_refl)
      as (_ & _ & Hlisted).
    exact (Hlisted ltac:(discriminate)
             (Hnot "mistral" ltac:(discriminate) ltac:(discriminate))).
  - destruct (fetchModels_offers_preferred configured_page 200
                (JObj [("models", JArr [JStr "a"; JStr "b"])])
                (JArr [JStr "a"; JStr "b"]) [JStr "a"; JStr "b"] eq_refl eq_refl)
      as (_ & _ & Hlisted).
    exact (Hlisted ltac:(discriminate)
             (Hnot "qwen2:0.5b" ltac:(discriminate) ltac:(discriminate))).
  - destruct (fetchModels_offers_preferred page_with_preference 200
                (JObj [("models", JArr [])]) (JArr []) [] eq_refl eq_refl)
      as (_ & Hempty & _).
    exact (Hempty eq_refl).
Defined.

(** C6: [render([{text: "a"}])] shows one entry, [Utdrag 1], without a
    percentage. *)
Lemma render_hides_or_lists_witness :
  renderRagResults (JArr [JObj [("text", JStr "a")]]) chat_page
  = (Normal tt,
     set_ragResults
       (Some {| hidden := false;
                ol := Some [ {| header := "Utdrag 1"; content := "a" |} ] |})
       chat_page).
Proof.
  destruct (render_hides_or_lists chat_page _ _ eq_refl eq_refl) as (_ & _ & Hitems).
  destruct (Hitems [JObj [("text", JStr "a")]] ltac:(discriminate)
              ltac:(repeat constructor)) as (Hrun & _).
  exact Hrun.
Defined.

(** C7: a listing answered with status 500. *)
Lemma failed_listing_clears_and_disables_witness :
  let p' := exec (fetchRagDocs example_StringToNumber example_Date
                    (Response 500 (Parsed JNull)) None) chat_page in
  p'.(ragList) = Some []
  /\ p'.(ragToggle) = Some {| checked := false; disabled := true |}
  /\ p'.(ragStatus)
     = Some {| status_text := "Kunde inte hämta kunskapsbasen: HTTP 500";
               is_error := true; is_success := false |}.
Proof.
  destruct (failed_listing_clears_and_disables example_StringToNumber example_Date
              (Response 500 (Parsed JNull)) None chat_page "HTTP 500" eq_refl)
    as (Hchat & _).
  destruct (Hchat [] eq_refl) as (Hlist & Htoggle & Hstatus).
  split; [exact Hlist | split; [exact (Htoggle _ eq_refl) | exact (Hstatus _ eq_refl)]].
Defined.

(** C8: [send("   ")]. *)
Lemma blank_send_is_silent_witness :
  Str.trim "   " = ""
  /\ (exec (sendPrompt example_parseFloat answer) blank_page).(history) = []
  /\ (exec (sendPrompt example_parseFloat answer) blank_page).(requests) = [].
Proof.
  split; [reflexivity |].
  destruct (blank_send_is_silent example_parseFloat answer blank_page eq_refl)
    as (Hhistory & Hrequests & _).
  split; [exact Hhistory | exact Hrequests].
Defined.

(** C9: a blank send turns 99 in the top-K input into 10. *)
Lemma blank_send_rewrites_topK_witness :
  blank_page.(ragTopK) = Some "99"
  /\ (exec (sendPrompt example_parseFloat answer) blank_page).(ragTopK) = Some "10"
  /\ (exec (sendPrompt example_parseFloat answer) blank_page).(ragTopK)
     <> blank_page.(ragTopK).
Proof.
  split; [reflexivity |].
  destruct (blank_send_rewrites_topK example_parseFloat answer blank_page "99"
              eq_refl eq_refl) as (Hvalue & Hchanged & _).
  split; [exact Hvalue | apply Hchanged; discriminate].
Defined.

(** C10: a string in place of the array of items. *)
Lemma render_non_array_like_empty_witness :
  (exec (renderRagResults (JStr "abc")) chat_page).(ragResults)
  = Some {| hidden := true; ol := Some [] |}.
Proof.
  destruct (render_non_array_like_empty (JStr "abc") chat_page eq_refl)
    as (_ & _ & Hhidden).
  exact (Hhidden _ _ eq_refl eq_refl).
Defined.

(** ** Further facts *)

(** A top-K input that parses to an integer below 1, or to one too large
    for a finite double, gives the default 3 as well. *)
Lemma send_topK_out_of_range (v : string) (n : Z) :
  parseInt v = Some n -> n < 1 \/ rounds_to_infinity n = true ->
  send_topK (Some v) = 3.
Proof.
  intros Hparse Hn. unfold send_topK. change (default "" (Some v)) with v.
  assert (Hv : or_string v "3" = v).
  { unfold or_string. destruct (String.eqb_spec v "") as [-> | _]; [| reflexivity].
    rewrite parseInt_empty in Hparse. discriminate. }
  rewrite Hv, Hparse. unfold clamp_topK, Number_isFinite_int.
  destruct Hn as [Hn | ->]; [| reflexivity].
  destruct (rounds_to_infinity n); [reflexivity |].
  destruct (Z.ltb_spec n 1); [reflexivity | lia].
Qed.

(** The percentages print with at most one digit after the point: for
    every integer [k] from -1000 to 1000, the double [k / 10] is printed
    as the decimal [k / 10]. *)
Lemma percent_text :
  forallb (fun k => String.eqb (Num.Number_toString (Num.of_Z k / 10)%float) (tenths k))
          thousandths = true.
Proof. vm_compute. reflexivity. Qed.

(** An item that is [null] makes the display throw, after it has emptied
    the list; a document that is [null] makes the rendering of the list
    throw, which the listing catches like any other failure. That is why
    the properties above are about arrays of objects. *)
Lemma null_entries_throw :
  renderRagResults (JArr [JNull]) chat_page
  = (Thrown (TypeError "Cannot read properties of null (reading 'score')"),
     set_ragResults (Some {| hidden := false; ol := Some [] |}) chat_page)
  /\ (let p' := exec (fetchRagDocs example_StringToNumber example_Date
                        (Response 200 (Parsed (JObj [("documents", JArr [JNull])]))) None)
                     chat_page in
      p'.(ragToggle) = Some switched_off
      /\ p'.(ragStatus)
         = Some (error_status
                   ("Kunde inte hämta kunskapsbasen: "
                    +:+ "Cannot read properties of null (reading 'preview')"))).
Proof. split; [| split]; vm_compute; reflexivity. Qed.

(** * Further properties of the scripts *)

(** ** The preference store *)

(** X1. The preference store keeps what it is given: in a store that
    takes the write, an item that was stored is read back under its key
    and the items under the other keys read as before; when the store is
    missing or full, storing changes nothing on the page. *)
Theorem stored_item_round_trip (key value : string) (p : Page) :
  (storage_accepts p ->
   getStoredItem key (setStoredItem key value p) = Some value
   /\ forall other, other <> key ->
      getStoredItem other (setStoredItem key value p) = getStoredItem other p)
  /\ (~ storage_accepts p -> setStoredItem key value p = p).
Proof.
  unfold storage_accepts, getStoredItem, setStoredItem. split.
  - intros (items & Hst). rewrite Hst. cbn. split.
    + apply lookup_insert_eq.
    + intros other Hne. apply lookup_insert_ne. congruence.
  - intros Hno. destruct p.(window).(localStorage) as [| items [|]]; try reflexivity.
    exfalso. apply Hno. eexists. reflexivity.
Qed.

Lemma stored_item_round_trip_witness :
  getStoredItem "k" (setStoredItem "k" "v" chat_page) = Some "v"
  /\ setStoredItem "k" "v" page_without_store = page_without_store.
Proof.
  split.
  - apply (proj1 (stored_item_round_trip "k" "v" chat_page)).
    exists ∅. reflexivity.
  - apply (proj2 (stored_item_round_trip "k" "v" page_without_store)).
    intros (items & Hst). discriminate Hst.
Defined.

(** ** The model selector, whatever the answer *)

Lemma has_model_self preferred : has_model preferred [JStr preferred] = true.
Proof. cbn. rewrite String.eqb_refl. reflexivity. Qed.

Lemma has_model_listed preferred ms :
  has_model preferred ms = true ->
  exists o, In o (List.map listed_option ms) /\ o.(opt_value) = preferred.
Proof.
  induction ms as [| m rest IH]; cbn; [discriminate |].
  destruct m as [| | | | s | |]; cbn; try (intros H; destruct (IH H) as (o & Hin & Ho);
    exists o; split; [right; exact Hin | exact Ho]).
  destruct (String.eqb_spec s preferred) as [-> | _]; cbn.
  - intros _. eexists. split; [left; reflexivity | reflexivity].
  - intros H. destruct (IH H) as (o & Hin & Ho). exists o. split; [right; exact Hin | exact Ho].
Qed.

Lemma offered_has_preferred preferred ms :
  exists o, In o (offered_options preferred ms) /\ o.(opt_value) = preferred.
Proof.
  unfold offered_options. destruct ms as [| m rest].
  - eexists. split; [left; reflexivity | reflexivity].
  - destruct (has_model preferred (m :: rest)) eqn:Hhas.
    + destruct (has_model_listed _ _ Hhas) as (o & Hin & Ho).
      exists o. split; [apply in_or_app; left; exact Hin | exact Ho].
    + eexists. split; [apply in_or_app; right; left; reflexivity | reflexivity].
Qed.

(** A listing that succeeds: the selector offers the listed models and
    the preferred one, which is selected. *)
Lemma fetchModels_listed ans ms p :
  listed_models ans = Some ms ->
  let preferred := preferred_model p in
  exists idx,
    fetchModels ans p
    = (Normal tt,
       set_model {| options := offered_options preferred ms; selectedIndex := idx |}
         (set_requests (p.(requests) ++ [GET "/api/models"])%list p))
    /\ Sel.value {| options := offered_options preferred ms; selectedIndex := idx |}
       = preferred.
Proof.
  intros Hlisted preferred.
  destruct ans as [msg | status [msg | data]]; try discriminate Hlisted.
  cbn [listed_models] in Hlisted.
  destruct (Js.get data "models") as [e | listed] eqn:Hget; [discriminate |].
  cbv zeta in Hlisted.
  unfold fetchModels, try_catch, bind, fetch, modify, json_of, read.
  cbn -[append_models preferred_model Js.or has_model Js.length_is_zero Js.iterate
        offered_options].
  rewrite Hget.
  cbn -[append_models preferred_model Js.or has_model Js.length_is_zero Js.iterate
        offered_options].
  change (preferred_model (set_requests _ (set_model Sel.empty p))) with preferred.
  destruct (Js.length_is_zero (Js.or listed (JArr []))) eqn:Hzero.
  - injection Hlisted as <-.
    cbn -[preferred_model has_model]. rewrite has_model_self.
    cbn -[preferred_model]. eexists. split; [reflexivity |].
    unfold Sel.value. cbn. rewrite String.eqb_refl. reflexivity.
  - rewrite Hlisted.
    destruct (append_models_spec ms
                (set_requests (p.(requests) ++ [GET "/api/models"])%list
                   (set_model Sel.empty p))) as (idx & Hrest).
    rewrite Hrest.
    assert (Hne : ms <> []).
    { intros ->. destruct (Js.or listed (JArr [])) as [| | | | s | items |];
        cbn in Hlisted, Hzero; try discriminate.
      - destruct s; [discriminate |]. cbn in Hlisted.
        destruct (Str.chars s); [| destruct (Str.head_is_continuation _)];
          discriminate Hlisted.
      - injection Hlisted as ->. discriminate. }
    destruct ms as [| m rest]; [congruence |].
    cbn -[List.map has_model preferred_model].
    destruct (has_model preferred (m :: rest)) eqn:Hhas.
    + rewrite app_nil_r. eexists. split; [reflexivity |].
      apply (select_listed_value preferred
               {| options := List.map listed_option (m :: rest); selectedIndex := idx |}).
      apply has_model_listed. exact Hhas.
    + eexists. split; [reflexivity |].
      apply (select_listed_value preferred
               {| options := (List.map listed_option (m :: rest)
                              ++ [ {| opt_value := preferred;
                                      opt_text := preferred +:+ " (standard)" |} ])%list;
                  selectedIndex := idx |}).
      eexists. split; [apply in_or_app; right; left; reflexivity | reflexivity].
Qed.

Lemma select_only_option v t :
  Sel.set_value v (Sel.appendChild {| opt_value := v; opt_text := t |} Sel.empty)
  = {| options := [ {| opt_value := v; opt_text := t |} ]; selectedIndex := Some 0%nat |}.
Proof. unfold Sel.set_value, Sel.appendChild. cbn. rewrite String.eqb_refl. reflexivity. Qed.

Lemma fetchModels_unlisted ans p :
  listed_models ans = None ->
  fetchModels ans p
  = (Normal tt,
     set_model {| options := [fallback_option p]; selectedIndex := Some 0%nat |}
       (set_requests (p.(requests) ++ [GET "/api/models"])%list p)).
Proof.
  intros Hnone. unfold fallback_option, default_model.
  destruct ans as [msg | status [msg | data]].
  - unfold fetchModels, try_catch, bind, fetch, modify, read, default_model.
    cbn -[or_string]. rewrite select_only_option. reflexivity.
  - unfold fetchModels, try_catch, bind, fetch, modify, read, json_of, default_model.
    cbn -[or_string]. rewrite select_only_option. reflexivity.
  - cbn [listed_models] in Hnone.
    unfold fetchModels, try_catch, bind, fetch, modify, json_of, read, default_model.
    cbn -[append_models preferred_model or_string Js.or has_model
          Js.length_is_zero Js.iterate].
    destruct (Js.get data "models") as [e | listed] eqn:Hget.
    + cbn -[or_string]. rewrite select_only_option. reflexivity.
    + cbv zeta in Hnone.
      cbn -[append_models preferred_model or_string Js.or has_model
            Js.length_is_zero Js.iterate].
      destruct (Js.length_is_zero (Js.or listed (JArr []))); [discriminate |].
      rewrite Hnone. cbn -[or_string]. rewrite select_only_option. reflexivity.
Qed.

Lemma default_model_named p : default_model p <> "".
Proof.
  unfold default_model, or_string.
  destruct (String.eqb_spec (default "" p.(window).(DEFAULT_MODEL)) ""); [discriminate | assumption].
Qed.

Lemma preferred_model_named p : preferred_model p <> "".
Proof.
  unfold preferred_model, or_string.
  destruct (String.eqb_spec (default "" (getStoredItem STORAGE_KEYS.model p)) "");
    [apply default_model_named | assumption].
Qed.

(** X2. When the models cannot be listed (the endpoint cannot be
    reached, the body is no JSON, or it holds nothing that can be listed),
    the selector holds one option, the default model marked
    [(endpoint otillgänglig)], and that option is selected; a stored
    preference is not looked at. The call returns. *)
Theorem fetchModels_failure_fallback (ans : FetchResult) (p : Page) :
  listed_models ans = None ->
  let sel := (exec (fetchModels ans) p).(model) in
  sel.(options)
  = [ {| opt_value := default_model p;
         opt_text := default_model p +:+ " (endpoint otillgänglig)" |} ]
  /\ Sel.value sel = default_model p
  /\ returns (fetchModels ans) p = true.
Proof.
  intros Hnone sel. subst sel. unfold exec, returns, outcome.
  rewrite (fetchModels_unlisted ans p Hnone). repeat split.
Qed.

Lemma fetchModels_failure_fallback_witness :
  let p := setStoredItem STORAGE_KEYS.model "mistral" chat_page in
  preferred_model p = "mistral"
  /\ (exec (fetchModels (NetworkError "Failed to fetch")) p).(model).(options)
     = [ {| opt_value := "llama3.2:1b";
            opt_text := "llama3.2:1b (endpoint otillgänglig)" |} ].
Proof.
  cbv zeta. split; [reflexivity |].
  exact (proj1 (fetchModels_failure_fallback (NetworkError "Failed to fetch")
                  (setStoredItem STORAGE_KEYS.model "mistral" chat_page) eq_refl)).
Defined.

(** X3. Whatever the answer, the listing of the models returns, and
    the selector then has a selected option whose value is not empty: the
    preferred model when the answer lists models (also under a status
    outside 200..299, which the script does not look at), the default
    model otherwise. *)
Theorem fetchModels_always_selects (ans : FetchResult) (p : Page) :
  let sel := (exec (fetchModels ans) p).(model) in
  returns (fetchModels ans) p = true
  /\ Sel.value sel
     = (if listed_models ans is Some _ then preferred_model p else default_model p)
  /\ Sel.value sel <> ""
  /\ exists o, In o sel.(options) /\ o.(opt_value) = Sel.value sel.
Proof.
  intros sel. subst sel. unfold exec, returns, outcome.
  destruct (listed_models ans) as [ms |] eqn:Hlisted.
  - destruct (fetchModels_listed ans ms p Hlisted) as (idx & -> & Hvalue).
    cbn [fst snd model set_model]. rewrite Hvalue.
    split; [reflexivity | split; [reflexivity | split; [apply preferred_model_named |]]].
    apply offered_has_preferred.
  - rewrite (fetchModels_unlisted ans p Hlisted). cbn [fst snd model set_model].
    split; [reflexivity | split; [reflexivity | split; [apply default_model_named |]]].
    eexists. split; [left; reflexivity | reflexivity].
Qed.

(** X4. The model that the user selects is the one selected again
    after a reload: once the handler of [change] has stored the selection
    (in a store that takes it), a listing that succeeds on a page with
    that store selects that model, whether the server lists it or not. *)
Theorem model_choice_survives_reload (ans : FetchResult) (ms : list JsVal)
    (p fresh : Page) :
  storage_accepts p -> Sel.value p.(model) <> "" ->
  fresh.(window) = (on_model_change p).(window) ->
  listed_models ans = Some ms ->
  Sel.value (exec (fetchModels ans) fresh).(model) = Sel.value p.(model).
Proof.
  intros (items & Hst) Hvalue Hwindow Hlisted.
  destruct (fetchModels_listed ans ms fresh Hlisted) as (idx & Hrun & Hsel).
  unfold exec. rewrite Hrun. cbn [snd model set_model]. rewrite Hsel.
  unfold preferred_model, getStoredItem. rewrite Hwindow.
  unfold on_model_change, setStoredItem. rewrite Hst. cbn.
  rewrite lookup_insert_eq. cbn. unfold or_string.
  destruct (String.eqb_spec (Sel.value p.(model)) ""); [contradiction | reflexivity].
Qed.

Lemma model_choice_survives_reload_witness :
  Sel.value
    (exec (fetchModels (Response 200 (Parsed (JObj [("models", JArr [JStr "a"])]))))
       (on_model_change page_with_choice)).(model)
  = "mistral".
Proof.
  apply (model_choice_survives_reload _ [JStr "a"] page_with_choice
           (on_model_change page_with_choice)).
  - exists ∅. reflexivity.
  - discriminate.
  - reflexivity.
  - reflexivity.
Defined.

(** ** The retrieval controls across reloads *)

Lemma parseInt_pretty_topK k :
  1 <= k <= 10 -> parseInt (pretty k) = Some k.
Proof.
  intros Hk.
  assert (H : k = 1 \/ k = 2 \/ k = 3 \/ k = 4 \/ k = 5 \/ k = 6 \/ k = 7 \/ k = 8
              \/ k = 9 \/ k = 10) by lia.
  repeat (destruct H as [-> | H]; [vm_compute; reflexivity |]). subst. vm_compute. reflexivity.
Qed.

Lemma clamp_topK_fixed k : 1 <= k <= 10 -> clamp_topK (Some k) = k.
Proof.
  intros Hk. unfold clamp_topK, Number_isFinite_int, rounds_to_infinity.
  assert (Hfin : (2 ^ 1024 - 2 ^ 970 <=? Z.abs k) = false).
  { apply Z.leb_gt. apply Z.le_lt_trans with 10; [lia |]. reflexivity. }
  rewrite Hfin. cbn [negb orb].
  destruct (Z.ltb_spec k 1); [lia |]. destruct (Z.ltb_spec 10 k); lia.
Qed.

(** X5. The handler of [change] on the top-K input always leaves a
    whole number from 1 to 10 in the input, and running it once more
    changes nothing, on the page or in the store. *)
Theorem topK_change_idempotent (p : Page) :
  on_ragTopK_change (on_ragTopK_change p) = on_ragTopK_change p
  /\ forall v, p.(ragTopK) = Some v ->
     exists k, 1 <= k <= 10 /\ (on_ragTopK_change p).(ragTopK) = Some (pretty k).
Proof.
  split.
  - unfold on_ragTopK_change at 2 3.
    destruct p.(ragTopK) as [v |] eqn:Hv.
    + pose proof (clamp_topK_range (parseInt v)) as Hk.
      set (k := clamp_topK (parseInt v)) in *.
      unfold on_ragTopK_change.
      assert (Hin : (setStoredItem STORAGE_KEYS.ragTopK (pretty k)
                       (set_ragTopK (Some (pretty k)) p)).(ragTopK) = Some (pretty k)).
      { unfold setStoredItem. cbn.
        destruct p.(window).(localStorage) as [| items [|]]; reflexivity. }
      rewrite Hin, (parseInt_pretty_topK k Hk), (clamp_topK_fixed k Hk).
      unfold setStoredItem. cbn.
      destruct p.(window).(localStorage) as [| items [|]] eqn:Hst; cbn; rewrite ?Hst; cbn;
        try reflexivity.
      rewrite insert_insert_eq. reflexivity.
    + unfold on_ragTopK_change. rewrite Hv. reflexivity.
  - intros v Hv. exists (clamp_topK (parseInt v)). split; [apply clamp_topK_range |].
    unfold on_ragTopK_change, setStoredItem. rewrite Hv. cbn.
    destruct p.(window).(localStorage) as [| items [|]]; reflexivity.
Qed.

Lemma topK_change_idempotent_witness :
  blank_page.(ragTopK) = Some "99"
  /\ exists k, 1 <= k <= 10 /\ (on_ragTopK_change blank_page).(ragTopK) = Some (pretty k).
Proof.
  split; [reflexivity |].
  exact (proj2 (topK_change_idempotent blank_page) "99" eq_refl).
Defined.

(** X6. The top-K that the user sets is the one shown after a
    reload: once the handler of [change] has stored it (in a store that
    takes it), the page load writes the same number to the input of a
    page with that store. And whatever the store holds, the page load
    leaves the input as it is or writes a whole number from 1 to 10. *)
Theorem topK_survives_reload (p fresh : Page) (v shown : string) :
  p.(ragTopK) = Some v -> storage_accepts p ->
  fresh.(ragTopK) = Some shown ->
  (fresh.(window) = (on_ragTopK_change p).(window) ->
   (init_ragTopK fresh).(ragTopK) = (on_ragTopK_change p).(ragTopK))
  /\ ((init_ragTopK fresh).(ragTopK) = Some shown
      \/ exists k, 1 <= k <= 10 /\ (init_ragTopK fresh).(ragTopK) = Some (pretty k)).
Proof.
  intros Hv (items & Hst) Hshown. split.
  - intros Hwindow.
    pose proof (clamp_topK_range (parseInt v)) as Hk.
    unfold init_ragTopK, getStoredItem. rewrite Hshown, Hwindow.
    unfold on_ragTopK_change, setStoredItem. rewrite Hv. cbn. rewrite Hst. cbn.
    rewrite lookup_insert_eq. cbn.
    rewrite (parseInt_pretty_topK _ Hk).
    assert (Hfin : Number_isFinite_int (Some (clamp_topK (parseInt v))) = true).
    { unfold Number_isFinite_int, rounds_to_infinity.
      apply negb_true_iff, Z.leb_gt.
      apply Z.le_lt_trans with 10; [lia | reflexivity]. }
    rewrite Hfin. destruct (Z.leb_spec 1 (clamp_topK (parseInt v))); [| lia].
    cbn. rewrite Z.min_r by lia. reflexivity.
  - unfold init_ragTopK. rewrite Hshown.
    destruct (parseInt _) as [z |] eqn:Hparse; [| left; exact Hshown].
    destruct (Number_isFinite_int (Some z) && (1 <=? z)) eqn:Hgood; [| left; exact Hshown].
    apply andb_true_iff in Hgood. destruct Hgood as (_ & Hz%Z.leb_le).
    right. exists (Z.min 10 z). split; [lia | reflexivity].
Qed.

Lemma topK_survives_reload_witness :
  (init_ragTopK (set_ragTopK (Some "3") (on_ragTopK_change blank_page))).(ragTopK)
  = (on_ragTopK_change blank_page).(ragTopK).
Proof.
  apply (proj1 (topK_survives_reload blank_page
                  (set_ragTopK (Some "3") (on_ragTopK_change blank_page)) "99" "3"
                  eq_refl (ex_intro _ ∅ eq_refl) eq_refl)).
  reflexivity.
Defined.

(** X7. The state of the retrieval toggle that the user sets is
    restored: once the handler of [change] has stored it (in a store that
    takes it), the page load checks the toggle of a page with that store
    as the user left it, and a rendering of a snapshot with documents
    enables the toggle and keeps that state. *)
Theorem toggle_choice_survives_reload
    (StringToNumber : string -> float) (Date_toLocaleString : JsVal -> option string)
    (payload : JsVal) (p fresh : Page) (t t0 : Toggle) :
  p.(ragToggle) = Some t -> storage_accepts p ->
  fresh.(ragToggle) = Some t0 -> fresh.(window) = (on_ragToggle_change p).(window) ->
  (init_ragToggle fresh).(ragToggle)
  = Some {| checked := t.(checked); disabled := t0.(disabled) |}
  /\ (documents_of payload <> [] -> Forall non_nullish (documents_of payload) ->
      (exec (renderRagDocs StringToNumber Date_toLocaleString payload)
            (init_ragToggle fresh)).(ragToggle)
      = Some {| checked := t.(checked); disabled := false |}).
Proof.
  intros Ht (items & Hst) Ht0 Hwindow.
  assert (Hstored : forall q, q.(window) = fresh.(window) ->
            getStoredItem STORAGE_KEYS.ragEnabled q
            = Some (if t.(checked) then "1" else "0")).
  { intros q Hq. unfold getStoredItem. rewrite Hq, Hwindow.
    unfold on_ragToggle_change, setStoredItem. rewrite Ht, Hst. cbn.
    apply lookup_insert_eq. }
  assert (Hinit : init_ragToggle fresh
                  = set_ragToggle
                      (Some {| checked := t.(checked); disabled := t0.(disabled) |}) fresh).
  { unfold init_ragToggle. rewrite Ht0, (Hstored fresh eq_refl).
    destruct t.(checked); reflexivity. }
  split; [rewrite Hinit; reflexivity |].
  intros Hdocs Hall.
  destruct (renderRagDocs_run StringToNumber Date_toLocaleString payload
              (init_ragToggle fresh) Hall) as (q1 & H1 & Hrun).
  unfold exec. rewrite Hrun. cbn [snd].
  pose proof (reconcile_toggle_spec (documents_of payload) (init_ragToggle fresh) q1 _
                ltac:(rewrite Hinit; reflexivity) H1) as Hrec.
  destruct (documents_of payload) as [| d rest]; [congruence |].
  destruct Hrec as (t' & Ht' & Hafter). rewrite Hafter.
  rewrite (Hstored (init_ragToggle fresh)) by (rewrite Hinit; reflexivity).
  destruct t.(checked); reflexivity.
Qed.

Lemma toggle_choice_survives_reload_witness :
  let fresh := set_ragToggle (Some {| checked := false; disabled := true |})
                 (on_ragToggle_change chat_page) in
  (exec (renderRagDocs example_StringToNumber example_Date one_document)
        (init_ragToggle fresh)).(ragToggle)
  = Some {| checked := true; disabled := false |}.
Proof.
  cbv zeta.
  apply (proj2 (toggle_choice_survives_reload example_StringToNumber example_Date
                  one_document chat_page
                  (set_ragToggle (Some {| checked := false; disabled := true |})
                     (on_ragToggle_change chat_page))
                  {| checked := true; disabled := false |}
                  {| checked := false; disabled := true |}
                  eq_refl (ex_intro _ ∅ eq_refl) eq_refl eq_refl)).
  - discriminate.
  - repeat constructor.
Defined.

(** X8. Emptying the knowledge base forgets that retrieval was on:
    after a rendering of a snapshot without documents (with a store that
    takes the write), a later rendering of a snapshot with documents
    enables the toggle and leaves it unchecked, however it was set
    before. *)
Theorem emptied_base_forgets_choice
    (StringToNumber : string -> float) (Date_toLocaleString : JsVal -> option string)
    (emptied listed : JsVal) (p : Page) (t : Toggle) :
  p.(ragToggle) = Some t -> storage_accepts p ->
  documents_of emptied = [] ->
  documents_of listed <> [] -> Forall non_nullish (documents_of listed) ->
  let render payload := renderRagDocs StringToNumber Date_toLocaleString payload in
  (exec (render listed) (exec (render emptied) p)).(ragToggle)
  = Some {| checked := false; disabled := false |}.
Proof.
  intros Ht Hacc Hemptied Hlisted Hall render. subst render.
  destruct (renderRagDocs_run StringToNumber Date_toLocaleString emptied p)
    as (q1 & H1 & Hrun1); [rewrite Hemptied; constructor |].
  pose proof (reconcile_toggle_spec (documents_of emptied) p q1 t Ht H1) as Hrec1.
  rewrite Hemptied in Hrec1, Hrun1. cbn in Hrec1. destruct Hrec1 as (Hoff & Hstored).
  specialize (Hstored Hacc).
  set (p1 := exec (renderRagDocs StringToNumber Date_toLocaleString emptied) p).
  assert (Hp1 : p1 = reconcile_toggle 0 q1) by (subst p1; unfold exec; rewrite Hrun1; reflexivity).
  destruct (renderRagDocs_run StringToNumber Date_toLocaleString listed p1 Hall)
    as (q2 & H2 & Hrun2).
  unfold exec at 1. rewrite Hrun2. cbn [snd].
  pose proof (reconcile_toggle_spec (documents_of listed) p1 q2 _
                ltac:(rewrite Hp1; exact Hoff) H2) as Hrec2.
  destruct (documents_of listed) as [| d rest]; [congruence |].
  destruct Hrec2 as (t' & Ht' & Hafter). rewrite Hafter, Hp1, Hstored. reflexivity.
Qed.

Lemma emptied_base_forgets_choice_witness :
  let render payload := renderRagDocs example_StringToNumber example_Date payload in
  (on_ragToggle_change chat_page).(ragToggle) = Some {| checked := true; disabled := false |}
  /\ (exec (render one_document)
        (exec (render no_documents) (on_ragToggle_change chat_page))).(ragToggle)
     = Some {| checked := false; disabled := false |}.
Proof.
  cbv zeta. split; [reflexivity |].
  apply (emptied_base_forgets_choice example_StringToNumber example_Date
           no_documents one_document (on_ragToggle_change chat_page)
           {| checked := true; disabled := false |} eq_refl (ex_intro _ _ eq_refl) eq_refl).
  - discriminate.
  - repeat constructor.
Defined.

Lemma reply_frame_refl p : reply_frame p p.
Proof. split; [reflexivity |]. exists []. split; [symmetry; apply app_nil_r | constructor]. Qed.

Lemma reply_frame_trans p q r : reply_frame p q -> reply_frame q r -> reply_frame p r.
Proof.
  intros (Hp1 & r1 & Hh1 & Hr1) (Hp2 & r2 & Hh2 & Hr2). split; [congruence |].
  exists (r1 ++ r2)%list. split; [rewrite Hh2, Hh1, app_assoc; reflexivity |].
  apply Forall_app. split; assumption.
Qed.

Lemma chat_frame_refl p : chat_frame p p.
Proof. repeat split. Qed.

Lemma chat_frame_trans p q r : chat_frame p q -> chat_frame q r -> chat_frame p r.
Proof. intros (? & ? & ? & ? & ?) (? & ? & ? & ? & ?). repeat split; congruence. Qed.

Lemma chat_frame_reply p q : chat_frame p q -> reply_frame p q.
Proof.
  intros (Hh & Hp & _). split; [exact Hp |].
  exists []. rewrite app_nil_r. split; [exact Hh | constructor].
Qed.

Ltac chat_step := frame_step_with chat_frame_refl chat_frame_trans.
Ltac reply_step := frame_step_with reply_frame_refl reply_frame_trans.

Lemma renderRagResults_chat_frame v : preserves chat_frame (renderRagResults v).
Proof.
  unfold renderRagResults. chat_step; [chat_step |].
  destruct a as [w |]; [| chat_step].
  destruct w.(ol); [| chat_step].
  assert (Hol : forall items p, chat_frame p (set_ol items p)).
  { intros items p. unfold set_ol. destruct p.(ragResults); repeat split. }
  assert (Hhid : forall h p, chat_frame p (set_hidden h p)).
  { intros h p. unfold set_hidden. destruct p.(ragResults); repeat split. }
  assert (Happ : forall items idx, preserves chat_frame (append_results idx items)).
  { induction items as [| item rest IH]; intros idx; cbn [append_results].
    - chat_step.
    - repeat chat_step; [apply Hol | apply IH]. }
  chat_step; [chat_step; apply Hol |].
  destruct v as [| | | | | [| item rest] |];
    repeat chat_step; try apply Hhid; try apply Happ.
Qed.

(** The cases of a message of the assistant: the speech toggle and
    whether the browser can speak. *)
Ltac speech_cases p :=
  unfold speakBrowser, downloadServerTTS, bind, modify, read;
  destruct p as [? ? ? ? ? ? ? ? ? ? ? ? ? ? tts [? ? ? synth] ? ? ?];
  destruct tts as [[|] |]; try destruct synth; cbn.

Ltac addMsg_cases role p :=
  unfold exec, outcome, addMsg; unfold bind at 1; unfold modify at 1;
  destruct (String.eqb role "assistant"); [speech_cases p | cbn].

Lemma addMsg_returns role text p : exists q, addMsg role text p = (Normal tt, q).
Proof. addMsg_cases role p; eexists; reflexivity. Qed.

(** A message of the assistant: it is appended to the history, and only
    the speech and its requests change besides. *)
Lemma addMsg_assistant text p :
  let q := exec (addMsg "assistant" text) p in
  q.(history) = (p.(history) ++ [assistant_message (Js.text_of text)])%list
  /\ q.(prompt) = p.(prompt) /\ q.(send) = p.(send)
  /\ q.(ragResults) = p.(ragResults) /\ q.(lastAssistantText) = text.
Proof.
  unfold exec, addMsg. unfold bind at 1. unfold modify at 1.
  change (String.eqb "assistant" "assistant") with true. cbv iota.
  speech_cases p; repeat split.
Qed.

Lemma addMsg_assistant_reply_frame text : preserves reply_frame (addMsg "assistant" text).
Proof.
  intros p. destruct (addMsg_assistant text p) as (Hh & Hp & _).
  split; [exact Hp |]. eexists. split; [exact Hh |]. repeat constructor.
Qed.

Lemma renderRagResults_reply_frame v : preserves reply_frame (renderRagResults v).
Proof. intros p. apply chat_frame_reply, renderRagResults_chat_frame. Qed.

Lemma throw_detail_throws {A} data status q :
  @throw_detail A data status q = (Thrown (Error (rejection_text data status)), q)
  \/ exists e, Js.get data "detail" = inl e
               /\ @throw_detail A data status q = (Thrown e, q)
               /\ e.(message) = rejection_text data status.
Proof.
  unfold throw_detail, rejection_text, bind, lift.
  destruct (Js.get data "detail") as [e | detail]; [right | left; reflexivity].
  exists e. repeat split.
Qed.

(** *** Running a script step by step *)

Lemma run_bind_ret {A B} (a : A) (k : A -> M B) q : bind (ret a) k q = k a q.
Proof. reflexivity. Qed.

Lemma run_bind_modify {B} (f : Page -> Page) (k : unit -> M B) q :
  bind (modify f) k q = k tt (f q).
Proof. reflexivity. Qed.

Lemma run_bind_read {A B} (f : Page -> A) (k : A -> M B) q :
  bind (read f) k q = k (f q) q.
Proof. reflexivity. Qed.

Lemma run_bind_normal {A B} (m : M A) (k : A -> M B) q a q' :
  m q = (Normal a, q') -> bind m k q = k a q'.
Proof. intros H. unfold bind. rewrite H. reflexivity. Qed.

Lemma run_bind_thrown {A B} (m : M A) (k : A -> M B) q e q' :
  m q = (Thrown e, q') -> bind m k q = (Thrown e, q').
Proof. intros H. unfold bind. rewrite H. reflexivity. Qed.

Lemma run_fetch_response {B} req status json (k : nat * Json -> M B) q :
  bind (fetch req (Response status json)) k q
  = k (status, json) (set_requests (q.(requests) ++ [req])%list q).
Proof. reflexivity. Qed.

Lemma run_fetch_error {B} req msg (k : nat * Json -> M B) q :
  bind (fetch req (NetworkError msg)) k q
  = (Thrown (TypeError msg), set_requests (q.(requests) ++ [req])%list q).
Proof. reflexivity. Qed.

Lemma run_try_thrown {A} (m : M A) (h : Exn -> M A) q e q' :
  m q = (Thrown e, q') -> try_catch m h q = h e q'.
Proof. intros H. unfold try_catch. rewrite H. reflexivity. Qed.

Lemma run_try_normal {A} (m : M A) (h : Exn -> M A) q a q' :
  m q = (Normal a, q') -> try_catch m h q = (Normal a, q').
Proof. intros H. unfold try_catch. rewrite H. reflexivity. Qed.

Lemma run_finally {A} (m : M A) (f : Page -> Page) q r q' :
  m q = (r, q') -> finally m f q = (r, f q').
Proof. intros H. unfold finally. rewrite H. reflexivity. Qed.

Lemma chat_exchange_failed body useRag ans reason q :
  chat_failure ans = Some reason ->
  chat_exchange body useRag ans q
  = finally (addMsg "assistant" (JStr (failure_notice reason)) ;;
             renderRagResults (JArr []))
      (set_send ready_button)
      (set_requests (q.(requests) ++ [POST "/api/chat" body])%list q).
Proof.
  intros Hfail. unfold chat_exchange.
  set (q1 := set_requests (q.(requests) ++ [POST "/api/chat" body])%list q).
  match goal with
  | |- finally (try_catch ?m ?h) _ q = _ =>
      assert (Hrun : exists e, m q = (Thrown e, q1) /\ e.(message) = reason)
  end.
  { destruct ans as [msg | status json]; cbn in Hfail.
    - injection Hfail as <-. rewrite run_fetch_error. eexists. split; reflexivity.
    - rewrite run_fetch_response. cbv beta. cbn [fst snd]. fold q1.
      destruct (ok status) eqn:Hok.
      + destruct json as [msg | data]; [| discriminate]. injection Hfail as <-.
        rewrite run_bind_ret. eexists. split; reflexivity.
      + injection Hfail as <-.
        destruct (@throw_detail_throws unit (json_or_empty json) status q1)
          as [Hthrow | (e & _ & Hthrow & Hmsg)].
        * rewrite (run_bind_thrown _ _ _ _ _ Hthrow). eexists. split; reflexivity.
        * rewrite (run_bind_thrown _ _ _ _ _ Hthrow). exists e. split; [reflexivity | exact Hmsg]. }
  destruct Hrun as (e & Hrun & Hmsg).
  unfold finally at 1. rewrite (run_try_thrown _ _ _ _ _ Hrun).
  unfold failure_notice. rewrite Hmsg. reflexivity.
Qed.

Lemma chat_exchange_answered body useRag status data q :
  ok status = true ->
  chat_exchange body useRag (Response status (Parsed data)) q
  = finally (addMsg "assistant" (reply_of data) ;;
             try_catch (renderRagResults (shown_context useRag data)) chat_catch)
      (set_send ready_button)
      (set_requests (q.(requests) ++ [POST "/api/chat" body])%list q).
Proof.
  intros Hok. unfold chat_exchange.
  set (q1 := set_requests (q.(requests) ++ [POST "/api/chat" body])%list q).
  match goal with
  | |- finally ?m _ ?a = finally ?m' _ ?b =>
      enough (Hrun : m a = m' b) by (unfold finally; rewrite Hrun; reflexivity)
  end.
  destruct (addMsg_returns "assistant" (reply_of data) q1) as (q2 & Hmsg).
  rewrite (run_bind_normal _ _ _ _ _ Hmsg).
  unfold try_catch at 1. rewrite run_fetch_response. cbv beta. cbn [fst snd]. fold q1.
  rewrite Hok, run_bind_ret. cbn [json_of]. rewrite run_bind_ret.
  fold (reply_of data). rewrite (run_bind_normal _ _ _ _ _ Hmsg).
  unfold try_catch, shown_context, chat_catch, failure_notice.
  destruct (useRag || Js.isArray (Js.get_opt data "rag_context")); reflexivity.
Qed.

Lemma render_empty_always_returns : always_returns (renderRagResults (JArr [])).
Proof.
  intros q. pose proof (render_empty_returns q) as H. unfold outcome in H.
  destruct (renderRagResults (JArr []) q) as [o q']. cbn in H. subst o. eexists. reflexivity.
Qed.

Lemma chat_catch_always_returns e : always_returns (chat_catch e).
Proof.
  intros q. unfold chat_catch.
  destruct (addMsg_returns "assistant" (JStr (failure_notice e.(message))) q) as (q1 & H1).
  rewrite (run_bind_normal _ _ _ _ _ H1). apply render_empty_always_returns.
Qed.

Lemma try_always_returns (m : M unit) (h : Exn -> M unit) :
  (forall e, always_returns (h e)) -> always_returns (try_catch m h).
Proof.
  intros Hh q. unfold try_catch. destruct (m q) as [[[] | e] q']; [eexists; reflexivity |].
  apply Hh.
Qed.

Lemma chat_catch_reply_frame e : preserves reply_frame (chat_catch e).
Proof.
  unfold chat_catch. reply_step;
    [apply addMsg_assistant_reply_frame | apply renderRagResults_reply_frame].
Qed.

(** Every chat exchange logs its request, appends a message of the
    assistant, and then runs steps that return and only add messages of
    the assistant. *)
Lemma chat_exchange_replies body useRag ans q :
  exists (text : JsVal) (m : M unit),
    preserves reply_frame m /\ always_returns m
    /\ chat_exchange body useRag ans q
       = finally (addMsg "assistant" text ;; m) (set_send ready_button)
           (set_requests (q.(requests) ++ [POST "/api/chat" body])%list q).
Proof.
  destruct (chat_failure ans) as [reason |] eqn:Hfail.
  - exists (JStr (failure_notice reason)), (renderRagResults (JArr [])).
    split; [apply renderRagResults_reply_frame |].
    split; [apply render_empty_always_returns |].
    apply chat_exchange_failed. exact Hfail.
  - destruct ans as [msg | status [msg | data]]; cbn in Hfail; try discriminate;
      destruct (ok status) eqn:Hok; try discriminate.
    exists (reply_of data),
      (try_catch (renderRagResults (shown_context useRag data)) chat_catch).
    split; [| split].
    + apply preserves_try_catch;
        [exact reply_frame_trans | apply renderRagResults_reply_frame
        | apply chat_catch_reply_frame].
    + apply try_always_returns, chat_catch_always_returns.
    + apply chat_exchange_answered. exact Hok.
Qed.

Lemma page_at_request_chat p :
  let q := page_at_request p in
  q.(history) = (p.(history) ++ [user_message (Str.trim p.(prompt))])%list
  /\ q.(prompt) = "".
Proof.
  unfold page_at_request.
  match goal with
  | |- context [exec (renderRagResults ?v) ?q0] =>
      destruct (renderRagResults_chat_frame v q0) as (Hh & Hp & _)
  end.
  cbv zeta. rewrite Hh, Hp. cbn. split; reflexivity.
Qed.

(** X9. A send with a prompt that is not blank always completes,
    whatever the server answers (a transport error, any status, a body
    that is no JSON, excerpts that cannot be shown): the call returns, the
    send button is enabled again and reads [Skicka], the prompt is
    cleared, and the history has grown by the message of the user
    followed by at least one message of the assistant, and by nothing
    else. *)
Theorem send_always_completes (parseFloat : string -> float) (ans : FetchResult)
    (p : Page) :
  Str.trim p.(prompt) <> "" ->
  let p' := exec (sendPrompt parseFloat ans) p in
  returns (sendPrompt parseFloat ans) p = true
  /\ p'.(send) = {| btn_disabled := false; btn_text := "Skicka" |}
  /\ p'.(prompt) = ""
  /\ exists reply more,
       p'.(history)
       = (p.(history) ++ user_message (Str.trim p.(prompt)) :: reply :: more)%list
       /\ Forall assistant_reply (reply :: more).
Proof.
  intros Hprompt p'. subst p'. unfold returns, outcome, exec.
  rewrite (sendPrompt_sends parseFloat ans p Hprompt).
  destruct (chat_exchange_replies (chat_body parseFloat p) (use_rag p) ans
              (page_at_request p)) as (text & m & Hframe & Hret & ->).
  set (q1 := set_requests _ (page_at_request p)).
  destruct (addMsg_returns "assistant" text q1) as (q2 & Hmsg).
  destruct (Hret q2) as (q3 & Hm).
  rewrite (run_finally _ _ _ (Normal tt) q3)
    by (rewrite (run_bind_normal _ _ _ _ _ Hmsg); exact Hm).
  cbn [fst snd].
  destruct (addMsg_assistant text q1) as (Hh2 & Hp2 & _).
  unfold exec in Hh2, Hp2. rewrite Hmsg in Hh2, Hp2. cbn [snd] in Hh2, Hp2.
  destruct (Hframe q2) as (Hp3 & more & Hh3 & Hmore).
  unfold exec in Hp3, Hh3. rewrite Hm in Hp3, Hh3. cbn [snd] in Hp3, Hh3.
  destruct (page_at_request_chat p) as (Hh1 & Hp1).
  split; [reflexivity |]. split; [reflexivity |]. split.
  - cbn [prompt set_send]. rewrite Hp3, Hp2. subst q1. cbn [prompt set_requests]. exact Hp1.
  - exists (assistant_message (Js.text_of text)), more. split.
    + cbn [history set_send]. rewrite Hh3, Hh2. subst q1. cbn [history set_requests].
      rewrite Hh1, <- !app_assoc. reflexivity.
    + constructor; [reflexivity | exact Hmore].
Qed.

Lemma send_always_completes_witness :
  let p' := exec (sendPrompt example_parseFloat (Response 502 (Malformed "Unexpected token")))
                 chat_page in
  p'.(send) = {| btn_disabled := false; btn_text := "Skicka" |}
  /\ p'.(prompt) = "".
Proof.
  destruct (send_always_completes example_parseFloat
              (Response 502 (Malformed "Unexpected token")) chat_page
              ltac:(discriminate)) as (_ & Hsend & Hprompt & _).
  split; [exact Hsend | exact Hprompt].
Defined.

Lemma page_at_request_results p w l :
  p.(ragResults) = Some w -> w.(ol) = Some l ->
  (page_at_request p).(ragResults) = Some {| hidden := true; ol := Some [] |}.
Proof.
  intros Hw Hl. unfold page_at_request, exec.
  rewrite (render_hides (JArr []) _ w l); [reflexivity | | exact Hl | right; reflexivity].
  cbn. unfold write_back_topK. destruct p.(ragTopK); exact Hw.
Qed.

(** X10. A send that fails says why: the history grows by the
    message of the user and one message of the assistant, [Fel: ] with the
    reason and the hint about Ollama, where the reason is the message of
    the transport error, the [detail] of a rejected response (else [HTTP]
    and the status; the text of the [TypeError] when the body of that
    response is [null]), or the message of the JSON error; the results
    region is emptied and hidden. *)
Theorem send_reports_failure (parseFloat : string -> float) (ans : FetchResult)
    (p : Page) (reason : string) :
  Str.trim p.(prompt) <> "" -> chat_failure ans = Some reason ->
  let p' := exec (sendPrompt parseFloat ans) p in
  p'.(history)
  = (p.(history)
     ++ [ user_message (Str.trim p.(prompt));
          assistant_message
            ("Fel: " +:+ reason +:+ Str.newline
             +:+ "Tips: säkerställ att Ollama kör och att modellen är hämtad.") ])%list
  /\ (forall w l, p.(ragResults) = Some w -> w.(ol) = Some l ->
      p'.(ragResults) = Some {| hidden := true; ol := Some [] |}).
Proof.
  intros Hprompt Hfail p'. subst p'. unfold exec.
  rewrite (sendPrompt_sends parseFloat ans p Hprompt).
  rewrite (chat_exchange_failed _ _ ans reason _ Hfail).
  set (q1 := set_requests _ (page_at_request p)).
  destruct (addMsg_returns "assistant" (JStr (failure_notice reason)) q1) as (q2 & Hmsg).
  destruct (render_empty_always_returns q2) as (q3 & Hrender).
  rewrite (run_finally _ _ _ (Normal tt) q3)
    by (rewrite (run_bind_normal _ _ _ _ _ Hmsg); exact Hrender).
  cbn [snd].
  destruct (addMsg_assistant (JStr (failure_notice reason)) q1) as (Hh2 & _ & _ & Hr2 & _).
  unfold exec in Hh2, Hr2. rewrite Hmsg in Hh2, Hr2. cbn [snd] in Hh2, Hr2.
  destruct (renderRagResults_chat_frame (JArr []) q2) as (Hh3 & _).
  unfold exec in Hh3. rewrite Hrender in Hh3. cbn [snd] in Hh3.
  destruct (page_at_request_chat p) as (Hh1 & _).
  split.
  - cbn [history set_send]. rewrite Hh3, Hh2. subst q1. cbn [history set_requests].
    rewrite Hh1, <- app_assoc. reflexivity.
  - intros w l Hw Hl. cbn [ragResults set_send].
    assert (Hq2 : q2.(ragResults) = Some {| hidden := true; ol := Some [] |}).
    { rewrite Hr2. subst q1. cbn [ragResults set_requests].
      exact (page_at_request_results p w l Hw Hl). }
    rewrite (render_hides (JArr []) q2 _ [] Hq2 eq_refl (or_intror eq_refl)) in Hrender.
    injection Hrender as <-. reflexivity.
Qed.

Lemma send_reports_failure_witness :
  let rejected := Response 404 (Parsed (JObj [("detail", JStr "model not found")])) in
  (exec (sendPrompt example_parseFloat rejected) chat_page).(history)
  = [ {| className := "msg user"; msg_text := "hej" |};
      {| className := "msg assistant";
         msg_text := "Fel: model not found" +:+ Str.newline
                     +:+ "Tips: säkerställ att Ollama kör och att modellen är hämtad." |} ]
  /\ (exec (sendPrompt example_parseFloat (Response 500 (Malformed "no JSON")))
           chat_page).(history)
     = [ {| className := "msg user"; msg_text := "hej" |};
         {| className := "msg assistant";
            msg_text := "Fel: HTTP 500" +:+ Str.newline
                        +:+ "Tips: säkerställ att Ollama kör och att modellen är hämtad." |} ].
Proof.
  cbv zeta. split.
  - exact (proj1 (send_reports_failure example_parseFloat
                    (Response 404 (Parsed (JObj [("detail", JStr "model not found")])))
                    chat_page "model not found" ltac:(discriminate) eq_refl)).
  - exact (proj1 (send_reports_failure example_parseFloat
                    (Response 500 (Malformed "no JSON"))
                    chat_page "HTTP 500" ltac:(discriminate) eq_refl)).
Defined.

Lemma render_context useRag data q w l :
  q.(ragResults) = Some w -> w.(ol) = Some l ->
  (forall items, Js.get_opt data "rag_context" = JArr items -> Forall non_nullish items) ->
  renderRagResults (shown_context useRag data) q
  = (Normal tt,
     set_ragResults (Some (context_results (Js.get_opt data "rag_context"))) q).
Proof.
  intros Hw Hl Hitems. unfold shown_context, context_results.
  assert (Hhide : forall v, Js.isArray v = false \/ v = JArr [] ->
            renderRagResults v q
            = (Normal tt, set_ragResults (Some {| hidden := true; ol := Some [] |}) q))
    by (intros v Hv; exact (render_hides v q w l Hw Hl Hv)).
  destruct (Js.get_opt data "rag_context") as [| | b | x | s | items | props] eqn:Hctx;
    cbn [Js.isArray orb];
    try (destruct useRag; cbn [orb]; unfold Js.or;
         try match goal with |- context [Js.truthy ?v] => destruct (Js.truthy v) end;
         apply Hhide; first [left; reflexivity | right; reflexivity]).
  rewrite orb_true_r. cbn [Js.or Js.truthy].
  destruct items as [| item rest].
  - apply Hhide. right. reflexivity.
  - apply (render_shows _ q w l Hw Hl); [discriminate | apply Hitems; reflexivity].
Qed.

(** X11. A send that is answered shows the reply: the history grows
    by the message of the user and the content of the answer
    ([[Inget svar]] when it has none), which is also kept as the last text
    of the assistant; the results region shows the [rag_context] of the
    answer when that is a non-empty array, and is empty and hidden
    otherwise, whether retrieval was in use or not. *)
Theorem send_shows_reply (parseFloat : string -> float) (status : nat) (data : JsVal)
    (p : Page) :
  Str.trim p.(prompt) <> "" -> ok status = true ->
  (forall items, Js.get_opt data "rag_context" = JArr items -> Forall non_nullish items) ->
  let p' := exec (sendPrompt parseFloat (Response status (Parsed data))) p in
  p'.(history)
  = (p.(history)
     ++ [ user_message (Str.trim p.(prompt));
          assistant_message
            (Js.text_of (Js.or (Js.get_opt (Js.get_opt data "message") "content")
                               (JStr "[Inget svar]"))) ])%list
  /\ p'.(lastAssistantText)
     = Js.or (Js.get_opt (Js.get_opt data "message") "content") (JStr "[Inget svar]")
  /\ (forall w l, p.(ragResults) = Some w -> w.(ol) = Some l ->
      p'.(ragResults) = Some (context_results (Js.get_opt data "rag_context"))).
Proof.
  intros Hprompt Hok Hitems p'. subst p'. unfold exec.
  rewrite (sendPrompt_sends parseFloat _ p Hprompt).
  rewrite (chat_exchange_answered _ _ status data _ Hok).
  set (q1 := set_requests _ (page_at_request p)).
  destruct (addMsg_returns "assistant" (reply_of data) q1) as (q2 & Hmsg).
  destruct (addMsg_assistant (reply_of data) q1) as (Hh2 & _ & _ & Hr2 & Hlast).
  unfold exec in Hh2, Hr2, Hlast. rewrite Hmsg in Hh2, Hr2, Hlast.
  cbn [snd] in Hh2, Hr2, Hlast.
  destruct (page_at_request_chat p) as (Hh1 & _).
  set (m := try_catch (renderRagResults (shown_context (use_rag p) data)) chat_catch).
  assert (Hm : exists q3, m q2 = (Normal tt, q3)
                 /\ q3.(history) = q2.(history)
                 /\ q3.(lastAssistantText) = q2.(lastAssistantText)
                 /\ (forall w l, p.(ragResults) = Some w -> w.(ol) = Some l ->
                     q3.(ragResults)
                     = Some (context_results (Js.get_opt data "rag_context")))).
  { destruct p.(ragResults) as [w |] eqn:Hw; [destruct w.(ol) as [l |] eqn:Hl |].
    - assert (Hq2 : q2.(ragResults) = Some {| hidden := true; ol := Some [] |}).
      { rewrite Hr2. subst q1. cbn [ragResults set_requests].
        exact (page_at_request_results p w l Hw Hl). }
      eexists. split; [| split; [| split]].
      + subst m. apply run_try_normal.
        exact (render_context (use_rag p) data q2 _ [] Hq2 eq_refl Hitems).
      + reflexivity.
      + reflexivity.
      + intros w' l' _ _. reflexivity.
    - assert (Hq2 : exists w', q2.(ragResults) = Some w' /\ w'.(ol) = None).
      { exists w. split; [| exact Hl]. rewrite Hr2. subst q1. cbn [ragResults set_requests].
        unfold page_at_request, exec. rewrite render_without_region; cbn.
        - unfold write_back_topK. destruct p.(ragTopK); exact Hw.
        - right. exists w. split; [| exact Hl].
          unfold write_back_topK. destruct p.(ragTopK); exact Hw. }
      exists q2. split; [| split; [| split]]; try reflexivity.
      + subst m. apply run_try_normal. apply render_without_region. right. exact Hq2.
      + intros w' l' Hw' Hl'. injection Hw' as <-. congruence.
    - assert (Hq2 : q2.(ragResults) = None).
      { rewrite Hr2. subst q1. cbn [ragResults set_requests].
        unfold page_at_request, exec. rewrite render_without_region; cbn.
        - unfold write_back_topK. destruct p.(ragTopK); exact Hw.
        - left. unfold write_back_topK. destruct p.(ragTopK); exact Hw. }
      exists q2. split; [| split; [| split]]; try reflexivity.
      + subst m. apply run_try_normal. apply render_without_region. left. exact Hq2.
      + intros w' l' Hw'. discriminate Hw'. }
  destruct Hm as (q3 & Hrun & Hh3 & Hl3 & Hr3).
  rewrite (run_finally _ _ _ (Normal tt) q3)
    by (rewrite (run_bind_normal _ _ _ _ _ Hmsg); exact Hrun).
  cbn [snd history lastAssistantText ragResults set_send].
  split; [| split].
  - rewrite Hh3, Hh2. subst q1. cbn [history set_requests].
    rewrite Hh1, <- app_assoc. reflexivity.
  - rewrite Hl3. exact Hlast.
  - exact Hr3.
Qed.

Lemma send_shows_reply_witness :
  let answered :=
    Response 200
      (Parsed (JObj [("message", JObj [("content", JStr "Hej!")]);
                     ("rag_context", JArr [JObj [("text", JStr "a")]])])) in
  let p := set_ragToggle (Some {| checked := false; disabled := false |}) chat_page in
  let p' := exec (sendPrompt example_parseFloat answered) p in
  use_rag p = false
  /\ p'.(history) = [ {| className := "msg user"; msg_text := "hej" |};
                      {| className := "msg assistant"; msg_text := "Hej!" |} ]
  /\ p'.(ragResults)
     = Some {| hidden := false; ol := Some [ {| header := "Utdrag 1"; content := "a" |} ] |}.
Proof.
  cbv zeta. split; [reflexivity |].
  destruct (send_shows_reply example_parseFloat 200
              (JObj [("message", JObj [("content", JStr "Hej!")]);
                     ("rag_context", JArr [JObj [("text", JStr "a")]])])
              (set_ragToggle (Some {| checked := false; disabled := false |}) chat_page)
              ltac:(discriminate) eq_refl)
    as (Hhistory & _ & Hresults).
  - intros items Hitems. injection Hitems as <-. repeat constructor.
  - split; [exact Hhistory | exact (Hresults _ _ eq_refl eq_refl)].
Defined.

(** ** Speech *)

(** X13. A message is voiced at most once, and only a message of
    the assistant. A message of another role leaves the speech, the
    requests and the last text of the assistant alone. A message of the
    assistant becomes the last text, and with the speech toggle on it is
    either spoken by the browser (one utterance, no request) or, in a
    browser without speech synthesis, asked of the server (one request to
    [/api/tts], no utterance); with the toggle off or missing neither
    happens. The call returns. *)
Theorem message_is_voiced_once (role : string) (text : JsVal) (p : Page) :
  let p' := exec (addMsg role text) p in
  returns (addMsg role text) p = true
  /\ (role <> "assistant" ->
      p'.(spoken) = p.(spoken) /\ p'.(requests) = p.(requests)
      /\ p'.(lastAssistantText) = p.(lastAssistantText))
  /\ (role = "assistant" ->
      p'.(lastAssistantText) = text
      /\ match p.(ttsToggle), p.(window).(speechSynthesis) with
         | Some true, Some voices =>
             p'.(spoken) = (p.(spoken) ++ [utterance_of text voices])%list
             /\ p'.(requests) = p.(requests)
         | Some true, None =>
             p'.(spoken) = p.(spoken)
             /\ p'.(requests) = (p.(requests) ++ [POST "/api/tts" (TtsBody text)])%list
         | _, _ => p'.(spoken) = p.(spoken) /\ p'.(requests) = p.(requests)
         end).
Proof.
  intros p'. subst p'. split; [| split].
  - unfold returns, outcome. destruct (addMsg_returns role text p) as (q & ->). reflexivity.
  - intros Hrole. unfold exec, addMsg. unfold bind at 1. unfold modify at 1.
    destruct (String.eqb_spec role "assistant") as [Heq | _]; [contradiction |].
    repeat split.
  - intros ->. unfold exec, addMsg. unfold bind at 1. unfold modify at 1.
    change (String.eqb "assistant" "assistant") with true. cbv iota.
    unfold utterance_of. speech_cases p; repeat split.
Qed.

Lemma message_is_voiced_once_witness :
  let p := set_window
             {| DEFAULT_MODEL := None; RAG_MAX_CHARS := JUndefined;
                localStorage := NoStorage; speechSynthesis := None |}
             chat_page in
  (exec (addMsg "user" (JStr "hej")) p).(requests) = []
  /\ (exec (addMsg "assistant" (JStr "Hej!")) p).(lastAssistantText) = JStr "Hej!".
Proof.
  cbv zeta. split.
  - destruct (message_is_voiced_once "user" (JStr "hej")
                (set_window
                   {| DEFAULT_MODEL := None; RAG_MAX_CHARS := JUndefined;
                      localStorage := NoStorage; speechSynthesis := None |}
                   chat_page)) as (_ & Huser & _).
    exact (proj1 (proj2 (Huser ltac:(discriminate)))).
  - destruct (message_is_voiced_once "assistant" (JStr "Hej!")
                (set_window
                   {| DEFAULT_MODEL := None; RAG_MAX_CHARS := JUndefined;
                      localStorage := NoStorage; speechSynthesis := None |}
                   chat_page)) as (_ & _ & Hassistant).
    exact (proj1 (Hassistant eq_refl)).
Defined.

(** X14. In a browser with speech synthesis [speakBrowser] speaks
    the text once and returns [true]; the language of the utterance is
    never empty. When a Swedish voice is installed (a language that
    starts with [sv] in any case, or a name that holds [swedish] or
    [svenska]) the utterance uses such a voice, and its language when it
    has one; when none is installed the utterance has no voice and the
    language [sv-SE]. *)
Theorem speech_prefers_swedish (text : JsVal) (voices : list Voice) (p : Page) :
  p.(window).(speechSynthesis) = Some voices ->
  exists u,
    speakBrowser text p = (Normal true, set_spoken (p.(spoken) ++ [u])%list p)
    /\ u.(utter_text) = Js.ToString text
    /\ u.(utter_lang) <> ""
    /\ ((exists v, In v voices /\ is_swedish v = true) ->
        exists v, u.(utter_voice) = Some v /\ In v voices /\ is_swedish v = true
                  /\ (v.(voice_lang) <> "" -> u.(utter_lang) = v.(voice_lang)))
    /\ ((forall v, In v voices -> is_swedish v = false) ->
        u.(utter_voice) = None /\ u.(utter_lang) = "sv-SE").
Proof.
  intros Hsynth. exists (utterance_of text voices).
  split; [| split; [| split; [| split]]].
  - unfold speakBrowser, bind, read, modify. rewrite Hsynth. reflexivity.
  - reflexivity.
  - unfold utterance_of, or_string. cbn.
    destruct (String.eqb_spec (default "" (option_map voice_lang (find is_swedish voices))) "");
      [discriminate | assumption].
  - intros (v & Hin & Hv). unfold utterance_of. cbn.
    destruct (find is_swedish voices) as [v' |] eqn:Hfind.
    + exists v'. destruct (find_some _ _ Hfind) as (Hin' & Hv').
      split; [reflexivity | split; [exact Hin' | split; [exact Hv' |]]].
      intros Hlang. cbn. unfold or_string.
      destruct (String.eqb_spec v'.(voice_lang) ""); [contradiction | reflexivity].
    + rewrite (find_none _ _ Hfind v Hin) in Hv. discriminate.
  - intros Hnone. unfold utterance_of. cbn.
    destruct (find is_swedish voices) as [v' |] eqn:Hfind; [| split; reflexivity].
    destruct (find_some _ _ Hfind) as (Hin' & Hv').
    rewrite (Hnone v' Hin') in Hv'. discriminate.
Qed.

Lemma speech_prefers_swedish_witness :
  exists u, (exec (speakBrowser (JStr "Hej!")) speaking_page).(spoken) = [u]
            /\ u.(utter_lang) = "SV-se".
Proof.
  destruct (speech_prefers_swedish (JStr "Hej!") _ speaking_page eq_refl)
    as (u & Hrun & _ & _ & Hsv & _).
  destruct Hsv as (v & Hv & Hin & _ & Hlang).
  - exists {| voice_name := "Alva"; voice_lang := "SV-se" |}.
    split; [right; left; reflexivity | reflexivity].
  - exists u. unfold exec. rewrite Hrun. split; [reflexivity |].
    destruct Hin as [<- | [<- | []]].
    + destruct u as [ut uv ul]. cbn in *.
      apply (f_equal snd) in Hrun. cbn in Hrun.
      apply (f_equal spoken) in Hrun. cbn in Hrun. injection Hrun as _ Hvoice _.
      congruence.
    + apply Hlang. discriminate.
Defined.

Lemma input_frame_refl p : input_frame p p.
Proof. split; reflexivity. Qed.

Lemma input_frame_trans p q r : input_frame p q -> input_frame q r -> input_frame p r.
Proof. intros (? & ?) (? & ?). split; congruence. Qed.

Ltac input_step := frame_step_with input_frame_refl input_frame_trans.

Lemma setRagStatus_base_frame message type p : base_frame p (setRagStatus message type p).
Proof. unfold setRagStatus. destruct p.(ragStatus); repeat split. Qed.

Lemma setRagStatus_input_frame message type p : input_frame p (setRagStatus message type p).
Proof. unfold setRagStatus. destruct p.(ragStatus); split; reflexivity. Qed.

Lemma reconcile_toggle_input_frame n p : input_frame p (reconcile_toggle n p).
Proof.
  unfold reconcile_toggle, setStoredItem, getStoredItem.
  destruct p.(ragToggle) as [t |]; [| apply input_frame_refl].
  destruct (n =? 0)%nat; cbn.
  - destruct p.(window).(localStorage) as [| items [|]]; split; reflexivity.
  - destruct p.(window).(localStorage) as [| items full]; [split; reflexivity |].
    destruct (items !! STORAGE_KEYS.ragEnabled); split; reflexivity.
Qed.

Lemma switch_toggle_off_input_frame p : input_frame p (switch_toggle_off p).
Proof. unfold switch_toggle_off. destruct p.(ragToggle); split; reflexivity. Qed.

Lemma status_after_input_frame statusOverride summary p :
  input_frame p (status_after statusOverride summary p).
Proof.
  unfold status_after.
  destruct statusOverride as [[[| a t] ty] |]; try destruct (_ =? _)%nat;
    apply setRagStatus_input_frame.
Qed.

Lemma append_docs_input_frame Date_toLocaleString docs :
  preserves input_frame (append_docs Date_toLocaleString docs).
Proof.
  induction docs as [| doc rest IH]; cbn [append_docs].
  - input_step.
  - repeat input_step; [split; reflexivity | apply IH].
Qed.

Lemma renderRagDocs_input_frame StringToNumber Date_toLocaleString payload :
  preserves input_frame (renderRagDocs StringToNumber Date_toLocaleString payload).
Proof.
  unfold renderRagDocs. input_step.
  - input_step. destruct p.(ragModelName); [destruct (_ && _) |]; split; reflexivity.
  - repeat first [input_step | frame_case]; try (split; reflexivity);
      first [apply append_docs_input_frame | apply reconcile_toggle_input_frame].
Qed.

(** After a guarded [fetch] the page is the page with the request
    logged, changed by steps of the continuation or of the handler. *)
Lemma fetch_then {A} (R : Page -> Page -> Prop) req ans
    (k : nat * Json -> M A) (h : Exn -> M A) q :
  (forall p q r, R p q -> R q r -> R p r) ->
  (forall r, preserves R (k r)) -> (forall e, preserves R (h e)) ->
  R (set_requests (q.(requests) ++ [req])%list q)
    (exec (try_catch (bind (fetch req ans) k) h) q).
Proof.
  intros Htrans Hk Hh. destruct ans as [msg | status json].
  - apply (Hh (TypeError msg)).
  - apply (preserves_try_catch R Htrans (k (status, json)) h); [apply Hk | apply Hh].
Qed.

Lemma json_of_preserves (R : Page -> Page -> Prop) j :
  (forall p, R p p) -> preserves R (json_of j).
Proof. intros Hrefl. destruct j; intros p; apply Hrefl. Qed.

Lemma fetchRagDocs_input_frame StringToNumber Date_toLocaleString ans statusOverride p :
  let p' := exec (fetchRagDocs StringToNumber Date_toLocaleString ans statusOverride) p in
  p'.(ragInput) = p.(ragInput)
  /\ p'.(requests)
     = (p.(requests) ++ (if present p.(ragList) then [GET "/api/rag/docs"] else []))%list.
Proof.
  unfold fetchRagDocs. unfold exec. rewrite run_bind_read.
  destruct (present p.(ragList)); cbn [negb];
    [| split; [reflexivity | symmetry; apply app_nil_r]].
  set (p0 := if statusOverride is None
             then setRagStatus "Hämtar kunskapsbas…" "info" p else p).
  assert (H0 : input_frame p p0).
  { subst p0. destruct statusOverride;
      [apply input_frame_refl | apply setRagStatus_input_frame]. }
  assert (Hq0 : (if statusOverride is None
                 then modify (setRagStatus "Hämtar kunskapsbas…" "info") else ret tt) p
                = (Normal tt, p0)).
  { subst p0. destruct statusOverride; reflexivity. }
  rewrite (run_bind_normal _ _ _ _ _ Hq0).
  match goal with
  | |- context [try_catch (bind (fetch ?req ans) ?k) ?h p0] =>
      pose proof (fetch_then input_frame req ans k h p0 input_frame_trans) as Hrun
  end.
  unfold exec in Hrun. destruct Hrun as (Hi & Hr).
  - intros r. repeat first [input_step | frame_case];
      first [ apply renderRagDocs_input_frame
            | apply status_after_input_frame
            | apply json_of_preserves, input_frame_refl ].
  - intros e. repeat input_step;
      first [ apply setRagStatus_input_frame | apply switch_toggle_off_input_frame
            | split; reflexivity ].
  - destruct H0 as (Hi0 & Hr0). rewrite Hi, Hr. cbn. split; congruence.
Qed.

(** ** Additions, deletions and clearings *)

(** The start of an action on the knowledge base: the request, and the
    rejection of an answer outside 200..299. *)
Lemma action_rejected {A} req ans reason (rest : nat * Json -> M A) q :
  action_failure ans = Some reason ->
  exists e,
    bind (fetch req ans)
      (fun res =>
         bind (if ok (fst res) then ret tt
               else throw_detail (json_or_empty (snd res)) (fst res))
              (fun _ => rest res)) q
    = (Thrown e, set_requests (q.(requests) ++ [req])%list q)
    /\ e.(message) = reason.
Proof.
  intros Hfail. destruct ans as [msg | status json]; cbn in Hfail.
  - injection Hfail as <-. rewrite run_fetch_error. eexists. split; reflexivity.
  - rewrite run_fetch_response. cbv beta. cbn [fst snd].
    destruct (ok status); [discriminate |]. injection Hfail as <-.
    destruct (@throw_detail_throws unit (json_or_empty json) status
                (set_requests (q.(requests) ++ [req])%list q))
      as [Hthrow | (e & _ & Hthrow & Hmsg)];
      rewrite (run_bind_thrown _ _ _ _ _ Hthrow); eexists; split;
      first [reflexivity | exact Hmsg].
Qed.

Lemma action_accepted {A} req ans (rest : nat * Json -> M A) q :
  action_failure ans = None ->
  exists res,
    bind (fetch req ans)
      (fun res =>
         bind (if ok (fst res) then ret tt
               else throw_detail (json_or_empty (snd res)) (fst res))
              (fun _ => rest res)) q
    = rest res (set_requests (q.(requests) ++ [req])%list q).
Proof.
  intros Hfail. destruct ans as [msg | status json]; cbn in Hfail; [discriminate |].
  exists (status, json). rewrite run_fetch_response. cbv beta. cbn [fst snd].
  destruct (ok status); [| discriminate]. reflexivity.
Qed.

(** X17. An addition clears the input exactly when the server
    accepted the text. A blank text is not sent: the status asks for a
    text and the input stays. A text that the server rejects stays in the
    input: one request was sent, the status shows
    [Kunde inte lägga till text: ] and the reason as an error, and the
    list and the toggle are as they were. A text that the server accepts
    is cleared from the input, and the documents are listed again (when
    the page has the list). *)
Theorem addRagDoc_clears_accepted_text
    (StringToNumber : string -> float) (Date_toLocaleString : JsVal -> option string)
    (posted listed : FetchResult) (p : Page) (value : string) :
  p.(ragInput) = Some value ->
  let add := addRagDoc StringToNumber Date_toLocaleString posted listed in
  let request := POST "/api/rag/docs" (TextBody (Str.trim value)) in
  (Str.trim value = "" ->
   exec add p = setRagStatus "Skriv eller klistra in text först." "error" p
   /\ (exec add p).(ragInput) = Some value
   /\ (exec add p).(requests) = p.(requests))
  /\ (Str.trim value <> "" ->
      forall reason, action_failure posted = Some reason ->
      (exec add p).(ragInput) = Some value
      /\ (exec add p).(requests) = (p.(requests) ++ [request])%list
      /\ (exec add p).(ragList) = p.(ragList)
      /\ (exec add p).(ragToggle) = p.(ragToggle)
      /\ (exec add p).(ragStatus)
         = option_map (fun _ => error_status ("Kunde inte lägga till text: " +:+ reason))
             p.(ragStatus))
  /\ (Str.trim value <> "" -> action_failure posted = None ->
      (exec add p).(ragInput) = Some ""
      /\ (exec add p).(requests)
         = (p.(requests)
            ++ request :: (if present p.(ragList) then [GET "/api/rag/docs"] else []))%list).
Proof.
  intros Hinput add request. subst add request.
  unfold exec, addRagDoc. rewrite run_bind_read, Hinput.
  split; [| split].
  - intros ->. cbn [String.eqb]. unfold modify. cbn [snd].
    destruct (setRagStatus_base_frame "Skriv eller klistra in text först." "error" p)
      as (_ & _ & _ & Hi & Hr).
    split; [reflexivity | split; [rewrite Hi; exact Hinput | exact Hr]].
  - intros Htext reason Hfail.
    destruct (String.eqb_spec (Str.trim value) "") as [Heq | _]; [contradiction |].
    rewrite run_bind_modify.
    set (p0 := setRagStatus "Lägger till text…" "info" p).
    destruct (setRagStatus_base_frame "Lägger till text…" "info" p)
      as (Hl0 & Ht0 & _ & Hi0 & Hr0). fold p0 in Hl0, Ht0, Hi0, Hr0.
    match goal with
    | |- context [try_catch (bind (fetch ?req posted) (fun res => @?k res)) ?h p0] =>
        destruct (action_rejected req posted reason
                    (fun res => modify (set_ragInput (Some "")) ;;
                                fetchRagDocs StringToNumber Date_toLocaleString listed
                                  (Some {| so_text := "Texten lades till i kunskapsbasen.";
                                           so_type := "success" |}))
                    p0 Hfail) as (e & Hrun & Hmsg)
    end.
    rewrite (run_try_thrown _ _ _ _ _ Hrun). unfold modify. cbn [snd].
    rewrite Hmsg.
    match goal with
    | |- context [setRagStatus ?m ?t ?q] =>
        destruct (setRagStatus_base_frame m t q) as (Hl & Ht & _ & Hi & Hr);
        rewrite Hl, Ht, Hi, Hr, (setRagStatus_status m t q)
    end.
    cbn [ragList ragToggle ragInput requests ragStatus set_requests].
    rewrite Hl0, Ht0, Hi0, Hr0. subst p0. rewrite setRagStatus_status.
    repeat split; try assumption. destruct p.(ragStatus); reflexivity.
  - intros Htext Hfail.
    destruct (String.eqb_spec (Str.trim value) "") as [Heq | _]; [contradiction |].
    rewrite run_bind_modify.
    set (p0 := setRagStatus "Lägger till text…" "info" p).
    destruct (setRagStatus_base_frame "Lägger till text…" "info" p)
      as (Hl0 & _ & _ & _ & Hr0). fold p0 in Hl0, Hr0.
    destruct (action_accepted (POST "/api/rag/docs" (TextBody (Str.trim value))) posted
                (fun res => modify (set_ragInput (Some "")) ;;
                            fetchRagDocs StringToNumber Date_toLocaleString listed
                              (Some {| so_text := "Texten lades till i kunskapsbasen.";
                                       so_type := "success" |}))
                p0 Hfail) as (res & Hrun).
    set (q1 := set_ragInput (Some "")
                 (set_requests (p0.(requests) ++ [POST "/api/rag/docs"
                                                    (TextBody (Str.trim value))])%list p0)).
    rewrite run_bind_modify in Hrun. fold q1 in Hrun.
    pose proof (fetchRagDocs_returns StringToNumber Date_toLocaleString listed
                  (Some {| so_text := "Texten lades till i kunskapsbasen.";
                           so_type := "success" |}) q1) as Hret.
    destruct (fetchRagDocs_input_frame StringToNumber Date_toLocaleString listed
                (Some {| so_text := "Texten lades till i kunskapsbasen.";
                         so_type := "success" |}) q1) as (Hi & Hr).
    unfold returns, outcome, exec in Hret, Hi, Hr.
    destruct (fetchRagDocs _ _ listed _ q1) as [[[] | e] q2] eqn:Hlisting;
      [| discriminate Hret].
    rewrite (run_try_normal _ _ _ tt q2) by (rewrite Hrun; reflexivity).
    cbn [snd] in *. rewrite Hi, Hr. subst q1. cbn. rewrite Hl0, Hr0.
    split; [reflexivity |]. rewrite <- app_assoc. reflexivity.
Qed.

Lemma addRagDoc_clears_accepted_text_witness :
  let add posted :=
    addRagDoc example_StringToNumber example_Date posted
      (Response 200 (Parsed one_document)) in
  (exec (add (Response 413 (Parsed (JObj [("detail", JStr "too long")]))))
        text_page).(ragInput) = Some "  Stockholm  "
  /\ (exec (add (Response 200 (Parsed JNull))) text_page).(ragInput) = Some ""
  /\ (exec (add (Response 200 (Parsed JNull))) text_page).(requests)
     = [POST "/api/rag/docs" (TextBody "Stockholm"); GET "/api/rag/docs"].
Proof.
  cbv zeta. split; [| split].
  - destruct (addRagDoc_clears_accepted_text example_StringToNumber example_Date
                (Response 413 (Parsed (JObj [("detail", JStr "too long")])))
                (Response 200 (Parsed one_document)) text_page _ eq_refl)
      as (_ & Hrejected & _).
    exact (proj1 (Hrejected ltac:(discriminate) "too long" eq_refl)).
  - destruct (addRagDoc_clears_accepted_text example_StringToNumber example_Date
                (Response 200 (Parsed JNull))
                (Response 200 (Parsed one_document)) text_page _ eq_refl)
      as (_ & _ & Haccepted).
    exact (proj1 (Haccepted ltac:(discriminate) eq_refl)).
  - destruct (addRagDoc_clears_accepted_text example_StringToNumber example_Date
                (Response 200 (Parsed JNull))
                (Response 200 (Parsed one_document)) text_page _ eq_refl)
      as (_ & _ & Haccepted).
    exact (proj2 (Haccepted ltac:(discriminate) eq_refl)).
Defined.

(** The page after a removal that the server did not carry out. *)
Lemma removal_rejected StringToNumber Date_toLocaleString req deleted listed so text
    reason q :
  action_failure deleted = Some reason ->
  try_catch
    ( res <- fetch req deleted ;;
      let data := json_or_empty (snd res) in
      (if ok (fst res) then ret tt else throw_detail data (fst res)) ;;
      fetchRagDocs StringToNumber Date_toLocaleString listed so )
    (fun e => modify (setRagStatus (text +:+ e.(message)) "error")) q
  = (Normal tt,
     setRagStatus (text +:+ reason) "error"
       (set_requests (q.(requests) ++ [req])%list q)).
Proof.
  intros Hfail.
  destruct (action_rejected req deleted reason
              (fun _ => fetchRagDocs StringToNumber Date_toLocaleString listed so) q Hfail)
    as (e & Hrun & Hmsg).
  rewrite (run_try_thrown _ _ _ _ _ Hrun). rewrite Hmsg. reflexivity.
Qed.

Lemma removal_accepted StringToNumber Date_toLocaleString req deleted listed so text q :
  action_failure deleted = None ->
  try_catch
    ( res <- fetch req deleted ;;
      let data := json_or_empty (snd res) in
      (if ok (fst res) then ret tt else throw_detail data (fst res)) ;;
      fetchRagDocs StringToNumber Date_toLocaleString listed so )
    (fun e => modify (setRagStatus (text +:+ e.(message)) "error")) q
  = fetchRagDocs StringToNumber Date_toLocaleString listed so
      (set_requests (q.(requests) ++ [req])%list q).
Proof.
  intros Hfail.
  destruct (action_accepted req deleted
              (fun _ => fetchRagDocs StringToNumber Date_toLocaleString listed so) q Hfail)
    as (res & Hrun).
  pose proof (fetchRagDocs_returns StringToNumber Date_toLocaleString listed so
                (set_requests (q.(requests) ++ [req])%list q)) as Hret.
  unfold returns, outcome in Hret.
  destruct (fetchRagDocs _ _ listed so _) as [[[] | e] q2] eqn:Hlisting;
    [| discriminate Hret].
  apply run_try_normal. exact Hrun.
Qed.

Lemma rejected_with_status text req p :
  rejected_with text req p
    (setRagStatus text "error" (set_requests (p.(requests) ++ [req])%list p)).
Proof.
  unfold rejected_with.
  match goal with
  | |- context [setRagStatus ?m ?t ?q] =>
      destruct (setRagStatus_base_frame m t q) as (Hl & Ht & Hw & Hi & Hr);
      rewrite Hl, Ht, Hw, Hi, Hr, (setRagStatus_status m t q)
  end.
  repeat split.
Qed.

(** X19. A deletion or a clearing that the server does not carry
    out changes the status only: the one request was sent, the status
    shows [Kunde inte ta bort text: ] (or
    [Kunde inte rensa kunskapsbasen: ]) and the reason as an error, and
    the list, the toggle, the store and the input are as they were; the
    documents are not listed again. *)
Theorem rejected_removal_changes_status_only
    (StringToNumber : string -> float) (Date_toLocaleString : JsVal -> option string)
    (id : JsVal) (deleted listed : FetchResult) (p : Page) (reason : string) :
  action_failure deleted = Some reason ->
  let delete := deleteRagDoc StringToNumber Date_toLocaleString id deleted listed in
  let clear := clearRagDocs StringToNumber Date_toLocaleString true deleted listed in
  (Js.truthy id = true ->
   rejected_with ("Kunde inte ta bort text: " +:+ reason)
     (DELETE ("/api/rag/docs/" +:+ Str.encodeURIComponent (Js.ToString id)))
     p (exec delete p))
  /\ (present p.(ragList) = true ->
      rejected_with ("Kunde inte rensa kunskapsbasen: " +:+ reason)
        (DELETE "/api/rag/docs") p (exec clear p)).
Proof.
  intros Hfail delete clear. subst delete clear. split.
  - intros Hid. unfold exec, deleteRagDoc. rewrite Hid. cbn [negb].
    rewrite (removal_rejected _ _ _ deleted listed _ "Kunde inte ta bort text: " reason p
               Hfail).
    apply rejected_with_status.
  - intros Hlist. unfold exec, clearRagDocs. rewrite run_bind_read, Hlist. cbn [negb].
    rewrite (removal_rejected _ _ _ deleted listed _ "Kunde inte rensa kunskapsbasen: "
               reason p Hfail).
    apply rejected_with_status.
Qed.

Lemma rejected_removal_changes_status_only_witness :
  let delete := deleteRagDoc example_StringToNumber example_Date (JStr "d 1")
                  (NetworkError "Failed to fetch") (Response 200 (Parsed one_document)) in
  (exec delete chat_page).(requests) = [DELETE "/api/rag/docs/d%201"]
  /\ (exec delete chat_page).(ragStatus)
     = Some (error_status "Kunde inte ta bort text: Failed to fetch").
Proof.
  destruct (rejected_removal_changes_status_only example_StringToNumber example_Date
              (JStr "d 1") (NetworkError "Failed to fetch")
              (Response 200 (Parsed one_document)) chat_page "Failed to fetch" eq_refl)
    as (Hdelete & _).
  destruct (Hdelete eq_refl) as (_ & _ & _ & _ & Hreq & Hstatus).
  split; [exact Hreq | exact Hstatus].
Defined.

(** ** The address of a deletion *)

Lemma hex_digit_unreserved k : (k < 16)%nat -> Str.uri_unreserved (Str.hex_digit k) = true.
Proof. intros Hk. do 16 (destruct k as [| k]; [reflexivity |]). lia. Qed.

Lemma hex_digit_injective j k :
  (j < 16)%nat -> (k < 16)%nat -> Str.hex_digit j = Str.hex_digit k -> j = k.
Proof.
  intros Hj Hk H. apply (f_equal nat_of_ascii) in H. unfold Str.hex_digit in H.
  rewrite !nat_ascii_embedding in H.
  - destruct (j <? 10)%nat eqn:Ej, (k <? 10)%nat eqn:Ek;
      try apply Nat.ltb_lt in Ej; try apply Nat.ltb_lt in Ek;
      try apply Nat.ltb_ge in Ej; try apply Nat.ltb_ge in Ek; lia.
  - destruct (k <? 10)%nat; lia.
  - destruct (j <? 10)%nat; lia.
Qed.

Lemma percent_reserved : Str.uri_unreserved "%" = false.
Proof. reflexivity. Qed.

Lemma nat_of_ascii_bound a : (nat_of_ascii a < 256)%nat.
Proof. apply nat_ascii_bounded. Qed.

Lemma encode_safe s : all_chars uri_safe (Str.encodeURIComponent s) = true.
Proof.
  induction s as [| a rest IH]; [reflexivity |].
  cbn [Str.encodeURIComponent].
  destruct (Str.uri_unreserved a) eqn:Ha.
  - cbn [all_chars]. unfold uri_safe at 1. rewrite Ha, IH. reflexivity.
  - pose proof (nat_of_ascii_bound a) as Hb.
    cbn [all_chars]. rewrite IH. unfold uri_safe.
    rewrite !hex_digit_unreserved; [reflexivity | |].
    + apply Nat.mod_upper_bound. lia.
    + apply Nat.Div0.div_lt_upper_bound. lia.
Qed.

Lemma string_cons_inj a b s t : String a s = String b t -> a = b /\ s = t.
Proof. intros H. injection H as -> ->. split; reflexivity. Qed.

Lemma encode_injective s : forall t,
  Str.encodeURIComponent s = Str.encodeURIComponent t -> s = t.
Proof.
  induction s as [| a s IH]; intros [| b t] H; cbn [Str.encodeURIComponent] in H.
  - reflexivity.
  - destruct (Str.uri_unreserved b); discriminate H.
  - destruct (Str.uri_unreserved a); discriminate H.
  - destruct (Str.uri_unreserved a) eqn:Ha, (Str.uri_unreserved b) eqn:Hb.
    + injection H as -> H. f_equal. apply IH. exact H.
    + injection H as -> _. rewrite percent_reserved in Ha. discriminate.
    + injection H as <- _. rewrite percent_reserved in Hb. discriminate.
    + apply string_cons_inj in H. destruct H as (_ & H).
      apply string_cons_inj in H. destruct H as (Hhi & H).
      apply string_cons_inj in H. destruct H as (Hlo & H).
      pose proof (nat_of_ascii_bound a) as Hba. pose proof (nat_of_ascii_bound b) as Hbb.
      apply hex_digit_injective in Hhi;
        [| apply Nat.Div0.div_lt_upper_bound; lia | apply Nat.Div0.div_lt_upper_bound; lia].
      apply hex_digit_injective in Hlo;
        [| apply Nat.mod_upper_bound; lia | apply Nat.mod_upper_bound; lia].
      assert (Hab : nat_of_ascii a = nat_of_ascii b).
      { rewrite (Nat.div_mod_eq (nat_of_ascii a) 16), (Nat.div_mod_eq (nat_of_ascii b) 16).
        congruence. }
      f_equal; [| apply IH; exact H].
      rewrite <- (ascii_nat_embedding a), <- (ascii_nat_embedding b). congruence.
Qed.

Lemma safe_has_no_slash s : all_chars uri_safe s = true -> contains "/" s = false.
Proof.
  induction s as [| a rest IH]; [reflexivity |].
  cbn [all_chars]. intros H. apply andb_true_iff in H. destruct H as (Ha & Hrest).
  change (contains "/" (String a rest))
    with (match ascii_dec "/" a with
          | left _ => String.prefix "" rest
          | right _ => false
          end || contains "/" rest).
  rewrite (IH Hrest), orb_false_r.
  destruct (ascii_dec "/" a) as [<- | _]; [discriminate Ha | reflexivity].
Qed.

(** X18. A deletion addresses the document by its encoded id: the
    request is [DELETE /api/rag/docs/] followed by
    [encodeURIComponent(id)], and the listing follows only when the
    deletion was carried out (and the page has the list). The encoded id
    is made of unreserved characters and percent escapes, so it holds no
    slash, and ids with different texts are encoded differently. *)
Theorem deleteRagDoc_targets_encoded_id
    (StringToNumber : string -> float) (Date_toLocaleString : JsVal -> option string)
    (id : JsVal) (deleted listed : FetchResult) (p : Page) :
  Js.truthy id = true ->
  let encoded := Str.encodeURIComponent (Js.ToString id) in
  (exec (deleteRagDoc StringToNumber Date_toLocaleString id deleted listed) p).(requests)
  = (p.(requests)
     ++ DELETE ("/api/rag/docs/" +:+ encoded)
        :: (if action_failure deleted is None
            then (if present p.(ragList) then [GET "/api/rag/docs"] else [])
            else []))%list
  /\ all_chars uri_safe encoded = true
  /\ contains "/" encoded = false
  /\ (forall other : JsVal,
        Str.encodeURIComponent (Js.ToString other) = encoded ->
        Js.ToString other = Js.ToString id).
Proof.
  intros Hid encoded. subst encoded. split; [| split; [| split]].
  - unfold exec, deleteRagDoc. rewrite Hid. cbn [negb].
    destruct (action_failure deleted) as [reason |] eqn:Hfail.
    + rewrite (removal_rejected _ _ _ deleted listed _ "Kunde inte ta bort text: " reason p
                 Hfail).
      apply rejected_with_status.
    + rewrite (removal_accepted _ _ _ deleted listed _ "Kunde inte ta bort text: " p Hfail).
      match goal with
      | |- context [fetchRagDocs _ _ listed ?so ?q] =>
          destruct (fetchRagDocs_input_frame StringToNumber Date_toLocaleString listed so q)
            as (_ & Hr)
      end.
      unfold exec in Hr. rewrite Hr. cbn [requests ragList set_requests].
      rewrite <- app_assoc. reflexivity.
  - apply encode_safe.
  - apply safe_has_no_slash, encode_safe.
  - intros other H. apply encode_injective. exact H.
Qed.

Lemma deleteRagDoc_targets_encoded_id_witness :
  (exec (deleteRagDoc example_StringToNumber example_Date (JStr "a/b c")
           (Response 200 (Parsed JNull)) (Response 200 (Parsed one_document)))
        chat_page).(requests)
  = [DELETE "/api/rag/docs/a%2Fb%20c"; GET "/api/rag/docs"].
Proof.
  exact (proj1 (deleteRagDoc_targets_encoded_id example_StringToNumber example_Date
                  (JStr "a/b c") (Response 200 (Parsed JNull))
                  (Response 200 (Parsed one_document)) chat_page eq_refl)).
Defined.

(** ** The list of documents *)

Lemma doc_item_listed Date_toLocaleString doc :
  non_nullish doc -> doc_item Date_toLocaleString doc = inr (listed_item Date_toLocaleString doc).
Proof.
  unfold non_nullish, doc_item, listed_item.
  destruct doc; cbn; intros H; try discriminate; reflexivity.
Qed.

Lemma append_docs_list Date_toLocaleString docs : forall q l,
  Forall non_nullish docs -> q.(ragList) = Some l ->
  append_docs Date_toLocaleString docs q
  = (Normal tt,
     set_ragList (Some (l ++ List.map (listed_item Date_toLocaleString) docs)%list) q).
Proof.
  induction docs as [| doc rest IH]; intros q l Hall Hl.
  - cbn. rewrite app_nil_r. destruct q; cbn in *. subst. reflexivity.
  - inversion Hall as [| ? ? Hdoc Hrest]; subst.
    cbn [append_docs]. unfold lift. rewrite (doc_item_listed _ doc Hdoc).
    rewrite run_bind_ret, run_bind_modify.
    rewrite (IH _ (l ++ [listed_item Date_toLocaleString doc])%list Hrest).
    + cbn [List.map]. rewrite <- app_assoc. reflexivity.
    + cbn. rewrite Hl. reflexivity.
Qed.

Lemma reconcile_toggle_list_frame n p :
  list_frame p (reconcile_toggle n p) /\ (reconcile_toggle n p).(ragStatus) = p.(ragStatus).
Proof.
  unfold reconcile_toggle, setStoredItem, getStoredItem.
  destruct p.(ragToggle) as [t |]; [| repeat split].
  destruct (n =? 0)%nat; cbn.
  - destruct p.(window).(localStorage) as [| items [|]]; repeat split.
  - destruct p.(window).(localStorage) as [| items full]; [repeat split |].
    destruct (items !! STORAGE_KEYS.ragEnabled); repeat split.
Qed.

Lemma status_after_spec statusOverride summary p :
  let p' := status_after statusOverride summary p in
  p'.(ragList) = p.(ragList) /\ p'.(requests) = p.(requests)
  /\ p'.(ragStatus)
     = option_map (fun _ => listing_status statusOverride summary.(count)
                              summary.(chunkCount)) p.(ragStatus).
Proof.
  unfold status_after, listing_status, plain_status, summary_of.
  destruct statusOverride as [[[| a t] ty] |]; try destruct (_ =? _)%nat;
    match goal with
    | |- context [setRagStatus ?m ?t ?q] =>
        destruct (setRagStatus_base_frame m t q) as (Hl & _ & _ & _ & Hr);
        cbv zeta; rewrite Hl, Hr, (setRagStatus_status m t q)
    end; repeat split.
Qed.

(** X20. A listing that succeeds shows the documents: the list
    holds one item per document, in order; the item of a document carries
    its id (for the remove button), its preview ([[Tom text]] when it has
    none) and its number of chunks (0 when it has none). The status shows
    the text of the override when it has one, and otherwise
    [Ingen text har lagts till ännu.] or the counts. *)
Theorem listing_shows_documents
    (StringToNumber : string -> float) (Date_toLocaleString : JsVal -> option string)
    (status : nat) (payload : JsVal) (statusOverride : option StatusOverride)
    (p : Page) (l : list DocItem) :
  p.(ragList) = Some l -> ok status = true ->
  Forall non_nullish (documents_of payload) ->
  let docs := documents_of payload in
  let p' := exec (fetchRagDocs StringToNumber Date_toLocaleString
                    (Response status (Parsed payload)) statusOverride) p in
  exists items,
    p'.(ragList) = Some items
    /\ List.length items = List.length docs
    /\ (forall (i : nat) (doc : JsVal), docs !! i = Some doc ->
        exists li,
          items !! i = Some li
          /\ li.(remove_id) = Js.get_opt doc "id"
          /\ li.(preview)
             = Js.text_of (Js.or (Js.get_opt doc "preview") (JStr "[Tom text]"))
          /\ li.(chunkInfo)
             = Js.ToString (Js.or (Js.get_opt doc "chunks") (JNum 0)) +:+ " utdrag")
    /\ p'.(ragStatus)
       = option_map
           (fun _ => listing_status statusOverride (List.length docs)
                       (chunk_count_of StringToNumber payload))
           p.(ragStatus).
Proof.
  intros Hl Hok Hall docs p'. subst docs p'.
  exists (List.map (listed_item Date_toLocaleString) (documents_of payload)).
  set (p0 := if statusOverride is None
             then setRagStatus "Hämtar kunskapsbas…" "info" p else p).
  assert (H0 : p0.(ragList) = Some l /\ p0.(requests) = p.(requests)
               /\ present p0.(ragStatus) = present p.(ragStatus)).
  { subst p0. destruct statusOverride; [repeat split; exact Hl |].
    destruct (setRagStatus_base_frame "Hämtar kunskapsbas…" "info" p)
      as (Hl0 & _ & _ & _ & Hr0).
    rewrite Hl0, Hr0, setRagStatus_status. repeat split; [exact Hl |].
    destruct p.(ragStatus); reflexivity. }
  destruct H0 as (Hl0 & Hr0 & Hs0).
  set (q1 := set_requests (p0.(requests) ++ [GET "/api/rag/docs"])%list p0).
  set (summary := {| count := List.length (documents_of payload);
                     chunkCount := chunk_count_of StringToNumber payload |}).
  assert (Hrender : exists q2,
            renderRagDocs StringToNumber Date_toLocaleString payload q1 = (Normal summary, q2)
            /\ q2.(ragList)
               = Some (List.map (listed_item Date_toLocaleString) (documents_of payload))
            /\ q2.(ragStatus) = p0.(ragStatus)).
  { unfold renderRagDocs. rewrite run_bind_modify.
    set (q1' := match q1.(ragModelName) with Some _ => _ | None => q1 end).
    assert (H1 : q1'.(ragList) = Some l /\ q1'.(ragStatus) = p0.(ragStatus)).
    { subst q1'. destruct q1.(ragModelName); [destruct (_ && _) |]; split;
        first [exact Hl0 | reflexivity]. }
    destruct H1 as (Hl1 & Hs1).
    rewrite run_bind_read, Hl1. cbn [present].
    rewrite (run_bind_normal _ _ _ tt
               (set_ragList
                  (Some (List.map (listed_item Date_toLocaleString) (documents_of payload)))
                  q1')).
    - rewrite run_bind_modify.
      eexists. split; [reflexivity |].
      destruct (reconcile_toggle_list_frame (List.length (documents_of payload))
                  (set_ragList
                     (Some (List.map (listed_item Date_toLocaleString)
                              (documents_of payload))) q1'))
        as ((Hl2 & _) & Hs2).
      rewrite Hl2, Hs2. split; [reflexivity | exact Hs1].
    - rewrite run_bind_modify.
      rewrite (append_docs_list _ _ _ [] Hall); reflexivity. }
  destruct Hrender as (q2 & Hrender & Hl2 & Hs2).
  assert (Hrun : exec (fetchRagDocs StringToNumber Date_toLocaleString
                         (Response status (Parsed payload)) statusOverride) p
                 = status_after statusOverride summary q2).
  { unfold exec, fetchRagDocs. rewrite run_bind_read, Hl. cbn [present negb].
    assert (Hq0 : (if statusOverride is None
                   then modify (setRagStatus "Hämtar kunskapsbas…" "info") else ret tt) p
                  = (Normal tt, p0)).
    { subst p0. destruct statusOverride; reflexivity. }
    rewrite (run_bind_normal _ _ _ _ _ Hq0).
    erewrite run_try_normal; [reflexivity |].
    rewrite run_fetch_response. cbv beta. cbn [fst snd]. rewrite Hok, run_bind_ret.
    cbn [json_of]. rewrite run_bind_ret. fold q1.
    rewrite (run_bind_normal _ _ _ _ _ Hrender). reflexivity. }
  rewrite Hrun.
  destruct (status_after_spec statusOverride summary q2) as (Hl3 & _ & Hs3).
  cbv zeta in Hl3, Hs3. rewrite Hl3, Hs3, Hl2, Hs2.
  split; [reflexivity |]. split; [apply length_map |]. split.
  - intros i doc Hi. exists (listed_item Date_toLocaleString doc).
    split; [| repeat split].
    rewrite list_lookup_fmap, Hi. reflexivity.
  - subst summary. cbn [count chunkCount].
    destruct p0.(ragStatus), p.(ragStatus); try discriminate Hs0; reflexivity.
Qed.

(** ** The knowledge-base page *)

Lemma by_type {X} (P : X -> Prop) (t : JsVal) (A B C : X) :
  P A -> P B -> P C ->
  P (match t with
     | JStr "url" => A
     | JStr "pdf" => B
     | _ => C
     end).
Proof.
  intros HA HB HC. destruct t; try exact HC.
  repeat match goal with
         | |- P (match ?x with _ => _ end) => destruct x; try assumption
         end.
Qed.

Lemma concat_named sep h t : h <> "" -> String.concat sep (h :: t) <> "".
Proof.
  intros Hh. destruct h as [| a h]; [congruence |].
  destruct t; cbn; [discriminate |]. discriminate.
Qed.

(** X22. [describeMetadata] gives the empty text exactly for the
    values that are no objects: for [null], [undefined], strings, numbers
    and booleans it is empty, and for every object (or array) it is not,
    so that every document with metadata gets a line about its source. *)
Theorem describeMetadata_names_every_object (limit meta : JsVal) :
  (is_object meta = false -> RagJs.describeMetadata limit meta = "")
  /\ (is_object meta = true -> RagJs.describeMetadata limit meta <> "").
Proof.
  split.
  - destruct meta; cbn; intros H; try discriminate; reflexivity.
  - intros Hobj. unfold RagJs.describeMetadata.
    assert (Hparts : forall field : string -> JsVal,
              String.concat " • "
                (match field "type" with
                 | JStr "url" =>
                     [ if Js.truthy (field "title")
                       then "Webbsida: " +:+ Js.ToString (field "title") else "Webbsida" ]
                     ++ (if Js.truthy (field "url") then [Js.ToString (field "url")] else [])
                 | JStr "pdf" =>
                     [ "PDF: " +:+ Js.ToString (Js.or (field "filename") (JStr "PDF")) ]
                     ++ (if Js.truthy (field "pages_used") && Js.truthy (field "total_pages")
                         then [ "Sidor " +:+ Js.ToString (field "pages_used") +:+ "/"
                                +:+ Js.ToString (field "total_pages") ]
                         else if Js.truthy (field "total_pages")
                         then [ Js.ToString (field "total_pages") +:+ " sidor" ]
                         else [])
                 | _ => [ "Manuell text" ]
                 end
                 ++ (if Js.truthy (field "original_characters")
                     then [ "≈ " +:+ Js.ToString (field "original_characters")
                            +:+ " tecken före delning" ]
                     else [])
                 ++ (if Js.truthy (field "truncated")
                     then [ "Trunkerad till " +:+ Js.ToString (Js.or limit (JNum 40000))
                            +:+ " tecken" ]
                     else []))%list <> "").
    { intros field.
      apply (by_type (fun kind => String.concat " • " (kind ++ _)%list <> "")).
      - cbn [app]. apply concat_named. destruct (Js.truthy (field "title")); discriminate.
      - cbn [app]. apply concat_named. discriminate.
      - cbn [app]. apply concat_named. discriminate. }
    destruct meta; try discriminate Hobj; apply Hparts.
Qed.

Lemma describeMetadata_names_every_object_witness :
  RagJs.describeMetadata JUndefined (JStr "pdf") = ""
  /\ RagJs.describeMetadata JUndefined (JObj []) <> "".
Proof.
  split.
  - exact (proj1 (describeMetadata_names_every_object JUndefined (JStr "pdf")) eq_refl).
  - exact (proj2 (describeMetadata_names_every_object JUndefined (JObj [])) eq_refl).
Defined.

Lemma outside_base_refl p : outside_base p p.
Proof. repeat split. Qed.

Lemma outside_base_trans p q r : outside_base p q -> outside_base q r -> outside_base p r.
Proof. intros (? & ? & ? & ?) (? & ? & ? & ?). repeat split; congruence. Qed.

Ltac outside_step := frame_step_with outside_base_refl outside_base_trans.

Lemma setRagStatus_outside message type p : outside_base p (setRagStatus message type p).
Proof. unfold setRagStatus. destruct p.(ragStatus); repeat split. Qed.

Lemma status_after_outside statusOverride summary p :
  outside_base p (status_after statusOverride summary p).
Proof.
  unfold status_after.
  destruct statusOverride as [[[| a t] ty] |]; try destruct (_ =? _)%nat;
    apply setRagStatus_outside.
Qed.

Lemma updateSummary_outside n c p : outside_base p (RagJs.updateSummary n c p).
Proof. unfold RagJs.updateSummary. destruct p.(ragSummaryText); repeat split. Qed.

Lemma kb_append_docs_outside Date_toLocaleString docs :
  preserves outside_base (RagJs.append_docs Date_toLocaleString docs).
Proof.
  induction docs as [| doc rest IH]; cbn [RagJs.append_docs].
  - outside_step.
  - repeat outside_step; [repeat split | apply IH].
Qed.

Ltac outside_leaf :=
  solve [ apply setRagStatus_outside | apply status_after_outside
        | apply updateSummary_outside | apply kb_append_docs_outside
        | apply json_of_preserves, outside_base_refl
        | repeat split
        | repeat match goal with
                 | |- outside_base _ (match ?x with _ => _ end) => destruct x
                 | |- outside_base _ (if ?b then _ else _) => destruct b
                 end; repeat split ].

Lemma kb_renderRagDocs_outside StringToNumber Date_toLocaleString docs stats :
  preserves outside_base (RagJs.renderRagDocs StringToNumber Date_toLocaleString docs stats).
Proof.
  unfold RagJs.renderRagDocs.
  repeat first [outside_step | frame_case]; outside_leaf.
Qed.

(** X23. The listing of the knowledge-base page stays on its page:
    whatever the answer, it returns, sends exactly one request,
    [GET /api/rag/docs], and leaves the retrieval toggle, the [window]
    (the preference store with it) and the history of the chat as they
    were. *)
Theorem kb_listing_stays_on_its_page
    (StringToNumber : string -> float) (Date_toLocaleString : JsVal -> option string)
    (ans : FetchResult) (statusOverride : option StatusOverride) (p : Page) :
  let listing := RagJs.fetchRagDocs StringToNumber Date_toLocaleString ans statusOverride in
  returns listing p = true
  /\ (exec listing p).(ragToggle) = p.(ragToggle)
  /\ (exec listing p).(window) = p.(window)
  /\ (exec listing p).(history) = p.(history)
  /\ (exec listing p).(requests) = (p.(requests) ++ [GET "/api/rag/docs"])%list.
Proof.
  intros listing. subst listing. split; [apply kb_fetchRagDocs_returns |].
  unfold exec, RagJs.fetchRagDocs.
  set (p0 := if statusOverride is None
             then setRagStatus "Hämtar kunskapsbas…" "info" p else p).
  assert (H0 : outside_base p p0).
  { subst p0. destruct statusOverride; [apply outside_base_refl | apply setRagStatus_outside]. }
  assert (Hq0 : (if statusOverride is None
                 then modify (setRagStatus "Hämtar kunskapsbas…" "info") else ret tt) p
                = (Normal tt, p0)).
  { subst p0. destruct statusOverride; reflexivity. }
  rewrite (run_bind_normal _ _ _ _ _ Hq0).
  match goal with
  | |- context [try_catch (bind (fetch ?req ans) ?k) ?h p0] =>
      pose proof (fetch_then outside_base req ans k h p0 outside_base_trans) as Hrun
  end.
  unfold exec in Hrun. destruct Hrun as (Ht & Hw & Hh & Hr).
  - intros r. repeat first [outside_step | frame_case];
      first [apply kb_renderRagDocs_outside | outside_leaf].
  - intros e. repeat outside_step; outside_leaf.
  - destruct H0 as (Ht0 & Hw0 & Hh0 & Hr0). rewrite Ht, Hw, Hh, Hr. cbn.
    rewrite Ht0, Hw0, Hh0, Hr0. repeat split.
Qed.

Lemma kb_doc_item_listed Date_toLocaleString limit doc :
  non_nullish doc -> exists li, RagJs.doc_item Date_toLocaleString limit doc = inr li.
Proof.
  unfold non_nullish, RagJs.doc_item.
  destruct doc; cbn; intros H; try discriminate; eexists; reflexivity.
Qed.

Lemma beside_list_trans p q r : beside_list p q -> beside_list q r -> beside_list p r.
Proof. intros (? & ? & ?) (? & ? & ?). repeat split; congruence. Qed.

Lemma kb_append_docs_run Date_toLocaleString docs :
  Forall non_nullish docs ->
  forall q, present q.(ragList) = true ->
  exists q', RagJs.append_docs Date_toLocaleString docs q = (Normal tt, q')
             /\ beside_list q q'.
Proof.
  induction docs as [| doc rest IH]; intros Hall q Hlist.
  - exists q. split; [reflexivity | repeat split].
  - inversion Hall as [| ? ? Hdoc Hrest]; subst.
    cbn [RagJs.append_docs]. rewrite run_bind_read.
    destruct (kb_doc_item_listed Date_toLocaleString q.(window).(RAG_MAX_CHARS) doc Hdoc)
      as (li & Hli).
    unfold lift. rewrite Hli, run_bind_ret, run_bind_modify.
    destruct (IH Hrest (set_ragList (Some (default [] q.(ragList) ++ [li])%list) q) eq_refl)
      as (q' & Hrun & Hframe).
    exists q'. split; [exact Hrun |].
    eapply beside_list_trans; [| exact Hframe].
    repeat split. cbn. symmetry. exact Hlist.
Qed.

(** Both pages count the chunks of a listing alike. *)
Lemma kb_chunk_count StringToNumber data :
  (if Js.truthy
        (JNum (Number StringToNumber
                 (if Js.truthy (Js.get_opt data "stats")
                     && negb (match Js.get_opt (Js.get_opt data "stats") "chunk_count" with
                              | JUndefined => true
                              | _ => false
                              end)
                  then Js.get_opt (Js.get_opt data "stats") "chunk_count"
                  else JNum 0)))
   then Number StringToNumber
          (if Js.truthy (Js.get_opt data "stats")
              && negb (match Js.get_opt (Js.get_opt data "stats") "chunk_count" with
                       | JUndefined => true
                       | _ => false
                       end)
           then Js.get_opt (Js.get_opt data "stats") "chunk_count"
           else JNum 0)
   else 0%float)
  = chunk_count_of StringToNumber data.
Proof.
  unfold chunk_count_of, Js.or. cbv zeta.
  destruct (Js.truthy (Js.get_opt data "stats")) eqn:Hstats; cbn [andb].
  - destruct (Js.get_opt (Js.get_opt data "stats") "chunk_count"); reflexivity.
  - reflexivity.
Qed.

(** The rendering of a listing on the knowledge-base page. *)
Lemma kb_renderRagDocs_run StringToNumber Date_toLocaleString data q :
  Forall non_nullish (documents_of data) ->
  let n := List.length (documents_of data) in
  let c := chunk_count_of StringToNumber data in
  exists q2,
    RagJs.renderRagDocs StringToNumber Date_toLocaleString
      (Js.get_opt data "documents") (Js.get_opt data "stats") q
    = (Normal {| count := n; chunkCount := c |}, q2)
    /\ q2.(clearRag) = option_map (fun _ => (n =? 0)%nat) q.(clearRag)
    /\ q2.(ragSummaryText) = option_map (fun _ => summary_of n c) q.(ragSummaryText).
Proof.
  intros Hall n c.
  assert (Hlist : exists q1,
            (if present q.(ragList)
             then modify (set_ragList (Some [])) ;;
                  RagJs.append_docs Date_toLocaleString (documents_of data)
             else ret tt) q = (Normal tt, q1)
            /\ beside_list q q1).
  { destruct (present q.(ragList)) eqn:Hpresent.
    - rewrite run_bind_modify.
      destruct (kb_append_docs_run Date_toLocaleString _ Hall
                  (set_ragList (Some []) q) eq_refl) as (q1 & Hrun & Hframe).
      exists q1. split; [exact Hrun |].
      eapply beside_list_trans; [| exact Hframe].
      repeat split. cbn. symmetry. exact Hpresent.
    - exists q. split; [reflexivity | repeat split]. }
  destruct Hlist as (q1 & Hrun & Hc1 & Hs1 & _).
  unfold RagJs.renderRagDocs. cbv zeta.
  rewrite (kb_chunk_count StringToNumber data).
  change (match Js.get_opt data "documents" with JArr ds => ds | _ => [] end)
    with (documents_of data).
  fold n c. rewrite run_bind_read.
  rewrite (run_bind_normal _ _ _ _ _ Hrun), !run_bind_modify.
  eexists. split; [reflexivity |].
  unfold RagJs.updateSummary, summary_of, summary_text. rewrite <- Hc1, <- Hs1.
  destruct q1.(clearRag) eqn:Hclear, q1.(ragSummaryText) eqn:Hsum;
    cbn; rewrite ?Hclear, ?Hsum; cbn; rewrite ?Hclear, ?Hsum; split; reflexivity.
Qed.

(** X24. On the knowledge-base page the button that clears the
    knowledge base follows the listing: a listing that fails disables it;
    a listing that succeeds disables it exactly when there are no
    documents, and writes [Ingen text har lagts till ännu.] or the counts
    of documents and chunks to the summary. *)
Theorem kb_clear_button_follows_documents
    (StringToNumber : string -> float) (Date_toLocaleString : JsVal -> option string)
    (ans : FetchResult) (statusOverride : option StatusOverride) (p : Page) :
  let p' := exec (RagJs.fetchRagDocs StringToNumber Date_toLocaleString ans statusOverride)
                 p in
  (forall reason, failure_reason ans = Some reason ->
   p'.(clearRag) = option_map (fun _ => true) p.(clearRag))
  /\ (forall status data, ans = Response status (Parsed data) -> ok status = true ->
      non_nullish data -> Forall non_nullish (documents_of data) ->
      p'.(clearRag)
      = option_map (fun _ => (List.length (documents_of data) =? 0)%nat) p.(clearRag)
      /\ p'.(ragSummaryText)
         = option_map
             (fun _ => summary_of (List.length (documents_of data))
                         (chunk_count_of StringToNumber data))
             p.(ragSummaryText)).
Proof.
  intros p'. subst p'. split.
  - intros reason Hreason.
    exact (proj1 (proj2 (proj2 (kb_failed_listing StringToNumber Date_toLocaleString ans
                                  statusOverride p reason Hreason)))).
  - intros status data -> Hok Hdata Hall.
    set (p0 := if statusOverride is None
               then setRagStatus "Hämtar kunskapsbas…" "info" p else p).
    assert (H0 : p0.(clearRag) = p.(clearRag) /\ p0.(ragSummaryText) = p.(ragSummaryText)).
    { subst p0. destruct statusOverride; [split; reflexivity |].
      unfold setRagStatus. destruct p.(ragStatus); split; reflexivity. }
    destruct H0 as (Hc0 & Hs0).
    assert (Hq0 : (if statusOverride is None
                   then modify (setRagStatus "Hämtar kunskapsbas…" "info") else ret tt) p
                  = (Normal tt, p0)).
    { subst p0. destruct statusOverride; reflexivity. }
    set (q1 := set_requests (p0.(requests) ++ [GET "/api/rag/docs"])%list p0).
    assert (Hdocs : Js.get data "documents" = inr (Js.get_opt data "documents")).
    { destruct data; try discriminate Hdata; reflexivity. }
    destruct (kb_renderRagDocs_run StringToNumber Date_toLocaleString data q1 Hall)
      as (q2 & Hrender & Hc2 & Hs2).
    unfold exec, RagJs.fetchRagDocs.
    rewrite (run_bind_normal _ _ _ _ _ Hq0).
    erewrite run_try_normal.
    2:{ rewrite run_fetch_response. cbv beta. cbn [fst snd]. rewrite Hok, run_bind_ret.
        cbn [json_of]. rewrite run_bind_ret. unfold lift. rewrite Hdocs, run_bind_ret.
        fold q1. rewrite (run_bind_normal _ _ _ _ _ Hrender), run_bind_modify.
        reflexivity. }
    cbn [snd].
    match goal with
    | |- context [status_after ?so ?s ?q] =>
        assert (Hafter : (status_after so s q).(clearRag) = q.(clearRag)
                         /\ (status_after so s q).(ragSummaryText) = q.(ragSummaryText))
    end.
    { unfold status_after, setRagStatus.
      repeat match goal with
             | |- context [match ?x with _ => _ end] => destruct x
             end; split; reflexivity. }
    destruct Hafter as (-> & ->).
    assert (Hname : forall q : Page,
              (match q.(ragModelName) with
               | Some _ =>
                   if Js.truthy data && Js.truthy (Js.get_opt data "embedding_model")
                   then set_ragModelName
                          (Some (Js.text_of (Js.get_opt data "embedding_model"))) q
                   else q
               | None => q
               end).(clearRag) = q.(clearRag)
              /\ (match q.(ragModelName) with
                  | Some _ =>
                      if Js.truthy data && Js.truthy (Js.get_opt data "embedding_model")
                      then set_ragModelName
                             (Some (Js.text_of (Js.get_opt data "embedding_model"))) q
                      else q
                  | None => q
                  end).(ragSummaryText) = q.(ragSummaryText)).
    { intros q. destruct q.(ragModelName); [destruct (_ && _) |]; split; reflexivity. }
    destruct (Hname q2) as (-> & ->).
    rewrite Hc2, Hs2. subst q1. cbn [clearRag ragSummaryText set_requests].
    rewrite Hc0, Hs0. split; reflexivity.
Qed.

Lemma kb_clear_button_follows_documents_witness :
  (exec (RagJs.fetchRagDocs example_StringToNumber example_Date
           (Response 200 (Parsed one_document)) None) chat_page).(clearRag) = Some false
  /\ (exec (RagJs.fetchRagDocs example_StringToNumber example_Date
              (Response 200 (Parsed one_document)) None) chat_page).(ragSummaryText)
     = Some "Texter: 1 • 1 utdrag."
  /\ (exec (RagJs.fetchRagDocs example_StringToNumber example_Date
              (NetworkError "Failed to fetch") None) chat_page).(clearRag) = Some true.
Proof.
  destruct (kb_clear_button_follows_documents example_StringToNumber example_Date
              (Response 200 (Parsed one_document)) None chat_page) as (_ & Hlisted).
  destruct (Hlisted 200%nat one_document eq_refl eq_refl eq_refl ltac:(repeat constructor))
    as (Hclear & Hsummary).
  split; [exact Hclear | split; [exact Hsummary |]].
  exact (proj1 (kb_clear_button_follows_documents example_StringToNumber example_Date
                  (NetworkError "Failed to fetch") None chat_page)
           "Failed to fetch" eq_refl).
Defined.

(** ** The recording *)

Lemma addMsg_assistant_page text p :
  exists q, addMsg "assistant" text p = (Normal tt, q)
            /\ q.(history) = (p.(history) ++ [assistant_message (Js.text_of text)])%list
            /\ q.(prompt) = p.(prompt).
Proof.
  destruct (addMsg_returns "assistant" text p) as (q & Hq).
  destruct (addMsg_assistant text p) as (Hh & Hp & _).
  unfold exec in Hh, Hp. rewrite Hq in Hh, Hp. exists q. repeat split; assumption.
Qed.

(** X16. What a recording does to the page. The call returns. When
    the server answers with a text, the text is put after the prompt, one
    space between them (none when the prompt was empty), and the history
    is as it was; when it answers without a text, the prompt is as it was
    and the history grows by [Ingen text hittades i inspelningen.]; when
    the request fails (a transport error or a status outside 200..299),
    the prompt is as it was and the history grows by
    [Transkriberingsfel: ] and the reason. *)
Theorem transcription_extends_prompt (form : Body) (ans : FetchResult) (p : Page) :
  let run := sendAudioForTranscription form ans in
  returns run p = true
  /\ (forall status data heard,
        ans = Response status (Parsed data) -> ok status = true ->
        Js.get data "text" = inr heard ->
        if Js.truthy heard
        then (exec run p).(prompt) = dictated p.(prompt) heard
             /\ (exec run p).(history) = p.(history)
        else (exec run p).(prompt) = p.(prompt)
             /\ (exec run p).(history)
                = (p.(history)
                   ++ [assistant_message "Ingen text hittades i inspelningen."])%list)
  /\ (forall reason, failure_reason ans = Some reason ->
      (exec run p).(prompt) = p.(prompt)
      /\ (exec run p).(history)
         = (p.(history) ++ [assistant_message ("Transkriberingsfel: " +:+ reason)])%list).
Proof.
  intros run. subst run.
  set (q1 := set_requests (p.(requests) ++ [POST "/api/transcribe" form])%list p).
  split; [| split].
  - unfold returns, outcome, sendAudioForTranscription.
    match goal with
    | |- context [try_catch ?m ?h p] => pose proof (try_catch_returns m h p) as Hret
    end.
    unfold returns, outcome in Hret. apply Hret. intros e q.
    destruct (addMsg_returns "assistant" (JStr ("Transkriberingsfel: " +:+ e.(message))) q)
      as (q' & ->).
    reflexivity.
  - intros status data heard -> Hok Hheard.
    unfold exec, sendAudioForTranscription.
    destruct (Js.truthy heard) eqn:Htruthy.
    + erewrite run_try_normal.
      2:{ rewrite run_fetch_response. cbv beta. cbn [fst snd]. rewrite Hok, run_bind_ret.
          cbn [json_of]. rewrite run_bind_ret. unfold lift. rewrite Hheard, run_bind_ret.
          cbv zeta. unfold Js.or. rewrite Htruthy. cbv iota. rewrite Htruthy. reflexivity. }
      split; reflexivity.
    + destruct (addMsg_assistant_page (JStr "Ingen text hittades i inspelningen.") q1)
        as (q2 & Hmsg & Hh & Hp).
      erewrite run_try_normal.
      2:{ rewrite run_fetch_response. cbv beta. cbn [fst snd]. rewrite Hok, run_bind_ret.
          cbn [json_of]. rewrite run_bind_ret. unfold lift. rewrite Hheard, run_bind_ret.
          cbv zeta. unfold Js.or. rewrite Htruthy. cbv iota.
          cbn [Js.truthy String.eqb negb]. fold q1. exact Hmsg. }
      cbn [snd]. rewrite Hh, Hp. split; reflexivity.
  - intros reason Hreason.
    unfold exec, sendAudioForTranscription.
    destruct (addMsg_assistant_page (JStr ("Transkriberingsfel: " +:+ reason)) q1)
      as (q2 & Hmsg & Hh & Hp).
    match goal with
    | |- context [try_catch ?m ?h p] =>
        assert (Hthrown : exists e, m p = (Thrown e, q1) /\ e.(message) = reason)
    end.
    { destruct ans as [msg | status json]; cbn in Hreason.
      - injection Hreason as <-. rewrite run_fetch_error. eexists. split; reflexivity.
      - destruct (ok status) eqn:Hok; [discriminate |]. injection Hreason as <-.
        rewrite run_fetch_response. cbv beta. cbn [fst snd]. rewrite Hok.
        eexists. split; reflexivity. }
    destruct Hthrown as (e & Hthrown & Hmessage).
    rewrite (run_try_thrown _ _ _ _ _ Hthrown), Hmessage, Hmsg.
    cbn [snd]. rewrite Hh, Hp. split; reflexivity.
Qed.

Lemma transcription_extends_prompt_witness :
  let heard := Response 200 (Parsed (JObj [("text", JStr "vad är klockan")])) in
  (exec (sendAudioForTranscription NoBody heard) chat_page).(prompt)
  = " hej  vad är klockan"
  /\ (exec (sendAudioForTranscription NoBody (Response 503 (Parsed JNull)))
           chat_page).(history)
     = [ {| className := "msg assistant"; msg_text := "Transkriberingsfel: HTTP 503" |} ].
Proof.
  cbv zeta. split.
  - destruct (transcription_extends_prompt NoBody
                (Response 200 (Parsed (JObj [("text", JStr "vad är klockan")]))) chat_page)
      as (_ & Hheard & _).
    exact (proj1 (Hheard 200%nat _ (JStr "vad är klockan") eq_refl eq_refl eq_refl)).
  - destruct (transcription_extends_prompt NoBody (Response 503 (Parsed JNull)) chat_page)
      as (_ & _ & Hfailed).
    exact (proj2 (Hfailed "HTTP 503" eq_refl)).
Defined.

(** ** The download of the speech *)

(** X15. The download of the speech: with a last text of the
    assistant, a click asks the server to speak that text. Without one, a
    click appends the notice [Inget svar att läsa upp ännu.] as a message
    of the assistant, which makes the notice the last text: the next
    click asks the server to speak the notice. *)
Theorem download_without_reply_speaks_notice (p : Page) :
  let notice := JStr "Inget svar att läsa upp ännu." in
  (Js.truthy p.(lastAssistantText) = true ->
   on_dlTts_click p
   = (Normal tt,
      set_requests (p.(requests) ++ [POST "/api/tts" (TtsBody p.(lastAssistantText))])%list p))
  /\ (Js.truthy p.(lastAssistantText) = false ->
      let p1 := exec on_dlTts_click p in
      p1.(history)
      = (p.(history) ++ [assistant_message "Inget svar att läsa upp ännu."])%list
      /\ p1.(lastAssistantText) = notice
      /\ on_dlTts_click p1
         = (Normal tt,
            set_requests (p1.(requests) ++ [POST "/api/tts" (TtsBody notice)])%list p1)).
Proof.
  intros notice. subst notice. split.
  - intros Hlast. unfold on_dlTts_click. rewrite run_bind_read, Hlast. reflexivity.
  - intros Hlast p1. subst p1.
    assert (Hfirst : exec on_dlTts_click p
                     = exec (addMsg "assistant" (JStr "Inget svar att läsa upp ännu.")) p).
    { unfold exec, on_dlTts_click. rewrite run_bind_read, Hlast. reflexivity. }
    rewrite Hfirst.
    destruct (addMsg_assistant (JStr "Inget svar att läsa upp ännu.") p)
      as (Hh & _ & _ & _ & Hl).
    split; [exact Hh | split; [exact Hl |]].
    unfold on_dlTts_click. rewrite run_bind_read, Hl. reflexivity.
Qed.

Lemma download_without_reply_speaks_notice_witness :
  let p1 := exec on_dlTts_click chat_page in
  chat_page.(lastAssistantText) = JStr ""
  /\ (exec on_dlTts_click p1).(requests)
     = [POST "/api/tts" (TtsBody (JStr "Inget svar att läsa upp ännu."))].
Proof.
  cbv zeta. split; [reflexivity |].
  destruct (proj2 (download_without_reply_speaks_notice chat_page) eq_refl)
    as (_ & _ & Hsecond).
  unfold exec at 1. rewrite Hsecond. reflexivity.
Defined.

(** ** The connection panel *)

Lemma valid_port n :
  negb (Num.isFinite n) || PrimFloat.leb n 0 = false ->
  Num.isFinite n = true /\ PrimFloat.ltb 0 n = true.
Proof.
  rewrite leb_spec, ltb_spec. unfold Num.isFinite.
  change (Prim2SF 0) with (S754_zero false).
  destruct (Prim2SF n) as [s | s | | s m e]; cbn; try discriminate;
    destruct s; cbn; try discriminate; intros _; split; reflexivity.
Qed.

Lemma above_zero x : PrimFloat.ltb 0 x = true -> PrimFloat.leb x 0 = false.
Proof.
  rewrite leb_spec, ltb_spec. change (Prim2SF 0) with (S754_zero false).
  destruct (Prim2SF x) as [s | s | | s m e]; cbn; try discriminate;
    destruct s; cbn; try discriminate; reflexivity.
Qed.

(** The port that the links are built with is a finite number above
    zero. *)
Lemma info_port_valid StringToNumber loc data :
  let n := Number StringToNumber (info_port StringToNumber loc data) in
  Num.isFinite n = true /\ PrimFloat.ltb 0 n = true.
Proof.
  unfold info_port. cbv zeta.
  match goal with
  | |- context [if negb (Num.isFinite ?n) || PrimFloat.leb ?n 0 then _ else _] =>
      destruct (negb (Num.isFinite n) || PrimFloat.leb n 0) eqn:Hbad
  end.
  - split; reflexivity.
  - apply valid_port. exact Hbad.
Qed.

Lemma scheme_kept loc : drop_final_colon (or_string (scheme_of loc) "http") = scheme_of loc.
Proof. unfold scheme_of. destruct (String.eqb _ _); reflexivity. Qed.

Lemma buildAddressUrl_string StringToNumber loc port s :
  let n := Number StringToNumber port in
  Num.isFinite n = true -> PrimFloat.ltb 0 n = true ->
  buildAddressUrl StringToNumber (JStr s) port (scheme_of loc)
  = inr (address_link (scheme_of loc) n (JStr s)).(href).
Proof.
  intros n Hfin Hpos. subst n. unfold buildAddressUrl, address_link, link_to, port_text.
  cbv zeta. rewrite scheme_kept, Hfin, Hpos. cbn [andb address_host href text_of_address].
  fold (host_of s).
  destruct (String.eqb (scheme_of loc) "https" && _ || _); reflexivity.
Qed.

Lemma buildAddressUrl_no_address StringToNumber v port scheme :
  no_address v = true -> exists e, buildAddressUrl StringToNumber v port scheme = inl e.
Proof.
  unfold buildAddressUrl. destruct v; cbn; intros H; try discriminate; eexists; reflexivity.
Qed.

Lemma append_links_strings StringToNumber loc port addrs : forall links,
  let n := Number StringToNumber port in
  Num.isFinite n = true -> PrimFloat.ltb 0 n = true ->
  Forall is_string addrs ->
  append_links StringToNumber addrs port (scheme_of loc) links
  = (None, (links ++ List.map (address_link (scheme_of loc) n) addrs)%list).
Proof.
  induction addrs as [| addr rest IH]; intros links n Hfin Hpos Hall.
  - cbn. rewrite app_nil_r. reflexivity.
  - inversion Hall as [| ? ? (s & ->) Hrest]; subst.
    cbn [append_links]. rewrite (buildAddressUrl_string _ loc port s Hfin Hpos).
    rewrite (IH _ Hfin Hpos Hrest). cbn [List.map]. rewrite <- app_assoc. reflexivity.
Qed.

Lemma append_links_stopped StringToNumber loc port good bad rest : forall links,
  let n := Number StringToNumber port in
  Num.isFinite n = true -> PrimFloat.ltb 0 n = true ->
  Forall is_string good -> no_address bad = true ->
  exists e,
    append_links StringToNumber (good ++ bad :: rest) port (scheme_of loc) links
    = (Some e, (links ++ List.map (address_link (scheme_of loc) n) good)%list).
Proof.
  induction good as [| addr good IH]; intros links n Hfin Hpos Hall Hbad.
  - cbn [app append_links List.map].
    destruct (buildAddressUrl_no_address StringToNumber bad port (scheme_of loc) Hbad)
      as (e & ->).
    exists e. rewrite app_nil_r. reflexivity.
  - inversion Hall as [| ? ? (s & ->) Hgood]; subst.
    cbn [app append_links]. rewrite (buildAddressUrl_string _ loc port s Hfin Hpos).
    subst n.
    destruct (IH (links ++ [link_to (address_link (scheme_of loc)
                                       (Number StringToNumber port) (JStr s)).(href)])%list
                Hfin Hpos Hgood Hbad) as (e & He).
    exists e. rewrite He. cbn [List.map]. rewrite <- app_assoc. reflexivity.
Qed.

(** X26. The links of the connection panel. For an answer with a
    non-empty array of addresses, all strings, the panel shows the
    introduction and one link per address, in order. The port of the
    links is always a finite number above zero: the port the server
    reports when that is one, and 8000 when the server reports none and
    the page has the default port of its scheme. Every link is
    [scheme://host] followed by the port, unless the port is the one the
    scheme implies (443 for https, 80 for http), with an address that
    holds a colon put in brackets; its text is its address, and it opens
    in a new tab with [rel="noopener noreferrer"]. *)
Theorem fetchAppInfo_links (StringToNumber : string -> float) (loc : Location)
    (status : nat) (data : JsVal) (addrs : list JsVal) (c : Connect)
    (text : string) (links : list Link) :
  c.(connectText) = Some text -> c.(connectList) = Some links ->
  ok status = true -> Js.get data "addresses" = inr (JArr addrs) ->
  addrs <> [] -> Forall is_string addrs ->
  let n := Number StringToNumber (info_port StringToNumber loc data) in
  Num.isFinite n = true /\ PrimFloat.ltb 0 n = true
  /\ (forall x, Js.get_opt data "port" = JNum x ->
      Num.isFinite x = true -> PrimFloat.ltb 0 x = true -> n = x)
  /\ (Js.is_nullish (Js.get_opt data "port") = true -> loc.(location_port) = "" ->
      n = 8000%float)
  /\ fetchAppInfo StringToNumber loc (Response status (Parsed data)) c
     = panel "Öppna någon av följande adresser i webbläsaren på en annan dator i samma nätverk:"
         (List.map (address_link (scheme_of loc) n) addrs)
  /\ (forall link, In link (List.map (address_link (scheme_of loc) n) addrs) ->
      link.(target) = "_blank" /\ link.(rel) = "noopener noreferrer"
      /\ link.(link_text) = link.(href)).
Proof.
  intros Htext Hlinks Hok Haddrs Hne Hall n.
  destruct (info_port_valid StringToNumber loc data) as (Hfin & Hpos). fold n in Hfin, Hpos.
  split; [exact Hfin | split; [exact Hpos | split; [| split; [| split]]]].
  - intros x Hx Hxfin Hxpos. subst n. unfold info_port. rewrite Hx.
    cbn [Js.is_nullish Number]. rewrite Hxfin, (above_zero x Hxpos). reflexivity.
  - intros Hnull Hport. subst n. unfold info_port. rewrite Hnull, Hport. reflexivity.
  - unfold fetchAppInfo. rewrite Htext, Hlinks, Hok. cbn [negb]. rewrite Haddrs.
    cbv zeta. fold (scheme_of loc).
    destruct addrs as [| addr rest]; [congruence |].
    rewrite (append_links_strings StringToNumber loc _ (addr :: rest) [] Hfin Hpos Hall).
    reflexivity.
  - intros link Hin. apply in_map_iff in Hin. destruct Hin as (addr & <- & _).
    repeat split.
Qed.

Lemma fetchAppInfo_links_witness :
  fetchAppInfo example_StringToNumber example_location
    (Response 200 (Parsed (JObj [("addresses", JArr [JStr "192.168.1.5"; JStr "fe80::1"])])))
    empty_panel
  = panel "Öppna någon av följande adresser i webbläsaren på en annan dator i samma nätverk:"
      [ link_to "http://192.168.1.5:8000"; link_to "http://[fe80::1]:8000" ].
Proof.
  destruct (fetchAppInfo_links example_StringToNumber example_location 200
              (JObj [("addresses", JArr [JStr "192.168.1.5"; JStr "fe80::1"])])
              [JStr "192.168.1.5"; JStr "fe80::1"] empty_panel "" []
              eq_refl eq_refl eq_refl eq_refl ltac:(discriminate)
              ltac:(repeat constructor; eexists; reflexivity))
    as (_ & _ & _ & _ & Hrun & _).
  rewrite Hrun. vm_compute. reflexivity.
Defined.

(** X25. The connection panel without links. A page without the
    panel is left alone. When the info cannot be read (a transport error,
    a status outside 200..299, a body that is no JSON or is [null]), the
    panel shows the failure text and an empty list. When the answer holds
    no addresses, it shows the hint to run [hostname -I] and an empty
    list. When an address is no string (a number, a boolean, an object,
    [null]), the loop stops there: the panel shows the failure text, and
    the links of the addresses before it stay in the list. *)
Theorem fetchAppInfo_without_links (StringToNumber : string -> float) (loc : Location)
    (ans : FetchResult) (c : Connect) :
  let c' := fetchAppInfo StringToNumber loc ans c in
  (c.(connectText) = None \/ c.(connectList) = None -> c' = c)
  /\ (forall text links, c.(connectText) = Some text -> c.(connectList) = Some links ->
      (info_unreadable ans = true -> c' = panel info_failure_text [])
      /\ (forall status data listed,
            ans = Response status (Parsed data) -> ok status = true ->
            Js.get data "addresses" = inr listed ->
            (no_addresses listed = true ->
             c' = panel "Hittade inga IP-adresser automatiskt. Kör `hostname -I` på servern för att se adressen." [])
            /\ (forall good bad rest,
                  listed = JArr (good ++ bad :: rest) ->
                  Forall is_string good -> no_address bad = true ->
                  c' = panel info_failure_text
                         (List.map
                            (address_link (scheme_of loc)
                               (Number StringToNumber (info_port StringToNumber loc data)))
                            good)))).
Proof.
  intros c'. subst c'. split.
  - unfold fetchAppInfo. intros [H | H]; rewrite H; [| destruct c.(connectText)]; reflexivity.
  - intros text links Htext Hlinks. unfold fetchAppInfo. rewrite Htext, Hlinks. split.
    + intros Hbad. destruct ans as [msg | status [msg | data]]; cbn in Hbad.
      * reflexivity.
      * destruct (ok status); reflexivity.
      * destruct (ok status); cbn in *; [| reflexivity].
        destruct data; try discriminate Hbad; reflexivity.
    + intros status data listed -> Hok Hlisted. rewrite Hok, Hlisted. cbn [negb].
      cbv zeta. fold (scheme_of loc). split.
      * intros Hnone. destruct listed as [| | | | | [| addr rest] |];
          try discriminate Hnone; reflexivity.
      * intros good bad rest -> Hgood Hbad.
        destruct (info_port_valid StringToNumber loc data) as (Hfin & Hpos).
        destruct (append_links_stopped StringToNumber loc
                    (info_port StringToNumber loc data) good bad rest [] Hfin Hpos
                    Hgood Hbad) as (e & Hrun).
        rewrite Hrun. destruct good; reflexivity.
Qed.

Lemma fetchAppInfo_without_links_witness :
  fetchAppInfo example_StringToNumber example_location
    (Response 200 (Parsed (JObj [("addresses", JArr [JStr "10.0.0.2"; JNum 5; JStr "x"])])))
    empty_panel
  = panel info_failure_text [ link_to "http://10.0.0.2:8000" ]
  /\ fetchAppInfo example_StringToNumber example_location
       (Response 500 (Parsed (JObj []))) empty_panel
     = panel info_failure_text [].
Proof.
  destruct (fetchAppInfo_without_links example_StringToNumber example_location
              (Response 200
                 (Parsed (JObj [("addresses", JArr [JStr "10.0.0.2"; JNum 5; JStr "x"])])))
              empty_panel) as (_ & Hpanel).
  destruct (Hpanel "" [] eq_refl eq_refl) as (_ & Hlisted).
  destruct (Hlisted 200%nat _ _ eq_refl eq_refl eq_refl) as (_ & Hstopped).
  split.
  - rewrite (Hstopped [JStr "10.0.0.2"] (JNum 5) [JStr "x"] eq_refl
               ltac:(repeat constructor; eexists; reflexivity) eq_refl).
    vm_compute. reflexivity.
  - destruct (fetchAppInfo_without_links example_StringToNumber example_location
                (Response 500 (Parsed (JObj []))) empty_panel) as (_ & Hpanel').
    exact (proj1 (Hpanel' "" [] eq_refl eq_refl) eq_refl).
Defined.

(** ** The endpoint shown *)

Lemma append_cons a s t : String a s +:+ t = String a (s +:+ t).
Proof. reflexivity. Qed.

Lemma prefix_step a b needle s :
  String.prefix (String a needle) (String b s)
  = if ascii_dec a b then String.prefix needle s else false.
Proof. reflexivity. Qed.

Lemma prefix_nil s : String.prefix "" s = true.
Proof. destruct s; reflexivity. Qed.

(** ["/api"] does not overlap itself: it starts inside [s +:+ "/api"] at
    the front only if it starts [s]. *)
Lemma prefix_api_app s :
  s <> "" -> String.prefix "/api" (s +:+ "/api") = String.prefix "/api" s.
Proof.
  intros Hs.
  destruct s as [| a [| b [| c [| d s]]]]; [contradiction | | | |];
    rewrite ?append_cons, !prefix_step;
    repeat match goal with
           | |- context [ascii_dec ?x ?y] =>
               destruct (ascii_dec x y); try discriminate; subst
           end;
    rewrite ?prefix_step, ?prefix_nil;
    repeat match goal with
           | |- context [ascii_dec ?x ?y] =>
               destruct (ascii_dec x y); try discriminate; subst
           end;
    try reflexivity.
Qed.

(** X27. The endpoint shown on the page is the origin followed by
    a slash, for every origin that does not hold [/api] (in which the
    replacement would hit the origin itself). *)
Theorem endpoint_text_of_origin (origin : string) :
  contains "/api" origin = false -> endpoint_text origin = origin +:+ "/".
Proof.
  unfold endpoint_text. induction origin as [| a rest IH]; intros Hfree.
  - reflexivity.
  - change (contains "/api" (String a rest))
      with (String.prefix "/api" (String a rest) || contains "/api" rest) in Hfree.
    apply orb_false_iff in Hfree. destruct Hfree as (Hhead & Hrest).
    rewrite !append_cons.
    change (replace_first "/api" "/" (String a (rest +:+ "/api")))
      with (if String.prefix "/api" (String a (rest +:+ "/api"))
            then "/" +:+ String.substring (String.length "/api")
                           (String.length (String a (rest +:+ "/api"))
                            - String.length "/api")
                           (String a (rest +:+ "/api"))
            else String a (replace_first "/api" "/" (rest +:+ "/api"))).
    rewrite <- append_cons, prefix_api_app, Hhead by discriminate.
    rewrite (IH Hrest). reflexivity.
Qed.

Lemma endpoint_text_of_origin_witness :
  endpoint_text "http://192.168.1.5:8000" = "http://192.168.1.5:8000/".
Proof. exact (endpoint_text_of_origin "http://192.168.1.5:8000" eq_refl). Defined.

(** ** Sends without retrieval *)

Lemma use_rag_off p :
  p.(ragToggle) = None \/ p.(ragToggle) = Some switched_off -> use_rag p = false.
Proof. unfold use_rag. intros [-> | ->]; reflexivity. Qed.

(** X12. Without documents no retrieval is asked for: after a
    rendering of a snapshot without documents, and after a listing that
    failed, retrieval is not in use (the toggle is off, or the page has
    none), and a send from a page on which retrieval is not in use posts
    the model, the system message, the trimmed prompt and the temperature
    without [use_rag] and [rag_top_k]. *)
Theorem no_documents_no_retrieval
    (parseFloat StringToNumber : string -> float)
    (Date_toLocaleString : JsVal -> option string) (p : Page) :
  (forall payload, documents_of payload = [] ->
   use_rag (exec (renderRagDocs StringToNumber Date_toLocaleString payload) p) = false
   /\ use_rag (exec (renderRagSummary StringToNumber payload) p) = false)
  /\ (forall listed statusOverride reason l,
        failure_reason listed = Some reason -> p.(ragList) = Some l ->
        use_rag (exec (fetchRagDocs StringToNumber Date_toLocaleString listed statusOverride)
                      p) = false)
  /\ (forall ans, Str.trim p.(prompt) <> "" -> use_rag p = false ->
      exists rest,
        (exec (sendPrompt parseFloat ans) p).(requests)
        = (p.(requests)
           ++ POST "/api/chat"
                (ChatBody (or_string (Sel.value p.(model)) (default_model p))
                   [("system", system_prompt); ("user", Str.trim p.(prompt))]
                   (parseFloat p.(temperature)) None)
              :: rest)%list).
Proof.
  split; [| split].
  - intros payload Hdocs.
    assert (Hoff : forall q1, toggle_frame p q1 ->
              use_rag (reconcile_toggle (List.length (documents_of payload)) q1) = false).
    { intros q1 (Ht & _). rewrite Hdocs. apply use_rag_off.
      unfold reconcile_toggle. rewrite Ht.
      destruct p.(ragToggle) as [t |]; [right | left; exact Ht].
      unfold setStoredItem. cbn.
      destruct q1.(window).(localStorage) as [| items [|]]; reflexivity. }
    split.
    + destruct (renderRagDocs_run StringToNumber Date_toLocaleString payload p)
        as (q1 & H1 & Hrun); [rewrite Hdocs; constructor |].
      unfold exec. rewrite Hrun. apply Hoff. exact H1.
    + destruct (renderRagSummary_run StringToNumber payload p) as (q1 & H1 & Hrun).
      unfold exec. rewrite Hrun. apply Hoff. exact H1.
  - intros listed statusOverride reason l Hreason Hl.
    rewrite (fetchRagDocs_failure _ _ listed statusOverride p l reason Hl Hreason).
    apply use_rag_off.
    match goal with
    | |- context [switch_toggle_off ?q] =>
        destruct (switch_toggle_off_spec q) as (_ & _ & _ & Ht)
    end.
    cbv zeta in Ht. rewrite Ht.
    match goal with
    | |- context [ragToggle ?q] => destruct (ragToggle q)
    end; [right | left]; reflexivity.
  - intros ans Hprompt Hrag.
    destruct (chat_exchange_requests (chat_body parseFloat p) (use_rag p) ans
                (page_at_request p)) as (rest & Hrest).
    exists rest. unfold exec in *.
    rewrite (sendPrompt_sends parseFloat ans p Hprompt), Hrest.
    rewrite page_at_request_requests. unfold chat_body. rewrite Hrag. reflexivity.
Qed.

Lemma no_documents_no_retrieval_witness :
  let p := set_prompt "hej"
             (exec (renderRagDocs example_StringToNumber example_Date no_documents)
                   chat_page) in
  use_rag chat_page = true
  /\ exists rest,
       (exec (sendPrompt example_parseFloat answer) p).(requests)
       = POST "/api/chat"
           (ChatBody "llama3.2:1b"
              [("system", system_prompt); ("user", "hej")] 0.7%float None) :: rest.
Proof.
  cbv zeta. split; [reflexivity |].
  destruct (no_documents_no_retrieval example_parseFloat example_StringToNumber example_Date
              (set_prompt "hej"
                 (exec (renderRagDocs example_StringToNumber example_Date no_documents)
                       chat_page))) as (_ & _ & Hsend).
  destruct (Hsend answer ltac:(discriminate) eq_refl) as (rest & Hrest).
  exists rest. exact Hrest.
Defined.

(** ** The summary of the later chat page *)

Lemma renderRagSummary_page StringToNumber payload q :
  let n := List.length (documents_of payload) in
  let c := chunk_count_of StringToNumber payload in
  renderRagSummary StringToNumber payload q
  = (Normal {| count := n; chunkCount := c |},
     reconcile_toggle n
       (match q.(ragSummaryText) with
        | Some _ => set_ragSummaryText (Some (summary_of n c)) q
        | None => q
        end)).
Proof. reflexivity. Qed.

(** X21. The summary of the later chat page: a listing that
    succeeds shows [Ingen text har lagts till ännu.] or the counts of
    documents and chunks in the summary, sends the one request, and leaves
    the list of documents, the status and the history alone. *)
Theorem summary_listing_shows_counts (StringToNumber : string -> float)
    (status : nat) (payload : JsVal) (p : Page) :
  ok status = true ->
  let p' := exec (fetchRagSummary StringToNumber (Response status (Parsed payload))) p in
  p'.(ragSummaryText)
  = option_map
      (fun _ => summary_of (List.length (documents_of payload))
                  (chunk_count_of StringToNumber payload))
      p.(ragSummaryText)
  /\ p'.(requests) = (p.(requests) ++ [GET "/api/rag/docs"])%list
  /\ p'.(ragList) = p.(ragList) /\ p'.(ragStatus) = p.(ragStatus)
  /\ p'.(history) = p.(history).
Proof.
  intros Hok p'. subst p'.
  unfold exec, fetchRagSummary. rewrite run_bind_modify.
  set (p0 := set_summary_text "Hämtar statistik…" p).
  set (q1 := set_requests (p0.(requests) ++ [GET "/api/rag/docs"])%list p0).
  set (n := List.length (documents_of payload)).
  set (c := chunk_count_of StringToNumber payload).
  set (q2 := match q1.(ragSummaryText) with
             | Some _ => set_ragSummaryText (Some (summary_of n c)) q1
             | None => q1
             end).
  erewrite run_try_normal with
    (a := tt)
    (q' := if (n =? 0)%nat
           then set_summary_text "Ingen text har lagts till ännu." (reconcile_toggle n q2)
           else reconcile_toggle n q2).
  2:{ rewrite run_fetch_response. cbv beta. cbn [fst snd]. rewrite Hok, run_bind_ret.
      cbn [json_of]. rewrite run_bind_ret. fold q1.
      rewrite (run_bind_normal _ _ _ _ _ (renderRagSummary_page StringToNumber payload q1)).
      cbn [count]. fold n c q2. destruct (n =? 0)%nat; reflexivity. }
  cbn [snd].
  assert (H2 : q2.(ragSummaryText) = option_map (fun _ => summary_of n c) p.(ragSummaryText)
               /\ q2.(requests) = (p.(requests) ++ [GET "/api/rag/docs"])%list
               /\ q2.(ragList) = p.(ragList) /\ q2.(ragStatus) = p.(ragStatus)
               /\ q2.(history) = p.(history)).
  { subst q2 q1 p0. unfold set_summary_text.
    destruct p.(ragSummaryText) eqn:Hsum; cbn; rewrite ?Hsum; cbn; repeat split;
      try assumption. }
  destruct H2 as (Hs2 & Hr2 & Hl2 & Hst2 & Hh2).
  assert (H3 : forall q : Page,
            (reconcile_toggle n q).(ragSummaryText) = q.(ragSummaryText)
            /\ (reconcile_toggle n q).(requests) = q.(requests)
            /\ (reconcile_toggle n q).(ragList) = q.(ragList)
            /\ (reconcile_toggle n q).(ragStatus) = q.(ragStatus)
            /\ (reconcile_toggle n q).(history) = q.(history)).
  { intros q. unfold reconcile_toggle, setStoredItem, getStoredItem.
    destruct q.(ragToggle) as [t |]; [| repeat split].
    destruct (n =? 0)%nat; cbn.
    - destruct q.(window).(localStorage) as [| items [|]]; repeat split.
    - destruct q.(window).(localStorage) as [| items full]; [repeat split |].
      destruct (items !! STORAGE_KEYS.ragEnabled); repeat split. }
  destruct (H3 q2) as (Hs3 & Hr3 & Hl3 & Hst3 & Hh3).
  destruct (n =? 0)%nat eqn:Hn.
  - unfold set_summary_text. rewrite Hs3, Hs2.
    unfold summary_of. rewrite Hn.
    destruct p.(ragSummaryText); cbn; rewrite ?Hr3, ?Hl3, ?Hst3, ?Hh3;
      repeat split; first [assumption | rewrite Hs3, Hs2; reflexivity].
  - rewrite Hs3, Hr3, Hl3, Hst3, Hh3. repeat split; assumption.
Qed.

Lemma summary_listing_shows_counts_witness :
  (exec (fetchRagSummary example_StringToNumber (Response 200 (Parsed one_document)))
        chat_page).(ragSummaryText) = Some "Texter: 1 • 1 utdrag.".
Proof.
  exact (proj1 (summary_listing_shows_counts example_StringToNumber 200 one_document
                  chat_page eq_refl)).
Defined.

(** The listing of the example: one document. *)
Lemma listing_shows_documents_witness :
  exists items,
    (exec (fetchRagDocs example_StringToNumber example_Date
             (Response 200 (Parsed one_document)) None) chat_page).(ragList) = Some items
    /\ List.length items = 1%nat
    /\ (exec (fetchRagDocs example_StringToNumber example_Date
                (Response 200 (Parsed one_document)) None) chat_page).(ragStatus)
       = Some (plain_status "Texter: 1 • 1 utdrag.").
Proof.
  destruct (listing_shows_documents example_StringToNumber example_Date 200 one_document
              None chat_page [] eq_refl eq_refl ltac:(repeat constructor))
    as (items & Hlist & Hlength & _ & Hstatus).
  exists items. split; [exact Hlist | split; [exact Hlength | exact Hstatus]].
Defined.
